(** * Job portal API: the route handlers over a relational store

    A shallow embedding of the Express route handlers of the job portal
    backend (routes/jobs.js, routes/applications.js, routes/savedJobs.js,
    routes/profile.js, routes/admin.js).  A handler is a function from a
    request and a store to a response and a store; the calls to the
    database client are threaded through a small state-and-exception monad,
    so that an early [return res.status(..)] and the [catch] of every
    handler read as they do in the source. *)

From Stdlib Require Import Ascii String.
From stdpp Require Import base option list sorting gmap strings.

Local Open Scope string_scope.
Local Open Scope nat_scope.
Local Open Scope list_scope.
Set Warnings "-register-all".

(** ** JavaScript values and strings *)

(** A value of a parsed JSON body or query string.  A property that is
    missing ([undefined]) is the [None] of a lookup, so [option jsval] is
    the type of what an expression such as [req.body.role] evaluates to.
    Numbers are the integer-valued ones. *)
Inductive jsval : Type :=
  | JNull
  | JBool (b : bool)
  | JNum (n : Z)
  | JStr (s : string)
  | JArr (l : list jsval)
  | JObj (l : list (string * jsval)).

(** A JavaScript object used as a record of named values. *)
Abbreviation jsobj := (gmap string jsval).

(** [!v] is false: the truthiness of a value. *)
Definition truthy (v : option jsval) : bool :=
  match v with
  | None | Some JNull => false
  | Some (JBool b) => b
  | Some (JNum n) => negb (n =? 0)%Z
  | Some (JStr s) => negb (String.eqb s "")
  | Some (JArr _) | Some (JObj _) => true
  end.

(** [v != null]: neither [null] nor [undefined]. *)
Definition notNullish (v : option jsval) : bool :=
  match v with
  | None | Some JNull => false
  | Some _ => true
  end.

(** [a ?? b] *)
Definition nullish_or (a b : option jsval) : option jsval :=
  if notNullish a then a else b.

(** [a || d] where [d] is a defined value. *)
Definition js_or (a : option jsval) (d : jsval) : jsval :=
  match a with
  | Some v => if truthy a then v else d
  | None => d
  end.

(** A column that receives [undefined] on creation is left to its default, NULL. *)
Definition orNull (a : option jsval) : jsval := default JNull a.

(** A column that receives [undefined] on update keeps its value. *)
Definition orKeep (a : option jsval) (old : jsval) : jsval := default old a.

(** A string is held as the bytes of its UTF-8 form: this is how the text
    of a request arrives and how a literal of this file is read, and an
    ASCII string is its own UTF-8 form.  Comparing two strings, testing a
    string for emptiness and joining strings are the same on the bytes as
    on the characters.  [trim] and [toLowerCase] look at the characters, so
    they go through the code points of the string. *)
Module Unicode.

(** A byte that is not part of a well-formed sequence stands for itself,
    as a number above the code points.  It is no white space and has no
    case, so it is carried through unchanged; the same holds of the bytes
    of an unpaired surrogate. *)
Definition stray (b : N) : N := (0x110000 + b)%N.

Definition continuation (b : N) : bool := ((0x80 <=? b) && (b <=? 0xBF))%N.

Definition two (b1 b2 : N) : option N :=
  let c := ((b1 - 0xC0) * 64 + (b2 - 0x80))%N in
  if ((0xC0 <=? b1) && (b1 <=? 0xDF) && continuation b2 && (0x80 <=? c))%N
  then Some c else None.

Definition three (b1 b2 b3 : N) : option N :=
  let c := ((b1 - 0xE0) * 4096 + (b2 - 0x80) * 64 + (b3 - 0x80))%N in
  if ((0xE0 <=? b1) && (b1 <=? 0xEF) && continuation b2 && continuation b3
      && (0x800 <=? c) && negb ((0xD800 <=? c) && (c <=? 0xDFFF)))%N
  then Some c else None.

Definition four (b1 b2 b3 b4 : N) : option N :=
  let c := ((b1 - 0xF0) * 262144 + (b2 - 0x80) * 4096 + (b3 - 0x80) * 64
            + (b4 - 0x80))%N in
  if ((0xF0 <=? b1) && (b1 <=? 0xF7) && continuation b2 && continuation b3
      && continuation b4 && (0x10000 <=? c) && (c <=? 0x10FFFF))%N
  then Some c else None.

(** The code points of a string. *)
Fixpoint decode (s : string) : list N :=
  match s with
  | EmptyString => []
  | String a1 s1 =>
      let b1 := N_of_ascii a1 in
      if (b1 <? 0x80)%N then b1 :: decode s1
      else
        match s1 with
        | String a2 s2 =>
            let b2 := N_of_ascii a2 in
            match two b1 b2 with
            | Some c => c :: decode s2
            | None =>
                match s2 with
                | String a3 s3 =>
                    let b3 := N_of_ascii a3 in
                    match three b1 b2 b3 with
                    | Some c => c :: decode s3
                    | None =>
                        match s3 with
                        | String a4 s4 =>
                            match four b1 b2 b3 (N_of_ascii a4) with
                            | Some c => c :: decode s4
                            | None => stray b1 :: decode s1
                            end
                        | EmptyString => stray b1 :: decode s1
                        end
                    end
                | EmptyString => stray b1 :: decode s1
                end
            end
        | EmptyString => [stray b1]
        end
  end.

Definition bytes (c : N) : list N :=
  (if c <? 0x80 then [c]
   else if c <? 0x800 then [0xC0 + c / 64; 0x80 + c mod 64]
   else if c <? 0x10000 then
     [0xE0 + c / 4096; 0x80 + (c / 64) mod 64; 0x80 + c mod 64]
   else if c <? 0x110000 then
     [0xF0 + c / 262144; 0x80 + (c / 4096) mod 64; 0x80 + (c / 64) mod 64;
      0x80 + c mod 64]
   else [c - 0x110000])%N.

(** The string of a list of code points. *)
Fixpoint encode (l : list N) : string :=
  match l with
  | [] => EmptyString
  | c :: l' => (string_of_list_ascii (ascii_of_N <$> bytes c) ++ encode l')%string
  end.

(** Membership in a table of ranges, which is sorted. *)
Fixpoint within (c : N) (table : list (N * N)) : bool :=
  match table with
  | [] => false
  | (first, last) :: table' =>
      if (c <? first)%N then false
      else if (c <=? last)%N then true
      else within c table'
  end.

(** A table is sorted when its ranges follow one another from [from] on. *)
Fixpoint ascending (from : N) (table : list (N * N)) : bool :=
  match table with
  | [] => true
  | (first, last) :: table' =>
      (from <=? first)%N && (first <=? last)%N && ascending (last + 1) table'
  end.

(** The entry [(first, last, step, to)] of a table of mappings sends
    [first] to [to], [first + step] to [to + step] and so on up to [last];
    the table is sorted. *)
Fixpoint mapped (c : N) (table : list (N * N * N * N)) : option N :=
  match table with
  | [] => None
  | (first, last, step, to) :: table' =>
      if (c <? first)%N then None
      else if (c <=? last)%N then
        if ((c - first) mod step =? 0)%N then Some (to + (c - first))%N else None
      else mapped c table'
  end.

(** WhiteSpace and LineTerminator of ECMAScript: TAB, LF, VT, FF, CR, the
    code points of the category Zs (space separators), the line and the
    paragraph separator, and U+FEFF. *)
Definition WhiteSpace : list (N * N) :=
  [ (0x09, 0x0D); (0x20, 0x20); (0xA0, 0xA0); (0x1680, 0x1680);
    (0x2000, 0x200A); (0x2028, 0x2029); (0x202F, 0x202F); (0x205F, 0x205F);
    (0x3000, 0x3000); (0xFEFF, 0xFEFF) ]%N.

(** The lowercase mappings of the Unicode Character Database (14.0), but
    for the two of SpecialCasing that [lower] and [sigma] below give. *)
Definition lowercase : list (N * N * N * N) :=
  [ (0x41, 0x5A, 1, 0x61); (0xC0, 0xD6, 1, 0xE0); (0xD8, 0xDE, 1, 0xF8);
    (0x100, 0x12E, 2, 0x101); (0x132, 0x136, 2, 0x133); (0x139, 0x147, 2, 0x13A);
    (0x14A, 0x176, 2, 0x14B); (0x178, 0x178, 1, 0xFF); (0x179, 0x17D, 2, 0x17A);
    (0x181, 0x181, 1, 0x253); (0x182, 0x184, 2, 0x183); (0x186, 0x186, 1, 0x254);
    (0x187, 0x187, 1, 0x188); (0x189, 0x18A, 1, 0x256); (0x18B, 0x18B, 1, 0x18C);
    (0x18E, 0x18E, 1, 0x1DD); (0x18F, 0x18F, 1, 0x259); (0x190, 0x190, 1, 0x25B);
    (0x191, 0x191, 1, 0x192); (0x193, 0x193, 1, 0x260); (0x194, 0x194, 1, 0x263);
    (0x196, 0x196, 1, 0x269); (0x197, 0x197, 1, 0x268); (0x198, 0x198, 1, 0x199);
    (0x19C, 0x19C, 1, 0x26F); (0x19D, 0x19D, 1, 0x272); (0x19F, 0x19F, 1, 0x275);
    (0x1A0, 0x1A4, 2, 0x1A1); (0x1A6, 0x1A6, 1, 0x280); (0x1A7, 0x1A7, 1, 0x1A8);
    (0x1A9, 0x1A9, 1, 0x283); (0x1AC, 0x1AC, 1, 0x1AD); (0x1AE, 0x1AE, 1, 0x288);
    (0x1AF, 0x1AF, 1, 0x1B0); (0x1B1, 0x1B2, 1, 0x28A); (0x1B3, 0x1B5, 2, 0x1B4);
    (0x1B7, 0x1B7, 1, 0x292); (0x1B8, 0x1B8, 1, 0x1B9); (0x1BC, 0x1BC, 1, 0x1BD);
    (0x1C4, 0x1C4, 1, 0x1C6); (0x1C5, 0x1C5, 1, 0x1C6); (0x1C7, 0x1C7, 1, 0x1C9);
    (0x1C8, 0x1C8, 1, 0x1C9); (0x1CA, 0x1CA, 1, 0x1CC); (0x1CB, 0x1DB, 2, 0x1CC);
    (0x1DE, 0x1EE, 2, 0x1DF); (0x1F1, 0x1F1, 1, 0x1F3); (0x1F2, 0x1F4, 2, 0x1F3);
    (0x1F6, 0x1F6, 1, 0x195); (0x1F7, 0x1F7, 1, 0x1BF); (0x1F8, 0x21E, 2, 0x1F9);
    (0x220, 0x220, 1, 0x19E); (0x222, 0x232, 2, 0x223); (0x23A, 0x23A, 1, 0x2C65);
    (0x23B, 0x23B, 1, 0x23C); (0x23D, 0x23D, 1, 0x19A); (0x23E, 0x23E, 1, 0x2C66);
    (0x241, 0x241, 1, 0x242); (0x243, 0x243, 1, 0x180); (0x244, 0x244, 1, 0x289);
    (0x245, 0x245, 1, 0x28C); (0x246, 0x24E, 2, 0x247); (0x370, 0x372, 2, 0x371);
    (0x376, 0x376, 1, 0x377); (0x37F, 0x37F, 1, 0x3F3); (0x386, 0x386, 1, 0x3AC);
    (0x388, 0x38A, 1, 0x3AD); (0x38C, 0x38C, 1, 0x3CC); (0x38E, 0x38F, 1, 0x3CD);
    (0x391, 0x3A1, 1, 0x3B1); (0x3A3, 0x3AB, 1, 0x3C3); (0x3CF, 0x3CF, 1, 0x3D7);
    (0x3D8, 0x3EE, 2, 0x3D9); (0x3F4, 0x3F4, 1, 0x3B8); (0x3F7, 0x3F7, 1, 0x3F8);
    (0x3F9, 0x3F9, 1, 0x3F2); (0x3FA, 0x3FA, 1, 0x3FB); (0x3FD, 0x3FF, 1, 0x37B);
    (0x400, 0x40F, 1, 0x450); (0x410, 0x42F, 1, 0x430); (0x460, 0x480, 2, 0x461);
    (0x48A, 0x4BE, 2, 0x48B); (0x4C0, 0x4C0, 1, 0x4CF); (0x4C1, 0x4CD, 2, 0x4C2);
    (0x4D0, 0x52E, 2, 0x4D1); (0x531, 0x556, 1, 0x561); (0x10A0, 0x10C5, 1, 0x2D00);
    (0x10C7, 0x10C7, 1, 0x2D27); (0x10CD, 0x10CD, 1, 0x2D2D); (0x13A0, 0x13EF, 1, 0xAB70);
    (0x13F0, 0x13F5, 1, 0x13F8); (0x1C90, 0x1CBA, 1, 0x10D0); (0x1CBD, 0x1CBF, 1, 0x10FD);
    (0x1E00, 0x1E94, 2, 0x1E01); (0x1E9E, 0x1E9E, 1, 0xDF); (0x1EA0, 0x1EFE, 2, 0x1EA1);
    (0x1F08, 0x1F0F, 1, 0x1F00); (0x1F18, 0x1F1D, 1, 0x1F10); (0x1F28, 0x1F2F, 1, 0x1F20);
    (0x1F38, 0x1F3F, 1, 0x1F30); (0x1F48, 0x1F4D, 1, 0x1F40); (0x1F59, 0x1F5F, 2, 0x1F51);
    (0x1F68, 0x1F6F, 1, 0x1F60); (0x1F88, 0x1F8F, 1, 0x1F80); (0x1F98, 0x1F9F, 1, 0x1F90);
    (0x1FA8, 0x1FAF, 1, 0x1FA0); (0x1FB8, 0x1FB9, 1, 0x1FB0); (0x1FBA, 0x1FBB, 1, 0x1F70);
    (0x1FBC, 0x1FBC, 1, 0x1FB3); (0x1FC8, 0x1FCB, 1, 0x1F72); (0x1FCC, 0x1FCC, 1, 0x1FC3);
    (0x1FD8, 0x1FD9, 1, 0x1FD0); (0x1FDA, 0x1FDB, 1, 0x1F76); (0x1FE8, 0x1FE9, 1, 0x1FE0);
    (0x1FEA, 0x1FEB, 1, 0x1F7A); (0x1FEC, 0x1FEC, 1, 0x1FE5); (0x1FF8, 0x1FF9, 1, 0x1F78);
    (0x1FFA, 0x1FFB, 1, 0x1F7C); (0x1FFC, 0x1FFC, 1, 0x1FF3); (0x2126, 0x2126, 1, 0x3C9);
    (0x212A, 0x212A, 1, 0x6B); (0x212B, 0x212B, 1, 0xE5); (0x2132, 0x2132, 1, 0x214E);
    (0x2160, 0x216F, 1, 0x2170); (0x2183, 0x2183, 1, 0x2184); (0x24B6, 0x24CF, 1, 0x24D0);
    (0x2C00, 0x2C2F, 1, 0x2C30); (0x2C60, 0x2C60, 1, 0x2C61); (0x2C62, 0x2C62, 1, 0x26B);
    (0x2C63, 0x2C63, 1, 0x1D7D); (0x2C64, 0x2C64, 1, 0x27D); (0x2C67, 0x2C6B, 2, 0x2C68);
    (0x2C6D, 0x2C6D, 1, 0x251); (0x2C6E, 0x2C6E, 1, 0x271); (0x2C6F, 0x2C6F, 1, 0x250);
    (0x2C70, 0x2C70, 1, 0x252); (0x2C72, 0x2C72, 1, 0x2C73); (0x2C75, 0x2C75, 1, 0x2C76);
    (0x2C7E, 0x2C7F, 1, 0x23F); (0x2C80, 0x2CE2, 2, 0x2C81); (0x2CEB, 0x2CED, 2, 0x2CEC);
    (0x2CF2, 0x2CF2, 1, 0x2CF3); (0xA640, 0xA66C, 2, 0xA641); (0xA680, 0xA69A, 2, 0xA681);
    (0xA722, 0xA72E, 2, 0xA723); (0xA732, 0xA76E, 2, 0xA733); (0xA779, 0xA77B, 2, 0xA77A);
    (0xA77D, 0xA77D, 1, 0x1D79); (0xA77E, 0xA786, 2, 0xA77F); (0xA78B, 0xA78B, 1, 0xA78C);
    (0xA78D, 0xA78D, 1, 0x265); (0xA790, 0xA792, 2, 0xA791); (0xA796, 0xA7A8, 2, 0xA797);
    (0xA7AA, 0xA7AA, 1, 0x266); (0xA7AB, 0xA7AB, 1, 0x25C); (0xA7AC, 0xA7AC, 1, 0x261);
    (0xA7AD, 0xA7AD, 1, 0x26C); (0xA7AE, 0xA7AE, 1, 0x26A); (0xA7B0, 0xA7B0, 1, 0x29E);
    (0xA7B1, 0xA7B1, 1, 0x287); (0xA7B2, 0xA7B2, 1, 0x29D); (0xA7B3, 0xA7B3, 1, 0xAB53);
    (0xA7B4, 0xA7C2, 2, 0xA7B5); (0xA7C4, 0xA7C4, 1, 0xA794); (0xA7C5, 0xA7C5, 1, 0x282);
    (0xA7C6, 0xA7C6, 1, 0x1D8E); (0xA7C7, 0xA7C9, 2, 0xA7C8); (0xA7D0, 0xA7D0, 1, 0xA7D1);
    (0xA7D6, 0xA7D8, 2, 0xA7D7); (0xA7F5, 0xA7F5, 1, 0xA7F6); (0xFF21, 0xFF3A, 1, 0xFF41);
    (0x10400, 0x10427, 1, 0x10428); (0x104B0, 0x104D3, 1, 0x104D8); (0x10570, 0x1057A, 1, 0x10597);
    (0x1057C, 0x1058A, 1, 0x105A3); (0x1058C, 0x10592, 1, 0x105B3); (0x10594, 0x10595, 1, 0x105BB);
    (0x10C80, 0x10CB2, 1, 0x10CC0); (0x118A0, 0x118BF, 1, 0x118C0); (0x16E40, 0x16E5F, 1, 0x16E60);
    (0x1E900, 0x1E921, 1, 0x1E922) ]%N.

(** The code points with the property Cased. *)
Definition Cased : list (N * N) :=
  [ (0x41, 0x5A); (0x61, 0x7A); (0xAA, 0xAA); (0xB5, 0xB5);
    (0xBA, 0xBA); (0xC0, 0xD6); (0xD8, 0xF6); (0xF8, 0x1BA);
    (0x1BC, 0x1BF); (0x1C4, 0x293); (0x295, 0x2B8); (0x2C0, 0x2C1);
    (0x2E0, 0x2E4); (0x345, 0x345); (0x370, 0x373); (0x376, 0x377);
    (0x37A, 0x37D); (0x37F, 0x37F); (0x386, 0x386); (0x388, 0x38A);
    (0x38C, 0x38C); (0x38E, 0x3A1); (0x3A3, 0x3F5); (0x3F7, 0x481);
    (0x48A, 0x52F); (0x531, 0x556); (0x560, 0x588); (0x10A0, 0x10C5);
    (0x10C7, 0x10C7); (0x10CD, 0x10CD); (0x10D0, 0x10FA); (0x10FD, 0x10FF);
    (0x13A0, 0x13F5); (0x13F8, 0x13FD); (0x1C80, 0x1C88); (0x1C90, 0x1CBA);
    (0x1CBD, 0x1CBF); (0x1D00, 0x1DBF); (0x1E00, 0x1F15); (0x1F18, 0x1F1D);
    (0x1F20, 0x1F45); (0x1F48, 0x1F4D); (0x1F50, 0x1F57); (0x1F59, 0x1F59);
    (0x1F5B, 0x1F5B); (0x1F5D, 0x1F5D); (0x1F5F, 0x1F7D); (0x1F80, 0x1FB4);
    (0x1FB6, 0x1FBC); (0x1FBE, 0x1FBE); (0x1FC2, 0x1FC4); (0x1FC6, 0x1FCC);
    (0x1FD0, 0x1FD3); (0x1FD6, 0x1FDB); (0x1FE0, 0x1FEC); (0x1FF2, 0x1FF4);
    (0x1FF6, 0x1FFC); (0x2071, 0x2071); (0x207F, 0x207F); (0x2090, 0x209C);
    (0x2102, 0x2102); (0x2107, 0x2107); (0x210A, 0x2113); (0x2115, 0x2115);
    (0x2119, 0x211D); (0x2124, 0x2124); (0x2126, 0x2126); (0x2128, 0x2128);
    (0x212A, 0x212D); (0x212F, 0x2134); (0x2139, 0x2139); (0x213C, 0x213F);
    (0x2145, 0x2149); (0x214E, 0x214E); (0x2160, 0x217F); (0x2183, 0x2184);
    (0x24B6, 0x24E9); (0x2C00, 0x2CE4); (0x2CEB, 0x2CEE); (0x2CF2, 0x2CF3);
    (0x2D00, 0x2D25); (0x2D27, 0x2D27); (0x2D2D, 0x2D2D); (0xA640, 0xA66D);
    (0xA680, 0xA69D); (0xA722, 0xA787); (0xA78B, 0xA78E); (0xA790, 0xA7CA);
    (0xA7D0, 0xA7D1); (0xA7D3, 0xA7D3); (0xA7D5, 0xA7D9); (0xA7F5, 0xA7F6);
    (0xA7F8, 0xA7FA); (0xAB30, 0xAB5A); (0xAB5C, 0xAB68); (0xAB70, 0xABBF);
    (0xFB00, 0xFB06); (0xFB13, 0xFB17); (0xFF21, 0xFF3A); (0xFF41, 0xFF5A);
    (0x10400, 0x1044F); (0x104B0, 0x104D3); (0x104D8, 0x104FB); (0x10570, 0x1057A);
    (0x1057C, 0x1058A); (0x1058C, 0x10592); (0x10594, 0x10595); (0x10597, 0x105A1);
    (0x105A3, 0x105B1); (0x105B3, 0x105B9); (0x105BB, 0x105BC); (0x10780, 0x10780);
    (0x10783, 0x10785); (0x10787, 0x107B0); (0x107B2, 0x107BA); (0x10C80, 0x10CB2);
    (0x10CC0, 0x10CF2); (0x118A0, 0x118DF); (0x16E40, 0x16E7F); (0x1D400, 0x1D454);
    (0x1D456, 0x1D49C); (0x1D49E, 0x1D49F); (0x1D4A2, 0x1D4A2); (0x1D4A5, 0x1D4A6);
    (0x1D4A9, 0x1D4AC); (0x1D4AE, 0x1D4B9); (0x1D4BB, 0x1D4BB); (0x1D4BD, 0x1D4C3);
    (0x1D4C5, 0x1D505); (0x1D507, 0x1D50A); (0x1D50D, 0x1D514); (0x1D516, 0x1D51C);
    (0x1D51E, 0x1D539); (0x1D53B, 0x1D53E); (0x1D540, 0x1D544); (0x1D546, 0x1D546);
    (0x1D54A, 0x1D550); (0x1D552, 0x1D6A5); (0x1D6A8, 0x1D6C0); (0x1D6C2, 0x1D6DA);
    (0x1D6DC, 0x1D6FA); (0x1D6FC, 0x1D714); (0x1D716, 0x1D734); (0x1D736, 0x1D74E);
    (0x1D750, 0x1D76E); (0x1D770, 0x1D788); (0x1D78A, 0x1D7A8); (0x1D7AA, 0x1D7C2);
    (0x1D7C4, 0x1D7CB); (0x1DF00, 0x1DF09); (0x1DF0B, 0x1DF1E); (0x1E900, 0x1E943);
    (0x1F130, 0x1F149); (0x1F150, 0x1F169); (0x1F170, 0x1F189) ]%N.

(** The code points with the property Case_Ignorable. *)
Definition Case_Ignorable : list (N * N) :=
  [ (0x27, 0x27); (0x2E, 0x2E); (0x3A, 0x3A); (0x5E, 0x5E);
    (0x60, 0x60); (0xA8, 0xA8); (0xAD, 0xAD); (0xAF, 0xAF);
    (0xB4, 0xB4); (0xB7, 0xB8); (0x2B0, 0x36F); (0x374, 0x375);
    (0x37A, 0x37A); (0x384, 0x385); (0x387, 0x387); (0x483, 0x489);
    (0x559, 0x559); (0x55F, 0x55F); (0x591, 0x5BD); (0x5BF, 0x5BF);
    (0x5C1, 0x5C2); (0x5C4, 0x5C5); (0x5C7, 0x5C7); (0x5F4, 0x5F4);
    (0x600, 0x605); (0x610, 0x61A); (0x61C, 0x61C); (0x640, 0x640);
    (0x64B, 0x65F); (0x670, 0x670); (0x6D6, 0x6DD); (0x6DF, 0x6E8);
    (0x6EA, 0x6ED); (0x70F, 0x70F); (0x711, 0x711); (0x730, 0x74A);
    (0x7A6, 0x7B0); (0x7EB, 0x7F5); (0x7FA, 0x7FA); (0x7FD, 0x7FD);
    (0x816, 0x82D); (0x859, 0x85B); (0x888, 0x888); (0x890, 0x891);
    (0x898, 0x89F); (0x8C9, 0x902); (0x93A, 0x93A); (0x93C, 0x93C);
    (0x941, 0x948); (0x94D, 0x94D); (0x951, 0x957); (0x962, 0x963);
    (0x971, 0x971); (0x981, 0x981); (0x9BC, 0x9BC); (0x9C1, 0x9C4);
    (0x9CD, 0x9CD); (0x9E2, 0x9E3); (0x9FE, 0x9FE); (0xA01, 0xA02);
    (0xA3C, 0xA3C); (0xA41, 0xA42); (0xA47, 0xA48); (0xA4B, 0xA4D);
    (0xA51, 0xA51); (0xA70, 0xA71); (0xA75, 0xA75); (0xA81, 0xA82);
    (0xABC, 0xABC); (0xAC1, 0xAC5); (0xAC7, 0xAC8); (0xACD, 0xACD);
    (0xAE2, 0xAE3); (0xAFA, 0xAFF); (0xB01, 0xB01); (0xB3C, 0xB3C);
    (0xB3F, 0xB3F); (0xB41, 0xB44); (0xB4D, 0xB4D); (0xB55, 0xB56);
    (0xB62, 0xB63); (0xB82, 0xB82); (0xBC0, 0xBC0); (0xBCD, 0xBCD);
    (0xC00, 0xC00); (0xC04, 0xC04); (0xC3C, 0xC3C); (0xC3E, 0xC40);
    (0xC46, 0xC48); (0xC4A, 0xC4D); (0xC55, 0xC56); (0xC62, 0xC63);
    (0xC81, 0xC81); (0xCBC, 0xCBC); (0xCBF, 0xCBF); (0xCC6, 0xCC6);
    (0xCCC, 0xCCD); (0xCE2, 0xCE3); (0xD00, 0xD01); (0xD3B, 0xD3C);
    (0xD41, 0xD44); (0xD4D, 0xD4D); (0xD62, 0xD63); (0xD81, 0xD81);
    (0xDCA, 0xDCA); (0xDD2, 0xDD4); (0xDD6, 0xDD6); (0xE31, 0xE31);
    (0xE34, 0xE3A); (0xE46, 0xE4E); (0xEB1, 0xEB1); (0xEB4, 0xEBC);
    (0xEC6, 0xEC6); (0xEC8, 0xECD); (0xF18, 0xF19); (0xF35, 0xF35);
    (0xF37, 0xF37); (0xF39, 0xF39); (0xF71, 0xF7E); (0xF80, 0xF84);
    (0xF86, 0xF87); (0xF8D, 0xF97); (0xF99, 0xFBC); (0xFC6, 0xFC6);
    (0x102D, 0x1030); (0x1032, 0x1037); (0x1039, 0x103A); (0x103D, 0x103E);
    (0x1058, 0x1059); (0x105E, 0x1060); (0x1071, 0x1074); (0x1082, 0x1082);
    (0x1085, 0x1086); (0x108D, 0x108D); (0x109D, 0x109D); (0x10FC, 0x10FC);
    (0x135D, 0x135F); (0x1712, 0x1714); (0x1732, 0x1733); (0x1752, 0x1753);
    (0x1772, 0x1773); (0x17B4, 0x17B5); (0x17B7, 0x17BD); (0x17C6, 0x17C6);
    (0x17C9, 0x17D3); (0x17D7, 0x17D7); (0x17DD, 0x17DD); (0x180B, 0x180F);
    (0x1843, 0x1843); (0x1885, 0x1886); (0x18A9, 0x18A9); (0x1920, 0x1922);
    (0x1927, 0x1928); (0x1932, 0x1932); (0x1939, 0x193B); (0x1A17, 0x1A18);
    (0x1A1B, 0x1A1B); (0x1A56, 0x1A56); (0x1A58, 0x1A5E); (0x1A60, 0x1A60);
    (0x1A62, 0x1A62); (0x1A65, 0x1A6C); (0x1A73, 0x1A7C); (0x1A7F, 0x1A7F);
    (0x1AA7, 0x1AA7); (0x1AB0, 0x1ACE); (0x1B00, 0x1B03); (0x1B34, 0x1B34);
    (0x1B36, 0x1B3A); (0x1B3C, 0x1B3C); (0x1B42, 0x1B42); (0x1B6B, 0x1B73);
    (0x1B80, 0x1B81); (0x1BA2, 0x1BA5); (0x1BA8, 0x1BA9); (0x1BAB, 0x1BAD);
    (0x1BE6, 0x1BE6); (0x1BE8, 0x1BE9); (0x1BED, 0x1BED); (0x1BEF, 0x1BF1);
    (0x1C2C, 0x1C33); (0x1C36, 0x1C37); (0x1C78, 0x1C7D); (0x1CD0, 0x1CD2);
    (0x1CD4, 0x1CE0); (0x1CE2, 0x1CE8); (0x1CED, 0x1CED); (0x1CF4, 0x1CF4);
    (0x1CF8, 0x1CF9); (0x1D2C, 0x1D6A); (0x1D78, 0x1D78); (0x1D9B, 0x1DFF);
    (0x1FBD, 0x1FBD); (0x1FBF, 0x1FC1); (0x1FCD, 0x1FCF); (0x1FDD, 0x1FDF);
    (0x1FED, 0x1FEF); (0x1FFD, 0x1FFE); (0x200B, 0x200F); (0x2018, 0x2019);
    (0x2024, 0x2024); (0x2027, 0x2027); (0x202A, 0x202E); (0x2060, 0x2064);
    (0x2066, 0x206F); (0x2071, 0x2071); (0x207F, 0x207F); (0x2090, 0x209C);
    (0x20D0, 0x20F0); (0x2C7C, 0x2C7D); (0x2CEF, 0x2CF1); (0x2D6F, 0x2D6F);
    (0x2D7F, 0x2D7F); (0x2DE0, 0x2DFF); (0x2E2F, 0x2E2F); (0x3005, 0x3005);
    (0x302A, 0x302D); (0x3031, 0x3035); (0x303B, 0x303B); (0x3099, 0x309E);
    (0x30FC, 0x30FE); (0xA015, 0xA015); (0xA4F8, 0xA4FD); (0xA60C, 0xA60C);
    (0xA66F, 0xA672); (0xA674, 0xA67D); (0xA67F, 0xA67F); (0xA69C, 0xA69F);
    (0xA6F0, 0xA6F1); (0xA700, 0xA721); (0xA770, 0xA770); (0xA788, 0xA78A);
    (0xA7F2, 0xA7F4); (0xA7F8, 0xA7F9); (0xA802, 0xA802); (0xA806, 0xA806);
    (0xA80B, 0xA80B); (0xA825, 0xA826); (0xA82C, 0xA82C); (0xA8C4, 0xA8C5);
    (0xA8E0, 0xA8F1); (0xA8FF, 0xA8FF); (0xA926, 0xA92D); (0xA947, 0xA951);
    (0xA980, 0xA982); (0xA9B3, 0xA9B3); (0xA9B6, 0xA9B9); (0xA9BC, 0xA9BD);
    (0xA9CF, 0xA9CF); (0xA9E5, 0xA9E6); (0xAA29, 0xAA2E); (0xAA31, 0xAA32);
    (0xAA35, 0xAA36); (0xAA43, 0xAA43); (0xAA4C, 0xAA4C); (0xAA70, 0xAA70);
    (0xAA7C, 0xAA7C); (0xAAB0, 0xAAB0); (0xAAB2, 0xAAB4); (0xAAB7, 0xAAB8);
    (0xAABE, 0xAABF); (0xAAC1, 0xAAC1); (0xAADD, 0xAADD); (0xAAEC, 0xAAED);
    (0xAAF3, 0xAAF4); (0xAAF6, 0xAAF6); (0xAB5B, 0xAB5F); (0xAB69, 0xAB6B);
    (0xABE5, 0xABE5); (0xABE8, 0xABE8); (0xABED, 0xABED); (0xFB1E, 0xFB1E);
    (0xFBB2, 0xFBC2); (0xFE00, 0xFE0F); (0xFE13, 0xFE13); (0xFE20, 0xFE2F);
    (0xFE52, 0xFE52); (0xFE55, 0xFE55); (0xFEFF, 0xFEFF); (0xFF07, 0xFF07);
    (0xFF0E, 0xFF0E); (0xFF1A, 0xFF1A); (0xFF3E, 0xFF3E); (0xFF40, 0xFF40);
    (0xFF70, 0xFF70); (0xFF9E, 0xFF9F); (0xFFE3, 0xFFE3); (0xFFF9, 0xFFFB);
    (0x101FD, 0x101FD); (0x102E0, 0x102E0); (0x10376, 0x1037A); (0x10780, 0x10785);
    (0x10787, 0x107B0); (0x107B2, 0x107BA); (0x10A01, 0x10A03); (0x10A05, 0x10A06);
    (0x10A0C, 0x10A0F); (0x10A38, 0x10A3A); (0x10A3F, 0x10A3F); (0x10AE5, 0x10AE6);
    (0x10D24, 0x10D27); (0x10EAB, 0x10EAC); (0x10F46, 0x10F50); (0x10F82, 0x10F85);
    (0x11001, 0x11001); (0x11038, 0x11046); (0x11070, 0x11070); (0x11073, 0x11074);
    (0x1107F, 0x11081); (0x110B3, 0x110B6); (0x110B9, 0x110BA); (0x110BD, 0x110BD);
    (0x110C2, 0x110C2); (0x110CD, 0x110CD); (0x11100, 0x11102); (0x11127, 0x1112B);
    (0x1112D, 0x11134); (0x11173, 0x11173); (0x11180, 0x11181); (0x111B6, 0x111BE);
    (0x111C9, 0x111CC); (0x111CF, 0x111CF); (0x1122F, 0x11231); (0x11234, 0x11234);
    (0x11236, 0x11237); (0x1123E, 0x1123E); (0x112DF, 0x112DF); (0x112E3, 0x112EA);
    (0x11300, 0x11301); (0x1133B, 0x1133C); (0x11340, 0x11340); (0x11366, 0x1136C);
    (0x11370, 0x11374); (0x11438, 0x1143F); (0x11442, 0x11444); (0x11446, 0x11446);
    (0x1145E, 0x1145E); (0x114B3, 0x114B8); (0x114BA, 0x114BA); (0x114BF, 0x114C0);
    (0x114C2, 0x114C3); (0x115B2, 0x115B5); (0x115BC, 0x115BD); (0x115BF, 0x115C0);
    (0x115DC, 0x115DD); (0x11633, 0x1163A); (0x1163D, 0x1163D); (0x1163F, 0x11640);
    (0x116AB, 0x116AB); (0x116AD, 0x116AD); (0x116B0, 0x116B5); (0x116B7, 0x116B7);
    (0x1171D, 0x1171F); (0x11722, 0x11725); (0x11727, 0x1172B); (0x1182F, 0x11837);
    (0x11839, 0x1183A); (0x1193B, 0x1193C); (0x1193E, 0x1193E); (0x11943, 0x11943);
    (0x119D4, 0x119D7); (0x119DA, 0x119DB); (0x119E0, 0x119E0); (0x11A01, 0x11A0A);
    (0x11A33, 0x11A38); (0x11A3B, 0x11A3E); (0x11A47, 0x11A47); (0x11A51, 0x11A56);
    (0x11A59, 0x11A5B); (0x11A8A, 0x11A96); (0x11A98, 0x11A99); (0x11C30, 0x11C36);
    (0x11C38, 0x11C3D); (0x11C3F, 0x11C3F); (0x11C92, 0x11CA7); (0x11CAA, 0x11CB0);
    (0x11CB2, 0x11CB3); (0x11CB5, 0x11CB6); (0x11D31, 0x11D36); (0x11D3A, 0x11D3A);
    (0x11D3C, 0x11D3D); (0x11D3F, 0x11D45); (0x11D47, 0x11D47); (0x11D90, 0x11D91);
    (0x11D95, 0x11D95); (0x11D97, 0x11D97); (0x11EF3, 0x11EF4); (0x13430, 0x13438);
    (0x16AF0, 0x16AF4); (0x16B30, 0x16B36); (0x16B40, 0x16B43); (0x16F4F, 0x16F4F);
    (0x16F8F, 0x16F9F); (0x16FE0, 0x16FE1); (0x16FE3, 0x16FE4); (0x1AFF0, 0x1AFF3);
    (0x1AFF5, 0x1AFFB); (0x1AFFD, 0x1AFFE); (0x1BC9D, 0x1BC9E); (0x1BCA0, 0x1BCA3);
    (0x1CF00, 0x1CF2D); (0x1CF30, 0x1CF46); (0x1D167, 0x1D169); (0x1D173, 0x1D182);
    (0x1D185, 0x1D18B); (0x1D1AA, 0x1D1AD); (0x1D242, 0x1D244); (0x1DA00, 0x1DA36);
    (0x1DA3B, 0x1DA6C); (0x1DA75, 0x1DA75); (0x1DA84, 0x1DA84); (0x1DA9B, 0x1DA9F);
    (0x1DAA1, 0x1DAAF); (0x1E000, 0x1E006); (0x1E008, 0x1E018); (0x1E01B, 0x1E021);
    (0x1E023, 0x1E024); (0x1E026, 0x1E02A); (0x1E130, 0x1E13D); (0x1E2AE, 0x1E2AE);
    (0x1E2EC, 0x1E2EF); (0x1E8D0, 0x1E8D6); (0x1E944, 0x1E94B); (0x1F3FB, 0x1F3FF);
    (0xE0001, 0xE0001); (0xE0020, 0xE007F); (0xE0100, 0xE01EF) ]%N.

Definition CAPITAL_SIGMA : N := 0x3A3%N.
Definition SMALL_SIGMA : N := 0x3C3%N.
Definition SMALL_FINAL_SIGMA : N := 0x3C2%N.
Definition CAPITAL_I_WITH_DOT : N := 0x130%N.

(** The lowercase of a code point other than the capital sigma. *)
Definition lower (c : N) : list N :=
  if (c =? CAPITAL_I_WITH_DOT)%N then [0x69; 0x307]%N
  else [default c (mapped c lowercase)].

(** Is the first code point that is not case-ignorable a cased one? *)
Fixpoint casedNext (l : list N) : bool :=
  match l with
  | [] => false
  | c :: l' => if within c Case_Ignorable then casedNext l' else within c Cased
  end.

(** The capital sigma becomes the final sigma at the end of a word: after
    a cased letter and not before one, the case-ignorable code points in
    between left aside.  [before] is what precedes, the nearest first. *)
Definition sigma (before after : list N) : N :=
  if casedNext before && negb (casedNext after) then SMALL_FINAL_SIGMA
  else SMALL_SIGMA.

Fixpoint toLowercase (before l : list N) : list N :=
  match l with
  | [] => []
  | c :: l' =>
      (if (c =? CAPITAL_SIGMA)%N then [sigma before l'] else lower c)
      ++ toLowercase (c :: before) l'
  end.

Definition isWhiteSpace (c : N) : bool := within c WhiteSpace.

Fixpoint trimStart (l : list N) : list N :=
  match l with
  | c :: l' => if isWhiteSpace c then trimStart l' else l
  | [] => []
  end.

Fixpoint trimEnd (l : list N) : list N :=
  match l with
  | c :: l' =>
      match trimEnd l' with
      | [] => if isWhiteSpace c then [] else [c]
      | t => c :: t
      end
  | [] => []
  end.

End Unicode.

(** [String.prototype.trim] removes the white space and the line
    terminators at both ends. *)
Definition trim (s : string) : string :=
  Unicode.encode (Unicode.trimEnd (Unicode.trimStart (Unicode.decode s))).

(** [String.prototype.toLowerCase] is the lowercase of the Unicode default
    case conversion, which does not depend on the locale. *)
Definition toLowerCase (s : string) : string :=
  Unicode.encode (Unicode.toLowercase [] (Unicode.decode s)).

(** ** The data model *)

Definition Id := string.

(** Creation times, in the unit of the database clock. *)
Definition Time := nat.

Inductive Role := JOB_SEEKER | RECRUITER | ADMIN.

Inductive Status := PENDING | REVIEWED | ACCEPTED | REJECTED.

Global Instance Role_eq_dec : EqDecision Role.
Proof. solve_decision. Defined.

Global Instance Status_eq_dec : EqDecision Status.
Proof. solve_decision. Defined.

(** Modelled from the spec: prisma/schema.prisma is not among the sources.
    The rows below follow section 3 of the specification and the columns
    the handlers read and write.  The key columns are typed; a content
    column holds the JSON value it was given, [JNull] standing for NULL. *)
Record User := {
  user_id : Id;
  user_email : string;
  user_name : string;
  user_password : string;
  user_role : Role;
  user_createdAt : Time }.

Record Profile := {
  profile_id : Id;
  profile_userId : Id;
  profile_name : jsval;
  profile_headline : jsval;
  profile_location : jsval;
  profile_phone : jsval;
  profile_about : jsval;
  profile_skills : jsval;
  profile_resume : jsval;
  profile_resumeName : jsval;
  profile_resumeUpdatedAt : jsval;
  profile_avatar : jsval }.

Record Experience := {
  exp_id : Id;
  exp_profileId : Id;
  exp_title : jsval;
  exp_company : jsval;
  exp_location : jsval;
  exp_startDate : jsval;
  exp_endDate : jsval;
  exp_current : jsval;
  exp_description : jsval }.

Record Education := {
  edu_id : Id;
  edu_profileId : Id;
  edu_institution : jsval;
  edu_degree : jsval;
  edu_fieldOfStudy : jsval;
  edu_startYear : jsval;
  edu_endYear : jsval;
  edu_grade : jsval }.

Record Job := {
  job_id : Id;
  job_title : jsval;
  job_company : jsval;
  job_location : jsval;
  job_category : string;
  job_type : jsval;
  job_salary : jsval;
  job_description : jsval;
  job_requirements : jsval;
  job_recruiterId : Id;
  job_createdAt : Time }.

Record Application := {
  app_id : Id;
  app_coverLetter : jsval;
  app_status : Status;
  app_userId : Id;
  app_jobId : Id;
  app_createdAt : Time }.

Record SavedJob := {
  saved_id : Id;
  saved_userId : Id;
  saved_jobId : Id;
  saved_createdAt : Time }.

(** The store: one table per model, rows in insertion order. *)
Record Store := {
  users : list User;
  profiles : list Profile;
  experiences : list Experience;
  educations : list Education;
  jobs : list Job;
  applications : list Application;
  savedJobs : list SavedJob }.

Inductive Model :=
  MUser | MProfile | MExperience | MEducation | MJob | MApplication | MSavedJob.

(** What the database does to a referencing row when the row it refers to
    is deleted. *)
Inductive ReferentialAction := Cascade | Restrict.

(** Modelled from the spec: what the handlers depend on in the schema and
    cannot be read off the sources is a parameter: the check of a row
    against the column types and NOT NULL constraints of its model, the
    referential action of Profile.user and of Experience.profile and
    Education.profile, and the order of the database on the values of a
    column ([startDate], [startYear]). *)
Class Schema := {
  valid_profile : Profile -> bool;
  valid_experience : Experience -> bool;
  valid_education : Education -> bool;
  valid_job : Job -> bool;
  valid_application : Application -> bool;
  profile_onDelete : ReferentialAction;
  detail_onDelete : ReferentialAction;
  column_le : jsval -> jsval -> bool }.

(** What the environment supplies to one request: the identifier the
    database generates for a new row of each model, and the clock. *)
Record Env := {
  newId : Model -> Id;
  now : Time }.

(** ** Requests and responses *)

(** The identity the token carries. *)
Record AuthUser := {
  userId : Id;
  role : Role }.

(** [req_user] is the outcome of the verification of the bearer token,
    [None] when the token is missing or invalid; [req_param] is the route
    parameter ([:id], [:jobId] or [:userId]). *)
Record Request := {
  req_user : option AuthUser;
  req_param : Id;
  req_query : jsobj;
  req_body : jsobj }.

Record UserSummary := {
  sum_id : Id;
  sum_name : string;
  sum_email : string }.

Definition summary (u : User) : UserSummary :=
  {| sum_id := user_id u; sum_name := user_name u; sum_email := user_email u |}.

(** A job with [include: { recruiter: { select: ... } }]. *)
Record JobView := {
  jv_job : Job;
  jv_recruiter : option UserSummary }.

(** An application with [include: { job: true, user: { select: ... } }]. *)
Record ApplicationView := {
  av_application : Application;
  av_job : option Job;
  av_user : option UserSummary }.

(** A profile with its experiences, education and user. *)
Record ProfileView := {
  pv_profile : Profile;
  pv_experiences : list Experience;
  pv_education : list Education;
  pv_user : option (string * string) }.

Inductive Payload :=
  | NoPayload
  | PJob (j : Job)
  | PJobs (l : list JobView)
  | PApplication (a : Application)
  | PApplicationView (a : ApplicationView)
  | PIsSaved (b : bool)
  | PProfile (p : ProfileView)
  | PExperience (e : Experience)
  | PEducation (e : Education).

Record Response := {
  status : nat;
  message : option string;
  payload : Payload }.

Definition json (code : nat) (msg : string) : Response :=
  {| status := code; message := Some msg; payload := NoPayload |}.

Definition jsonWith (code : nat) (msg : option string) (p : Payload) : Response :=
  {| status := code; message := msg; payload := p |}.

(** The names of the error taxonomy, as HTTP status codes. *)
Definition OK := 200.
Definition Created := 201.
Definition BadRequest := 400.
Definition Unauthorized := 401.
Definition Forbidden := 403.
Definition NotFound := 404.
Definition Conflict := 409.
Definition Internal := 500.

(** ** Handlers: state, early replies and exceptions *)

(** What a call of the database client, or the handler's own code, throws. *)
Inductive Exn :=
  | UniqueConstraint
  | ForeignKeyConstraint
  | RecordNotFound
  | ValidationError
  | TypeError.

(** A step of a handler yields a value, or has answered the request
    ([return res.status(..).json(..)]), or has thrown.  The store is kept
    in the three cases: nothing is rolled back. *)
Inductive Outcome (A : Type) :=
  | Value (a : A)
  | Sent (r : Response)
  | Raised (e : Exn).
Arguments Value {A} a.
Arguments Sent {A} r.
Arguments Raised {A} e.

Definition Action (A : Type) : Type := Store -> Outcome A * Store.

Global Instance Action_ret : MRet Action := λ A a s, (Value a, s).

Global Instance Action_bind : MBind Action := λ A B k m s,
  match m s with
  | (Value a, s') => k a s'
  | (Sent r, s') => (Sent r, s')
  | (Raised e, s') => (Raised e, s')
  end.

Definition send {A} (r : Response) : Action A := λ s, (Sent r, s).
Definition throw {A} (e : Exn) : Action A := λ s, (Raised e, s).
Definition read {A} (f : Store -> A) : Action A := λ s, (Value (f s), s).
Definition get_store : Action Store := λ s, (Value s, s).
Definition write (f : Store -> Store) : Action unit := λ s, (Value tt, f s).

(** [try { body } catch (error) { res.status(500).json(..) }] *)
Definition try_catch (body : Action Response) (s : Store) : Response * Store :=
  match body s with
  | (Value r, s') => (r, s')
  | (Sent r, s') => (r, s')
  | (Raised _, s') => (json Internal "Server error", s')
  end.

(** The answer of a handler whose JSON body on success is not one of the
    payloads above: [res.status(code).json({ message?, ...data })], or a
    reply without data (the error replies of the handlers). *)
Inductive Reply (A : Type) :=
  | Success (code : nat) (msg : option string) (data : A)
  | Failure (r : Response).
Arguments Success {A} code msg data.
Arguments Failure {A} r.

Definition reply_status {A} (r : Reply A) : nat :=
  match r with
  | Success code _ _ => code
  | Failure r => status r
  end.

(** [try { body } catch (error) { res.status(500).json(..) }] for such a
    handler; [body] yields the code, the message and the data. *)
Definition try_catch_with {A} (body : Action (nat * option string * A)) (s : Store)
  : Reply A * Store :=
  match body s with
  | (Value (code, msg, a), s') => (Success code msg a, s')
  | (Sent r, s') => (Failure r, s')
  | (Raised _, s') => (Failure (json Internal "Server error"), s')
  end.

(** Modelled from the spec: middleware/auth.js is not among the sources.
    [authMiddleware] answers Unauthorized when the token is missing or
    invalid and otherwise attaches the identity to the request;
    [requireRole] answers Forbidden when the role of the identity is not
    one of those listed.  The text of their replies is not modelled. *)
Definition authMiddleware (req : Request) : Action AuthUser :=
  match req_user req with
  | Some u => mret u
  | None => send {| status := Unauthorized; message := None; payload := NoPayload |}
  end.

Definition requireRole (roles : list Role) (u : AuthUser) : Action unit :=
  if decide (role u ∈ roles) then mret tt
  else send {| status := Forbidden; message := None; payload := NoPayload |}.

(** ** The tables *)

Definition set_users (l : list User) (s : Store) : Store :=
  {| users := l; profiles := profiles s; experiences := experiences s;
     educations := educations s; jobs := jobs s;
     applications := applications s; savedJobs := savedJobs s |}.

Definition set_profiles (l : list Profile) (s : Store) : Store :=
  {| users := users s; profiles := l; experiences := experiences s;
     educations := educations s; jobs := jobs s;
     applications := applications s; savedJobs := savedJobs s |}.

Definition set_experiences (l : list Experience) (s : Store) : Store :=
  {| users := users s; profiles := profiles s; experiences := l;
     educations := educations s; jobs := jobs s;
     applications := applications s; savedJobs := savedJobs s |}.

Definition set_educations (l : list Education) (s : Store) : Store :=
  {| users := users s; profiles := profiles s; experiences := experiences s;
     educations := l; jobs := jobs s;
     applications := applications s; savedJobs := savedJobs s |}.

Definition set_jobs (l : list Job) (s : Store) : Store :=
  {| users := users s; profiles := profiles s; experiences := experiences s;
     educations := educations s; jobs := l;
     applications := applications s; savedJobs := savedJobs s |}.

Definition set_applications (l : list Application) (s : Store) : Store :=
  {| users := users s; profiles := profiles s; experiences := experiences s;
     educations := educations s; jobs := jobs s;
     applications := l; savedJobs := savedJobs s |}.

Definition set_savedJobs (l : list SavedJob) (s : Store) : Store :=
  {| users := users s; profiles := profiles s; experiences := experiences s;
     educations := educations s; jobs := jobs s;
     applications := applications s; savedJobs := l |}.

(** The row of a table with a given value in a unique column. *)
Definition lookupBy {A} (key : A -> Id) (k : Id) (l : list A) : option A :=
  head (filter (λ r, key r = k) l).

(** The rows of a table without those with a given value in a column. *)
Definition removeBy {A} (key : A -> Id) (k : Id) (l : list A) : list A :=
  filter (λ r, key r ≠ k) l.

(** The rows with a given pair of values in two columns, and the row with
    that pair when it is a compound unique key. *)
Definition selectPair {A} (k1 k2 : A -> Id) (u j : Id) (l : list A) : list A :=
  filter (λ r, k1 r = u ∧ k2 r = j) l.

Definition lookupPair {A} (k1 k2 : A -> Id) (u j : Id) (l : list A) : option A :=
  head (selectPair k1 k2 u j l).

(** The table with the row of a given id replaced. *)
Definition replaceBy {A} (key : A -> Id) (k : Id) (r' : A) (l : list A) : list A :=
  (λ r, if decide (key r = k) then r' else r) <$> l.

(** ** The database client

    Modelled from the spec: the database and the generated client are
    outside the repository.  The operations below are the calls the
    handlers make.  The store enforces the primary keys, the unique keys the
    handlers look rows up by ([userId_jobId], the [userId] of a profile) and
    the foreign keys of section 3; a call that violates one throws and
    leaves the store as it was. *)
Module Prisma.
Section client.
Context {schema : Schema}.

Definition newest_first (a b : Job) : Prop := job_createdAt b ≤ job_createdAt a.

Global Instance newest_first_dec : RelDecision newest_first.
Proof. intros a b. unfold newest_first. apply _. Defined.

Definition jobView (s : Store) (j : Job) : JobView :=
  {| jv_job := j;
     jv_recruiter := summary <$> lookupBy user_id (job_recruiterId j) (users s) |}.

(** -- job *)

Definition job_findUnique (id : Id) : Action (option Job) :=
  read (λ s, lookupBy job_id id (jobs s)).

(** [findMany({ where: { category }?, include: { recruiter }, orderBy:
    { createdAt: 'desc' } })] *)
Definition job_findMany (category : option string) : Action (list JobView) :=
  read (λ s,
    let rows := match category with
                | Some c => filter (λ j, job_category j = c) (jobs s)
                | None => jobs s
                end in
    jobView s <$> merge_sort newest_first rows).

Definition job_findMany_recruiterId (u : Id) : Action (list Job) :=
  read (λ s, filter (λ j, job_recruiterId j = u) (jobs s)).

Definition job_create (j : Job) : Action Job :=
  if negb (valid_job j) then throw ValidationError else
  s ← get_store;
  if decide (job_id j ∈ job_id <$> jobs s) then throw UniqueConstraint else
  if decide (job_recruiterId j ∈ user_id <$> users s) then
    write (set_jobs (jobs s ++ [j]));; mret j
  else throw ForeignKeyConstraint.

(** The content columns of a job, which the data of an update may name;
    any other name is an unknown argument. *)
Definition job_columns : gset string :=
  list_to_set ["title"; "company"; "location"; "category"; "type";
               "salary"; "description"; "requirements"].

Definition job_assign (data : jsobj) (j : Job) : option Job :=
  if decide (dom data ⊆ job_columns) then
    category ← match data !! "category" with
               | None => Some (job_category j)
               | Some (JStr c) => Some c
               | Some _ => None
               end;
    Some {| job_id := job_id j;
            job_title := orKeep (data !! "title") (job_title j);
            job_company := orKeep (data !! "company") (job_company j);
            job_location := orKeep (data !! "location") (job_location j);
            job_category := category;
            job_type := orKeep (data !! "type") (job_type j);
            job_salary := orKeep (data !! "salary") (job_salary j);
            job_description := orKeep (data !! "description") (job_description j);
            job_requirements := orKeep (data !! "requirements") (job_requirements j);
            job_recruiterId := job_recruiterId j;
            job_createdAt := job_createdAt j |}
  else None.

Definition job_update (id : Id) (data : jsobj) : Action Job :=
  s ← get_store;
  match lookupBy job_id id (jobs s) with
  | None => if decide (dom data ⊆ job_columns) then throw RecordNotFound
            else throw ValidationError
  | Some j =>
      match job_assign data j with
      | None => throw ValidationError
      | Some j' =>
          if valid_job j' then
            write (set_jobs (replaceBy job_id id j' (jobs s)));; mret j'
          else throw ValidationError
      end
  end.

Definition job_delete (id : Id) : Action unit :=
  s ← get_store;
  if decide (id ∈ job_id <$> jobs s) then
    if decide (id ∈ app_jobId <$> applications s) then throw ForeignKeyConstraint
    else if decide (id ∈ saved_jobId <$> savedJobs s) then throw ForeignKeyConstraint
    else write (set_jobs (removeBy job_id id (jobs s)))
  else throw RecordNotFound.

Definition job_deleteMany_recruiterId (u : Id) : Action unit :=
  s ← get_store;
  let gone := job_id <$> filter (λ j, job_recruiterId j = u) (jobs s) in
  if decide (Exists (λ a, app_jobId a ∈ gone) (applications s))
  then throw ForeignKeyConstraint
  else if decide (Exists (λ a, saved_jobId a ∈ gone) (savedJobs s))
  then throw ForeignKeyConstraint
  else write (set_jobs (removeBy job_recruiterId u (jobs s))).

(** -- application *)

Definition application_findUnique (id : Id) : Action (option Application) :=
  read (λ s, lookupBy app_id id (applications s)).

Definition application_findUnique_userId_jobId (u j : Id)
  : Action (option Application) :=
  read (λ s, lookupPair app_userId app_jobId u j (applications s)).

Definition application_create (a : Application) : Action Application :=
  if negb (valid_application a) then throw ValidationError else
  s ← get_store;
  if decide (app_id a ∈ app_id <$> applications s) then throw UniqueConstraint else
  if decide (is_Some (lookupPair app_userId app_jobId (app_userId a) (app_jobId a)
                        (applications s)))
  then throw UniqueConstraint else
  if decide (app_userId a ∈ user_id <$> users s ∧ app_jobId a ∈ job_id <$> jobs s)
  then write (set_applications (applications s ++ [a]));; mret a
  else throw ForeignKeyConstraint.

Definition application_delete (id : Id) : Action unit :=
  s ← get_store;
  if decide (id ∈ app_id <$> applications s) then
    write (set_applications (removeBy app_id id (applications s)))
  else throw RecordNotFound.

Definition application_deleteMany_userId (u : Id) : Action unit :=
  write (λ s, set_applications (removeBy app_userId u (applications s)) s).

Definition application_deleteMany_jobId (j : Id) : Action unit :=
  write (λ s, set_applications (removeBy app_jobId j (applications s)) s).

(** [findUnique({ where: { id }, include: { job: true, user: { select } } })] *)
Definition application_findUnique_include (id : Id) : Action (option ApplicationView) :=
  read (λ s,
    (λ a, {| av_application := a;
             av_job := lookupBy job_id (app_jobId a) (jobs s);
             av_user := summary <$> lookupBy user_id (app_userId a) (users s) |})
      <$> lookupBy app_id id (applications s)).

(** -- savedJob *)

Definition savedJob_findUnique_userId_jobId (u j : Id) : Action (option SavedJob) :=
  read (λ s, lookupPair saved_userId saved_jobId u j (savedJobs s)).

Definition savedJob_create (r : SavedJob) : Action SavedJob :=
  s ← get_store;
  if decide (saved_id r ∈ saved_id <$> savedJobs s) then throw UniqueConstraint else
  if decide (is_Some (lookupPair saved_userId saved_jobId (saved_userId r)
                        (saved_jobId r) (savedJobs s)))
  then throw UniqueConstraint else
  if decide (saved_userId r ∈ user_id <$> users s ∧ saved_jobId r ∈ job_id <$> jobs s)
  then write (set_savedJobs (savedJobs s ++ [r]));; mret r
  else throw ForeignKeyConstraint.

Definition savedJob_delete_userId_jobId (u j : Id) : Action unit :=
  s ← get_store;
  if decide (is_Some (lookupPair saved_userId saved_jobId u j (savedJobs s))) then
    write (set_savedJobs
             (filter (λ r, ¬ (saved_userId r = u ∧ saved_jobId r = j)) (savedJobs s)))
  else throw RecordNotFound.

Definition savedJob_deleteMany_userId (u : Id) : Action unit :=
  write (λ s, set_savedJobs (removeBy saved_userId u (savedJobs s)) s).

Definition savedJob_deleteMany_jobId (j : Id) : Action unit :=
  write (λ s, set_savedJobs (removeBy saved_jobId j (savedJobs s)) s).

(** -- user *)

Definition user_findUnique (id : Id) : Action (option User) :=
  read (λ s, lookupBy user_id id (users s)).

(** Deleting a user is refused while an application, a saved job or a
    job refers to it; what happens to its profile, and to the experience
    and education rows of that profile, is the schema's choice. *)
Definition user_delete (id : Id) : Action unit :=
  s ← get_store;
  if decide (id ∈ user_id <$> users s) then
    if decide (id ∈ app_userId <$> applications s
               ∨ id ∈ saved_userId <$> savedJobs s
               ∨ id ∈ job_recruiterId <$> jobs s)
    then throw ForeignKeyConstraint
    else
      let owned := profile_id <$> filter (λ p, profile_userId p = id) (profiles s) in
      let s' := set_users (removeBy user_id id (users s)) s in
      match profile_onDelete with
      | Restrict =>
          if decide (owned = []) then write (λ _, s') else throw ForeignKeyConstraint
      | Cascade =>
          let s'' := set_profiles (removeBy profile_userId id (profiles s)) s' in
          match detail_onDelete with
          | Restrict =>
              if decide (Exists (λ e, exp_profileId e ∈ owned) (experiences s)
                         ∨ Exists (λ e, edu_profileId e ∈ owned) (educations s))
              then throw ForeignKeyConstraint
              else write (λ _, s'')
          | Cascade =>
              write (λ _,
                set_experiences
                  (filter (λ e, exp_profileId e ∉ owned) (experiences s))
                  (set_educations
                     (filter (λ e, edu_profileId e ∉ owned) (educations s)) s''))
          end
      end
  else throw RecordNotFound.

(** -- profile *)

Definition by_startDate (a b : Experience) : Prop :=
  column_le (exp_startDate b) (exp_startDate a) = true.

Definition by_startYear (a b : Education) : Prop :=
  column_le (edu_startYear b) (edu_startYear a) = true.

Global Instance by_startDate_dec : RelDecision by_startDate.
Proof. intros a b. unfold by_startDate. apply _. Defined.

Global Instance by_startYear_dec : RelDecision by_startYear.
Proof. intros a b. unfold by_startYear. apply _. Defined.

(** The relations a profile is returned with; [ordered] tells whether
    the query asks for [orderBy: { startDate: 'desc' }] and
    [orderBy: { startYear: 'desc' }]. *)
Definition profileView (ordered : bool) (s : Store) (p : Profile) : ProfileView :=
  let exps := filter (λ e, exp_profileId e = profile_id p) (experiences s) in
  let edus := filter (λ e, edu_profileId e = profile_id p) (educations s) in
  {| pv_profile := p;
     pv_experiences := if ordered then merge_sort by_startDate exps else exps;
     pv_education := if ordered then merge_sort by_startYear edus else edus;
     pv_user := (λ u, (user_email u, user_name u))
                  <$> lookupBy user_id (profile_userId p) (users s) |}.

Definition profile_findUnique_userId (u : Id) : Action (option Profile) :=
  read (λ s, lookupBy profile_userId u (profiles s)).

Definition profile_findUnique_userId_include (u : Id) : Action (option ProfileView) :=
  read (λ s, profileView true s <$> lookupBy profile_userId u (profiles s)).

Definition profile_create (p : Profile) : Action Profile :=
  if negb (valid_profile p) then throw ValidationError else
  s ← get_store;
  if decide (profile_id p ∈ profile_id <$> profiles s) then throw UniqueConstraint else
  if decide (profile_userId p ∈ profile_userId <$> profiles s)
  then throw UniqueConstraint else
  if decide (profile_userId p ∈ user_id <$> users s) then
    write (set_profiles (profiles s ++ [p]));; mret p
  else throw ForeignKeyConstraint.

Definition profile_create_include (p : Profile) : Action ProfileView :=
  p' ← profile_create p;
  read (λ s, profileView false s p').

(** -- experience and education *)

(** [findUnique({ where: { id }, include: { profile: true } })] *)
Definition experience_findUnique_include (id : Id)
  : Action (option (Experience * option Profile)) :=
  read (λ s, (λ e, (e, lookupBy profile_id (exp_profileId e) (profiles s)))
               <$> lookupBy exp_id id (experiences s)).

Definition experience_create (e : Experience) : Action Experience :=
  if negb (valid_experience e) then throw ValidationError else
  s ← get_store;
  if decide (exp_id e ∈ exp_id <$> experiences s) then throw UniqueConstraint else
  if decide (exp_profileId e ∈ profile_id <$> profiles s) then
    write (set_experiences (experiences s ++ [e]));; mret e
  else throw ForeignKeyConstraint.

(** [data] is the row the data object of the update turns a row into. *)
Definition experience_update (id : Id) (data : Experience -> Experience)
  : Action Experience :=
  s ← get_store;
  match lookupBy exp_id id (experiences s) with
  | None => throw RecordNotFound
  | Some e =>
      if valid_experience (data e) then
        write (set_experiences (replaceBy exp_id id (data e) (experiences s)));;
        mret (data e)
      else throw ValidationError
  end.

Definition experience_delete (id : Id) : Action unit :=
  s ← get_store;
  if decide (id ∈ exp_id <$> experiences s) then
    write (set_experiences (removeBy exp_id id (experiences s)))
  else throw RecordNotFound.

Definition education_findUnique_include (id : Id)
  : Action (option (Education * option Profile)) :=
  read (λ s, (λ e, (e, lookupBy profile_id (edu_profileId e) (profiles s)))
               <$> lookupBy edu_id id (educations s)).

Definition education_update (id : Id) (data : Education -> Education)
  : Action Education :=
  s ← get_store;
  match lookupBy edu_id id (educations s) with
  | None => throw RecordNotFound
  | Some e =>
      if valid_education (data e) then
        write (set_educations (replaceBy edu_id id (data e) (educations s)));;
        mret (data e)
      else throw ValidationError
  end.

Definition education_delete (id : Id) : Action unit :=
  s ← get_store;
  if decide (id ∈ edu_id <$> educations s) then
    write (set_educations (removeBy edu_id id (educations s)))
  else throw RecordNotFound.
(** -- the other queries of the routes *)

(** [findUnique({ where: { id }, include: { recruiter: { select } } })] *)
Definition job_findUnique_include (id : Id) : Action (option JobView) :=
  read (λ s, jobView s <$> lookupBy job_id id (jobs s)).

(** [findMany({ where: { recruiterId }, include: { _count: { select:
    { applications: true } } }, orderBy: { createdAt: 'desc' } })] *)
Definition job_findMany_recruiterId_count (u : Id) : Action (list (Job * nat)) :=
  read (λ s,
    (λ j, (j, length (filter (λ a, app_jobId a = job_id j) (applications s))))
      <$> merge_sort newest_first (filter (λ j, job_recruiterId j = u) (jobs s))).

Definition latest_first (a b : Application) : Prop := app_createdAt b ≤ app_createdAt a.

Global Instance latest_first_dec : RelDecision latest_first.
Proof. intros a b. unfold latest_first. apply _. Defined.

(** An application with [include: { job: { include: { recruiter:
    { select: { name, email } } } } }]. *)
Definition withJob (s : Store) (a : Application)
  : Application * option (Job * option (string * string)) :=
  (a, (λ j, (j, (λ u, (user_name u, user_email u))
                  <$> lookupBy user_id (job_recruiterId j) (users s)))
        <$> lookupBy job_id (app_jobId a) (jobs s)).

Definition application_findMany_userId (u : Id)
  : Action (list (Application * option (Job * option (string * string)))) :=
  read (λ s, withJob s
               <$> merge_sort latest_first
                     (filter (λ a, app_userId a = u) (applications s))).

(** [findMany({ where: { jobId }, include: { user: { select } },
    orderBy: { createdAt: 'desc' } })] *)
Definition application_findMany_jobId (j : Id)
  : Action (list (Application * option UserSummary)) :=
  read (λ s, (λ a, (a, summary <$> lookupBy user_id (app_userId a) (users s)))
               <$> merge_sort latest_first
                     (filter (λ a, app_jobId a = j) (applications s))).

(** [findUnique({ where: { id }, include: { job: true } })] *)
Definition application_findUnique_include_job (id : Id)
  : Action (option (Application * option Job)) :=
  read (λ s, (λ a, (a, lookupBy job_id (app_jobId a) (jobs s)))
               <$> lookupBy app_id id (applications s)).

(** The value of the status enumeration a string names. *)
Definition statusOf (x : string) : option Status :=
  if decide (x = "PENDING") then Some PENDING
  else if decide (x = "REVIEWED") then Some REVIEWED
  else if decide (x = "ACCEPTED") then Some ACCEPTED
  else if decide (x = "REJECTED") then Some REJECTED
  else None.

(** [update({ where: { id }, data: { status } })] *)
Definition application_update_status (id : Id) (status : option jsval)
  : Action Application :=
  s ← get_store;
  match lookupBy app_id id (applications s) with
  | None => throw RecordNotFound
  | Some a =>
      match status with
      | None => mret a
      | Some (JStr x) =>
          match statusOf x with
          | None => throw ValidationError
          | Some st =>
              let a' := {| app_id := app_id a;
                           app_coverLetter := app_coverLetter a;
                           app_status := st;
                           app_userId := app_userId a;
                           app_jobId := app_jobId a;
                           app_createdAt := app_createdAt a |} in
              write (set_applications (replaceBy app_id id a' (applications s)));;
              mret a'
          end
      | Some _ => throw ValidationError
      end
  end.

Definition saved_latest_first (a b : SavedJob) : Prop :=
  saved_createdAt b ≤ saved_createdAt a.

Global Instance saved_latest_first_dec : RelDecision saved_latest_first.
Proof. intros a b. unfold saved_latest_first. apply _. Defined.

Definition savedJob_findMany_userId (u : Id)
  : Action (list (SavedJob * option (Job * option (string * string)))) :=
  read (λ s,
    (λ r, (r, (λ j, (j, (λ w, (user_name w, user_email w))
                          <$> lookupBy user_id (job_recruiterId j) (users s)))
                <$> lookupBy job_id (saved_jobId r) (jobs s)))
      <$> merge_sort saved_latest_first
            (filter (λ r, saved_userId r = u) (savedJobs s))).

Definition user_count : Action nat := read (λ s, length (users s)).
Definition job_count : Action nat := read (λ s, length (jobs s)).
Definition application_count : Action nat := read (λ s, length (applications s)).

(** [groupBy({ by: ['role'], _count: { role: true } })]: one group for
    each role that some user has, with the number of its users. *)
Definition user_groupBy_role : Action (list (Role * nat)) :=
  read (λ s,
    filter (λ g, g.2 ≠ 0)
      ((λ r, (r, length (filter (λ u, user_role u = r) (users s))))
         <$> [JOB_SEEKER; RECRUITER; ADMIN])).

(** The value of the role enumeration a string names. *)
Definition roleOf (x : string) : option Role :=
  if decide (x = "JOB_SEEKER") then Some JOB_SEEKER
  else if decide (x = "RECRUITER") then Some RECRUITER
  else if decide (x = "ADMIN") then Some ADMIN
  else None.

(** [update({ where: { id }, data: { role }, select: { id, name, email,
    role } })] *)
Definition user_update_role (id : Id) (role : option jsval)
  : Action (UserSummary * Role) :=
  s ← get_store;
  match lookupBy user_id id (users s) with
  | None => throw RecordNotFound
  | Some u =>
      match role with
      | None => mret (summary u, user_role u)
      | Some (JStr x) =>
          match roleOf x with
          | None => throw ValidationError
          | Some r =>
              let u' := {| user_id := user_id u;
                           user_email := user_email u;
                           user_name := user_name u;
                           user_password := user_password u;
                           user_role := r;
                           user_createdAt := user_createdAt u |} in
              write (set_users (replaceBy user_id id u' (users s)));;
              mret (summary u', r)
          end
      | Some _ => throw ValidationError
      end
  end.

(** [upsert({ where: { userId }, update, create })]: [update] is the row
    the update data turns the profile of the user into, [create] the row
    to insert when the user has none. *)
Definition profile_upsert (u : Id) (update : Profile -> Profile) (create : Profile)
  : Action Profile :=
  s ← get_store;
  match lookupBy profile_userId u (profiles s) with
  | Some p =>
      if valid_profile (update p) then
        write (set_profiles (replaceBy profile_userId u (update p) (profiles s)));;
        mret (update p)
      else throw ValidationError
  | None => profile_create create
  end.

Definition education_create (e : Education) : Action Education :=
  if negb (valid_education e) then throw ValidationError else
  s ← get_store;
  if decide (edu_id e ∈ edu_id <$> educations s) then throw UniqueConstraint else
  if decide (edu_profileId e ∈ profile_id <$> profiles s) then
    write (set_educations (educations s ++ [e]));; mret e
  else throw ForeignKeyConstraint.
End client.
End Prisma.

(** ** routes/jobs.js *)
Module Jobs.
Section routes.
Context {schema : Schema}.

Definition JOB_CATEGORIES : list string := ["frontend"; "backend"; "fullstack"].

Definition normalizeCategory (input : option jsval) : option string :=
  match input with
  | Some (JStr input) =>
      let value := toLowerCase (trim input) in
      if decide (value = "") then None
      else if decide (value ∈ JOB_CATEGORIES) then Some value
      else None
  | _ => None
  end.

(** The truthiness of a string or [null]. *)
Definition given (category : option string) : option string :=
  match category with
  | Some c => if decide (c = "") then None else Some c
  | None => None
  end.

Definition invalidRole : Response :=
  json BadRequest
  ("Invalid role. Use one of: " ++ String.concat ", " JOB_CATEGORIES)%string.

(** GET /jobs *)
Definition list_jobs (req : Request) : Store -> Response * Store :=
  try_catch (
    let roleQuery := nullish_or (req_query req !! "role") (req_query req !! "category") in
    let category := normalizeCategory roleQuery in
    if notNullish roleQuery && negb (bool_decide (is_Some category)) then
      send invalidRole
    else
      jobs ← Prisma.job_findMany (given category);
      mret (jsonWith OK None (PJobs jobs))).

(** The [data] of the [job.create] of POST /jobs. *)
Definition jobData (env : Env) (user : AuthUser) (body : jsobj) : Job :=
  let title := body !! "title" in
  let company := body !! "company" in
  let location := body !! "location" in
  let type := body !! "type" in
  let salary := body !! "salary" in
  let description := body !! "description" in
  let requirements := body !! "requirements" in
  let category :=
    default "fullstack"
      (normalizeCategory (nullish_or (body !! "role") (body !! "category"))) in
  {| job_id := newId env MJob;
     job_title := orNull title;
     job_company := orNull company;
     job_location := orNull location;
     job_category := category;
     job_type := js_or type (JStr "FULL_TIME");
     job_salary := orNull salary;
     job_description := orNull description;
     job_requirements := orNull requirements;
     job_recruiterId := userId user;
     job_createdAt := now env |}.

(** POST /jobs *)
Definition create_job (env : Env) (req : Request) : Store -> Response * Store :=
  try_catch (
    user ← authMiddleware req;
    requireRole [RECRUITER] user;;
    let body := req_body req in
    if negb (truthy (body !! "title")) || negb (truthy (body !! "company"))
       || negb (truthy (body !! "location")) || negb (truthy (body !! "salary"))
       || negb (truthy (body !! "description")) then
      send (json BadRequest "Required fields missing")
    else
      job ← Prisma.job_create (jobData env user body);
      mret (jsonWith Created (Some "Job created") (PJob job))).

(** [delete updateData.role; delete updateData.category;
    if (maybeCategory) updateData.category = maybeCategory] *)
Definition recategorize (updateData : jsobj) (maybeCategory : option string) : jsobj :=
  let updateData := delete "role" updateData in
  let updateData := delete "category" updateData in
  match given maybeCategory with
  | Some c => <["category" := JStr c]> updateData
  | None => updateData
  end.

(** PUT /jobs/:id *)
Definition update_job (req : Request) : Store -> Response * Store :=
  try_catch (
    user ← authMiddleware req;
    requireRole [RECRUITER] user;;
    job ← Prisma.job_findUnique (req_param req);
    match job with
    | None => send (json NotFound "Job not found")
    | Some job =>
        if decide (job_recruiterId job ≠ userId user) then
          send (json Forbidden "Not authorized")
        else
          let updateData := req_body req in
          let maybeCategory :=
            normalizeCategory
              (nullish_or (updateData !! "role") (updateData !! "category")) in
          if (notNullish (updateData !! "role") || notNullish (updateData !! "category"))
             && negb (bool_decide (is_Some (given maybeCategory))) then
            send invalidRole
          else
            updated ← Prisma.job_update (req_param req)
                         (recategorize updateData maybeCategory);
            mret (jsonWith OK (Some "Job updated") (PJob updated))
    end).

(** DELETE /jobs/:id *)
Definition delete_job (req : Request) : Store -> Response * Store :=
  try_catch (
    user ← authMiddleware req;
    requireRole [RECRUITER; ADMIN] user;;
    job ← Prisma.job_findUnique (req_param req);
    match job with
    | None => send (json NotFound "Job not found")
    | Some job =>
        if decide (role user = RECRUITER ∧ job_recruiterId job ≠ userId user) then
          send (json Forbidden "Not authorized")
        else
          Prisma.application_deleteMany_jobId (req_param req);;
          Prisma.savedJob_deleteMany_jobId (req_param req);;
          Prisma.job_delete (req_param req);;
          mret (json OK "Job deleted")
    end).
(** GET /jobs/my-jobs *)
Definition my_jobs (req : Request) : Store -> Reply (list (Job * nat)) * Store :=
  try_catch_with (
    user ← authMiddleware req;
    requireRole [RECRUITER] user;;
    jobs ← Prisma.job_findMany_recruiterId_count (userId user);
    mret (OK, None, jobs)).

(** GET /jobs/:id *)
Definition get_job (req : Request) : Store -> Reply JobView * Store :=
  try_catch_with (
    job ← Prisma.job_findUnique_include (req_param req);
    match job with
    | None => send (json NotFound "Job not found")
    | Some job => mret (OK, None, job)
    end).

(** GET /jobs/:id/applicants *)
Definition applicants (req : Request)
  : Store -> Reply (list (Application * option UserSummary)) * Store :=
  try_catch_with (
    user ← authMiddleware req;
    requireRole [RECRUITER] user;;
    job ← Prisma.job_findUnique (req_param req);
    match job with
    | None => send (json NotFound "Job not found")
    | Some job =>
        if decide (job_recruiterId job ≠ userId user) then
          send (json Forbidden "Not authorized")
        else
          applicants ← Prisma.application_findMany_jobId (req_param req);
          mret (OK, None, applicants)
    end).
End routes.
End Jobs.

(** ** routes/applications.js *)
Module Applications.
Section routes.
Context {schema : Schema}.

(** The [data] of the [application.create] of the apply route; the status
    is left to its default. *)
Definition applicationData (env : Env) (user : AuthUser) (jobId : Id)
    (coverLetter : option jsval) : Application :=
  {| app_id := newId env MApplication;
     app_coverLetter := orNull coverLetter;
     app_status := PENDING;
     app_userId := userId user;
     app_jobId := jobId;
     app_createdAt := now env |}.

(** POST /applications/job/:jobId *)
Definition apply (env : Env) (req : Request) : Store -> Response * Store :=
  try_catch (
    user ← authMiddleware req;
    requireRole [JOB_SEEKER] user;;
    let coverLetter := req_body req !! "coverLetter" in
    let jobId := req_param req in
    job ← Prisma.job_findUnique jobId;
    match job with
    | None => send (json NotFound "Job not found")
    | Some _ =>
        existing ← Prisma.application_findUnique_userId_jobId (userId user) jobId;
        match existing with
        | Some _ => send (json BadRequest "Already applied to this job")
        | None =>
            application ← Prisma.application_create
                            (applicationData env user jobId coverLetter);
            mret (jsonWith Created (Some "Application submitted")
                    (PApplication application))
        end
    end).

(** GET /applications/:id *)
Definition get_application (req : Request) : Store -> Response * Store :=
  try_catch (
    user ← authMiddleware req;
    application ← Prisma.application_findUnique_include (req_param req);
    match application with
    | None => send (json NotFound "Application not found")
    | Some application =>
        if decide (role user = JOB_SEEKER
                   ∧ app_userId (av_application application) ≠ userId user) then
          send (json Forbidden "Not authorized")
        else if decide (role user = RECRUITER) then
          match av_job application with
          | None => throw TypeError
          | Some job =>
              if decide (job_recruiterId job ≠ userId user) then
                send (json Forbidden "Not authorized")
              else mret (jsonWith OK None (PApplicationView application))
          end
        else mret (jsonWith OK None (PApplicationView application))
    end).

(** DELETE /applications/:id *)
Definition withdraw (req : Request) : Store -> Response * Store :=
  try_catch (
    user ← authMiddleware req;
    requireRole [JOB_SEEKER] user;;
    application ← Prisma.application_findUnique (req_param req);
    match application with
    | None => send (json NotFound "Application not found")
    | Some application =>
        if decide (app_userId application ≠ userId user) then
          send (json Forbidden "Not authorized")
        else
          Prisma.application_delete (req_param req);;
          mret (json OK "Application withdrawn")
    end).
(** GET /applications/my-applications *)
Definition my_applications (req : Request)
  : Store -> Reply (list (Application * option (Job * option (string * string))))
             * Store :=
  try_catch_with (
    user ← authMiddleware req;
    requireRole [JOB_SEEKER] user;;
    applications ← Prisma.application_findMany_userId (userId user);
    mret (OK, None, applications)).

Definition validStatuses : list string := ["PENDING"; "REVIEWED"; "ACCEPTED"; "REJECTED"].

(** [list.includes(v)] for a list of strings. *)
Definition includes (l : list string) (v : option jsval) : bool :=
  match v with
  | Some (JStr x) => bool_decide (x ∈ l)
  | _ => false
  end.

(** PATCH /applications/:id/status *)
Definition update_status (req : Request) : Store -> Response * Store :=
  try_catch (
    user ← authMiddleware req;
    requireRole [RECRUITER] user;;
    let status := req_body req !! "status" in
    if negb (includes validStatuses status) then
      send (json BadRequest "Invalid status")
    else
      application ← Prisma.application_findUnique_include_job (req_param req);
      match application with
      | None => send (json NotFound "Application not found")
      | Some (_, None) => throw TypeError
      | Some (_, Some job) =>
          if decide (job_recruiterId job ≠ userId user) then
            send (json Forbidden "Not authorized")
          else
            updated ← Prisma.application_update_status (req_param req) status;
            mret (jsonWith OK (Some "Status updated") (PApplication updated))
      end).
End routes.
End Applications.

(** ** routes/savedJobs.js *)
Module SavedJobs.
Section routes.
Context {schema : Schema}.

(** The [data] of the [savedJob.create] of the save route. *)
Definition savedJobData (env : Env) (user : AuthUser) (jobId : Id) : SavedJob :=
  {| saved_id := newId env MSavedJob;
     saved_userId := userId user;
     saved_jobId := jobId;
     saved_createdAt := now env |}.

(** POST /saved-jobs/:jobId *)
Definition save (env : Env) (req : Request) : Store -> Response * Store :=
  try_catch (
    user ← authMiddleware req;
    requireRole [JOB_SEEKER] user;;
    let jobId := req_param req in
    job ← Prisma.job_findUnique jobId;
    match job with
    | None => send (json NotFound "Job not found")
    | Some _ =>
        existing ← Prisma.savedJob_findUnique_userId_jobId (userId user) jobId;
        match existing with
        | Some _ => send (json BadRequest "Job already saved")
        | None =>
            Prisma.savedJob_create (savedJobData env user jobId);;
            mret (json OK "Job saved")
        end
    end).

(** DELETE /saved-jobs/:jobId *)
Definition remove (req : Request) : Store -> Response * Store :=
  try_catch (
    user ← authMiddleware req;
    requireRole [JOB_SEEKER] user;;
    let jobId := req_param req in
    savedJob ← Prisma.savedJob_findUnique_userId_jobId (userId user) jobId;
    match savedJob with
    | None => send (json NotFound "Saved job not found")
    | Some _ =>
        Prisma.savedJob_delete_userId_jobId (userId user) jobId;;
        mret (json OK "Job removed from saved")
    end).

(** GET /saved-jobs/check/:jobId *)
Definition check (req : Request) : Store -> Response * Store :=
  try_catch (
    user ← authMiddleware req;
    requireRole [JOB_SEEKER] user;;
    savedJob ← Prisma.savedJob_findUnique_userId_jobId (userId user) (req_param req);
    mret (jsonWith OK None (PIsSaved (bool_decide (is_Some savedJob))))).
(** GET /saved-jobs *)
Definition saved_jobs (req : Request)
  : Store -> Reply (list (SavedJob * option (Job * option (string * string)))) * Store :=
  try_catch_with (
    user ← authMiddleware req;
    requireRole [JOB_SEEKER] user;;
    savedJobs ← Prisma.savedJob_findMany_userId (userId user);
    mret (OK, None, savedJobs)).
End routes.
End SavedJobs.

(** ** routes/admin.js *)
Module Admin.
Section routes.
Context {schema : Schema}.

(** [for (const x of l) { await f(x) }] *)
Fixpoint forEach {A} (l : list A) (f : A -> Action unit) : Action unit :=
  match l with
  | [] => mret tt
  | x :: l' => f x;; forEach l' f
  end.

(** DELETE /admin/users/:id *)
Definition delete_user (req : Request) : Store -> Response * Store :=
  try_catch (
    user ← authMiddleware req;
    requireRole [ADMIN] user;;
    Prisma.application_deleteMany_userId (req_param req);;
    Prisma.savedJob_deleteMany_userId (req_param req);;
    userJobs ← Prisma.job_findMany_recruiterId (req_param req);
    forEach userJobs (λ job,
      Prisma.application_deleteMany_jobId (job_id job);;
      Prisma.savedJob_deleteMany_jobId (job_id job));;
    Prisma.job_deleteMany_recruiterId (req_param req);;
    Prisma.user_delete (req_param req);;
    mret (json OK "User deleted")).
Record Stats := {
  totalUsers : nat;
  totalJobs : nat;
  totalApplications : nat;
  usersByRole : list (Role * nat) }.

(** GET /admin/stats *)
Definition stats (req : Request) : Store -> Reply Stats * Store :=
  try_catch_with (
    user ← authMiddleware req;
    requireRole [ADMIN] user;;
    userCount ← Prisma.user_count;
    jobCount ← Prisma.job_count;
    applicationCount ← Prisma.application_count;
    usersByRole ← Prisma.user_groupBy_role;
    mret (OK, None,
          {| totalUsers := userCount;
             totalJobs := jobCount;
             totalApplications := applicationCount;
             usersByRole := usersByRole |})).

Definition validRoles : list string := ["JOB_SEEKER"; "RECRUITER"; "ADMIN"].

(** PATCH /admin/users/:id/role *)
Definition update_role (req : Request) : Store -> Reply (UserSummary * Role) * Store :=
  try_catch_with (
    user ← authMiddleware req;
    requireRole [ADMIN] user;;
    let role := req_body req !! "role" in
    if negb (Applications.includes validRoles role) then
      send (json BadRequest "Invalid role")
    else
      user ← Prisma.user_update_role (req_param req) role;
      mret (OK, Some "Role updated", user)).

(** DELETE /admin/jobs/:id *)
Definition delete_job (req : Request) : Store -> Response * Store :=
  try_catch (
    user ← authMiddleware req;
    requireRole [ADMIN] user;;
    Prisma.application_deleteMany_jobId (req_param req);;
    Prisma.savedJob_deleteMany_jobId (req_param req);;
    Prisma.job_delete (req_param req);;
    mret (json OK "Job deleted")).
End routes.
End Admin.

(** ** routes/profile.js *)
Module Profiles.
Section routes.
Context {schema : Schema}.

(** The row [profile.create({ data: { userId, name } })] inserts. *)
Definition newProfile (id userId : Id) (name : jsval) : Profile :=
  {| profile_id := id;
     profile_userId := userId;
     profile_name := name;
     profile_headline := JNull;
     profile_location := JNull;
     profile_phone := JNull;
     profile_about := JNull;
     profile_skills := JNull;
     profile_resume := JNull;
     profile_resumeName := JNull;
     profile_resumeUpdatedAt := JNull;
     profile_avatar := JNull |}.

(** GET /profile *)
Definition get_my_profile (env : Env) (req : Request) : Store -> Response * Store :=
  try_catch (
    user ← authMiddleware req;
    found ← Prisma.profile_findUnique_userId_include (userId user);
    profile ← match found with
              | Some profile => mret profile
              | None =>
                  row ← Prisma.user_findUnique (userId user);
                  match row with
                  | None => throw TypeError
                  | Some row =>
                      Prisma.profile_create_include
                        (newProfile (newId env MProfile) (userId user)
                           (JStr (user_name row)))
                  end
              end;
    mret (jsonWith OK None (PProfile profile))).

(** GET /profile/:userId *)
Definition get_profile (req : Request) : Store -> Response * Store :=
  try_catch (
    profile ← Prisma.profile_findUnique_userId_include (req_param req);
    match profile with
    | None => send (json NotFound "Profile not found")
    | Some profile => mret (jsonWith OK None (PProfile profile))
    end).

(** POST /profile/experience *)
Definition add_experience (env : Env) (req : Request) : Store -> Response * Store :=
  try_catch (
    user ← authMiddleware req;
    let body := req_body req in
    let title := body !! "title" in
    let company := body !! "company" in
    let location := body !! "location" in
    let startDate := body !! "startDate" in
    let endDate := body !! "endDate" in
    let current := body !! "current" in
    let description := body !! "description" in
    if negb (truthy title) || negb (truthy company) || negb (truthy startDate) then
      send (json BadRequest "Title, company, and start date are required")
    else
      found ← Prisma.profile_findUnique_userId (userId user);
      profile ← match found with
                | Some profile => mret profile
                | None =>
                    Prisma.profile_create
                      (newProfile (newId env MProfile) (userId user) JNull)
                end;
      experience ← Prisma.experience_create
                      {| exp_id := newId env MExperience;
                         exp_profileId := profile_id profile;
                         exp_title := orNull title;
                         exp_company := orNull company;
                         exp_location := orNull location;
                         exp_startDate := orNull startDate;
                         exp_endDate := if truthy current then JNull else orNull endDate;
                         exp_current := js_or current (JBool false);
                         exp_description := orNull description |};
      mret (jsonWith Created (Some "Experience added") (PExperience experience))).

(** PUT /profile/experience/:id *)
Definition update_experience (req : Request) : Store -> Response * Store :=
  try_catch (
    user ← authMiddleware req;
    let body := req_body req in
    let title := body !! "title" in
    let company := body !! "company" in
    let location := body !! "location" in
    let startDate := body !! "startDate" in
    let endDate := body !! "endDate" in
    let current := body !! "current" in
    let description := body !! "description" in
    existing ← Prisma.experience_findUnique_include (req_param req);
    match existing with
    | None => send (json Forbidden "Not authorized")
    | Some (_, None) => throw TypeError
    | Some (_, Some profile) =>
        if decide (profile_userId profile ≠ userId user) then
          send (json Forbidden "Not authorized")
        else
          experience ← Prisma.experience_update (req_param req) (λ e,
              {| exp_id := exp_id e;
                 exp_profileId := exp_profileId e;
                 exp_title := orKeep title (exp_title e);
                 exp_company := orKeep company (exp_company e);
                 exp_location := orKeep location (exp_location e);
                 exp_startDate := orKeep startDate (exp_startDate e);
                 exp_endDate := if truthy current then JNull
                                else orKeep endDate (exp_endDate e);
                 exp_current := js_or current (JBool false);
                 exp_description := orKeep description (exp_description e) |});
          mret (jsonWith OK (Some "Experience updated") (PExperience experience))
    end).

(** DELETE /profile/experience/:id *)
Definition delete_experience (req : Request) : Store -> Response * Store :=
  try_catch (
    user ← authMiddleware req;
    existing ← Prisma.experience_findUnique_include (req_param req);
    match existing with
    | None => send (json Forbidden "Not authorized")
    | Some (_, None) => throw TypeError
    | Some (_, Some profile) =>
        if decide (profile_userId profile ≠ userId user) then
          send (json Forbidden "Not authorized")
        else
          Prisma.experience_delete (req_param req);;
          mret (json OK "Experience deleted")
    end).

(** PUT /profile/education/:id *)
Definition update_education (req : Request) : Store -> Response * Store :=
  try_catch (
    user ← authMiddleware req;
    let body := req_body req in
    let institution := body !! "institution" in
    let degree := body !! "degree" in
    let fieldOfStudy := body !! "fieldOfStudy" in
    let startYear := body !! "startYear" in
    let endYear := body !! "endYear" in
    let grade := body !! "grade" in
    existing ← Prisma.education_findUnique_include (req_param req);
    match existing with
    | None => send (json Forbidden "Not authorized")
    | Some (_, None) => throw TypeError
    | Some (_, Some profile) =>
        if decide (profile_userId profile ≠ userId user) then
          send (json Forbidden "Not authorized")
        else
          education ← Prisma.education_update (req_param req) (λ e,
              {| edu_id := edu_id e;
                 edu_profileId := edu_profileId e;
                 edu_institution := orKeep institution (edu_institution e);
                 edu_degree := orKeep degree (edu_degree e);
                 edu_fieldOfStudy := orKeep fieldOfStudy (edu_fieldOfStudy e);
                 edu_startYear := orKeep startYear (edu_startYear e);
                 edu_endYear := orKeep endYear (edu_endYear e);
                 edu_grade := orKeep grade (edu_grade e) |});
          mret (jsonWith OK (Some "Education updated") (PEducation education))
    end).

(** DELETE /profile/education/:id *)
Definition delete_education (req : Request) : Store -> Response * Store :=
  try_catch (
    user ← authMiddleware req;
    existing ← Prisma.education_findUnique_include (req_param req);
    match existing with
    | None => send (json Forbidden "Not authorized")
    | Some (_, None) => throw TypeError
    | Some (_, Some profile) =>
        if decide (profile_userId profile ≠ userId user) then
          send (json Forbidden "Not authorized")
        else
          Prisma.education_delete (req_param req);;
          mret (json OK "Education deleted")
    end).
(** A profile with [include: { experiences: true, education: true }]. *)
Definition withDetails (s : Store) (p : Profile) : ProfileView :=
  {| pv_profile := p;
     pv_experiences := filter (λ e, exp_profileId e = profile_id p) (experiences s);
     pv_education := filter (λ e, edu_profileId e = profile_id p) (educations s);
     pv_user := None |}.

(** PUT /profile/basic *)
Definition update_basic (env : Env) (req : Request) : Store -> Response * Store :=
  try_catch (
    user ← authMiddleware req;
    let body := req_body req in
    let name := body !! "name" in
    let headline := body !! "headline" in
    let location := body !! "location" in
    let phone := body !! "phone" in
    profile ← Prisma.profile_upsert (userId user)
                 (λ p, {| profile_id := profile_id p;
                          profile_userId := profile_userId p;
                          profile_name := orKeep name (profile_name p);
                          profile_headline := orKeep headline (profile_headline p);
                          profile_location := orKeep location (profile_location p);
                          profile_phone := orKeep phone (profile_phone p);
                          profile_about := profile_about p;
                          profile_skills := profile_skills p;
                          profile_resume := profile_resume p;
                          profile_resumeName := profile_resumeName p;
                          profile_resumeUpdatedAt := profile_resumeUpdatedAt p;
                          profile_avatar := profile_avatar p |})
                 {| profile_id := newId env MProfile;
                    profile_userId := userId user;
                    profile_name := orNull name;
                    profile_headline := orNull headline;
                    profile_location := orNull location;
                    profile_phone := orNull phone;
                    profile_about := JNull;
                    profile_skills := JNull;
                    profile_resume := JNull;
                    profile_resumeName := JNull;
                    profile_resumeUpdatedAt := JNull;
                    profile_avatar := JNull |};
    view ← read (λ s, withDetails s profile);
    mret (jsonWith OK (Some "Profile updated") (PProfile view))).

(** PUT /profile/about *)
Definition update_about (env : Env) (req : Request) : Store -> Reply Profile * Store :=
  try_catch_with (
    user ← authMiddleware req;
    let about := req_body req !! "about" in
    profile ← Prisma.profile_upsert (userId user)
                 (λ p, {| profile_id := profile_id p;
                          profile_userId := profile_userId p;
                          profile_name := profile_name p;
                          profile_headline := profile_headline p;
                          profile_location := profile_location p;
                          profile_phone := profile_phone p;
                          profile_about := orKeep about (profile_about p);
                          profile_skills := profile_skills p;
                          profile_resume := profile_resume p;
                          profile_resumeName := profile_resumeName p;
                          profile_resumeUpdatedAt := profile_resumeUpdatedAt p;
                          profile_avatar := profile_avatar p |})
                 {| profile_id := newId env MProfile;
                    profile_userId := userId user;
                    profile_name := JNull;
                    profile_headline := JNull;
                    profile_location := JNull;
                    profile_phone := JNull;
                    profile_about := orNull about;
                    profile_skills := JNull;
                    profile_resume := JNull;
                    profile_resumeName := JNull;
                    profile_resumeUpdatedAt := JNull;
                    profile_avatar := JNull |};
    mret (OK, Some "About section updated", profile)).

(** [Array.isArray(v)] *)
Definition isArray (v : option jsval) : bool :=
  match v with
  | Some (JArr _) => true
  | _ => false
  end.

(** PUT /profile/skills *)
Definition update_skills (env : Env) (req : Request) : Store -> Reply Profile * Store :=
  try_catch_with (
    user ← authMiddleware req;
    let skills := req_body req !! "skills" in
    if negb (isArray skills) then
      send (json BadRequest "Skills must be an array")
    else
      profile ← Prisma.profile_upsert (userId user)
                   (λ p, {| profile_id := profile_id p;
                            profile_userId := profile_userId p;
                            profile_name := profile_name p;
                            profile_headline := profile_headline p;
                            profile_location := profile_location p;
                            profile_phone := profile_phone p;
                            profile_about := profile_about p;
                            profile_skills := orKeep skills (profile_skills p);
                            profile_resume := profile_resume p;
                            profile_resumeName := profile_resumeName p;
                            profile_resumeUpdatedAt := profile_resumeUpdatedAt p;
                            profile_avatar := profile_avatar p |})
                   {| profile_id := newId env MProfile;
                      profile_userId := userId user;
                      profile_name := JNull;
                      profile_headline := JNull;
                      profile_location := JNull;
                      profile_phone := JNull;
                      profile_about := JNull;
                      profile_skills := orNull skills;
                      profile_resume := JNull;
                      profile_resumeName := JNull;
                      profile_resumeUpdatedAt := JNull;
                      profile_avatar := JNull |};
      mret (OK, Some "Skills updated", profile)).

(** POST /profile/education *)
Definition add_education (env : Env) (req : Request) : Store -> Response * Store :=
  try_catch (
    user ← authMiddleware req;
    let body := req_body req in
    let institution := body !! "institution" in
    let degree := body !! "degree" in
    let fieldOfStudy := body !! "fieldOfStudy" in
    let startYear := body !! "startYear" in
    let endYear := body !! "endYear" in
    let grade := body !! "grade" in
    if negb (truthy institution) || negb (truthy degree) || negb (truthy fieldOfStudy)
       || negb (truthy startYear) then
      send (json BadRequest
              "Institution, degree, field of study, and start year are required")
    else
      found ← Prisma.profile_findUnique_userId (userId user);
      profile ← match found with
                | Some profile => mret profile
                | None =>
                    Prisma.profile_create
                      (newProfile (newId env MProfile) (userId user) JNull)
                end;
      education ← Prisma.education_create
                     {| edu_id := newId env MEducation;
                        edu_profileId := profile_id profile;
                        edu_institution := orNull institution;
                        edu_degree := orNull degree;
                        edu_fieldOfStudy := orNull fieldOfStudy;
                        edu_startYear := orNull startYear;
                        edu_endYear := orNull endYear;
                        edu_grade := orNull grade |};
      mret (jsonWith Created (Some "Education added") (PEducation education))).
End routes.
End Profiles.

(** ** Sample data *)

(** A schema that accepts every row, with a given referential action. *)
Definition permissive (onDelete : ReferentialAction) : Schema :=
  {| valid_profile := λ _, true;
     valid_experience := λ _, true;
     valid_education := λ _, true;
     valid_job := λ _, true;
     valid_application := λ _, true;
     profile_onDelete := onDelete;
     detail_onDelete := onDelete;
     column_le := λ _ _, true |}.

Definition emptyStore : Store :=
  {| users := []; profiles := []; experiences := []; educations := [];
     jobs := []; applications := []; savedJobs := [] |}.

Definition request (u : option AuthUser) (param : Id) (body : jsobj) : Request :=
  {| req_user := u; req_param := param; req_query := ∅; req_body := body |}.

(** An anonymous request with a query string. *)
Definition search (q : jsobj) : Request :=
  {| req_user := None; req_param := ""; req_query := q; req_body := ∅ |}.

Definition seeker : User :=
  {| user_id := "u1"; user_email := "sam@example.org"; user_name := "Sam";
     user_password := "$2b$10$hash"; user_role := JOB_SEEKER; user_createdAt := 1 |}.

Definition recruiter : User :=
  {| user_id := "r1"; user_email := "rita@example.org"; user_name := "Rita";
     user_password := "$2b$10$hash"; user_role := RECRUITER; user_createdAt := 2 |}.

Definition admin : User :=
  {| user_id := "a1"; user_email := "ada@example.org"; user_name := "Ada";
     user_password := "$2b$10$hash"; user_role := ADMIN; user_createdAt := 3 |}.

Definition token (u : User) : option AuthUser :=
  Some {| userId := user_id u; role := user_role u |}.

Definition people : Store := set_users [seeker; recruiter; admin] emptyStore.

Definition env1 : Env := {| newId := λ _, "n1"; now := 10 |}.
Definition env2 : Env := {| newId := λ _, "n2"; now := 20 |}.

Definition experienceBody : jsobj :=
  list_to_map [("title", JStr "Engineer"); ("company", JStr "Acme");
               ("startDate", JStr "2020-01-01"); ("endDate", JStr "2021-01-01");
               ("current", JBool true)].

Definition engineerBody : jsobj :=
  list_to_map [("title", JStr "Engineer"); ("company", JStr "Acme");
               ("location", JStr "Remote"); ("salary", JStr "100k");
               ("description", JStr "...")].

Definition posting (id : Id) (category : string) (owner : Id) (t : Time) : Job :=
  {| job_id := id; job_title := JStr "Engineer"; job_company := JStr "Acme";
     job_location := JStr "Remote"; job_category := category;
     job_type := JStr "FULL_TIME"; job_salary := JStr "100k";
     job_description := JStr "..."; job_requirements := JNull;
     job_recruiterId := owner; job_createdAt := t |}.

(** Three users and three jobs of the recruiter. *)
Definition board : Store :=
  set_jobs [posting "j1" "frontend" "r1" 5; posting "j2" "backend" "r1" 7;
            posting "j3" "frontend" "r1" 9] people.

(** The board after the job seeker has applied to the first job. *)
Definition applied : Store :=
  set_applications
    [{| app_id := "p1"; app_coverLetter := JNull; app_status := PENDING;
        app_userId := "u1"; app_jobId := "j1"; app_createdAt := 11 |}] board.

(** The same with a saved job of the job seeker and a profile of the
    recruiter. *)
Definition busy : Store :=
  set_profiles [Profiles.newProfile "f1" "r1" (JStr "Rita")]
    (set_savedJobs
       [{| saved_id := "v1"; saved_userId := "u1"; saved_jobId := "j2";
           saved_createdAt := 12 |}] applied).

(** The people, with a profile of the job seeker and a past position. *)
Definition career : Store :=
  set_experiences
    [{| exp_id := "x1"; exp_profileId := "f2"; exp_title := JStr "Intern";
        exp_company := JStr "Acme"; exp_location := JNull;
        exp_startDate := JStr "2019-01-01"; exp_endDate := JStr "2019-06-30";
        exp_current := JBool false; exp_description := JNull |}]
    (set_profiles [Profiles.newProfile "f2" "u1" (JStr "Sam")] people).

(** What DELETE /jobs/:id leaves of the store when it goes through. *)
Definition without_job (id : Id) (s : Store) : Store :=
  set_jobs (removeBy job_id id (jobs s))
    (set_savedJobs (removeBy saved_jobId id (savedJobs s))
       (set_applications (removeBy app_jobId id (applications s)) s)).

(** ** Integrity of the store *)

Definition applicationKey (a : Application) : Id * Id := (app_userId a, app_jobId a).

Definition savedKey (r : SavedJob) : Id * Id := (saved_userId r, saved_jobId r).

(** The primary key and the compound unique key [userId_jobId] hold in the
    applications table, respectively in the saved jobs. *)
Definition applications_unique (s : Store) : Prop :=
  NoDup (app_id <$> applications s) ∧ NoDup (applicationKey <$> applications s).

Definition savedJobs_unique (s : Store) : Prop :=
  NoDup (saved_id <$> savedJobs s) ∧ NoDup (savedKey <$> savedJobs s).

(** The primary key and the unique [userId] hold in the profiles table. *)
Definition profiles_unique (s : Store) : Prop :=
  NoDup (profile_id <$> profiles s) ∧ NoDup (profile_userId <$> profiles s).

(** Every stored job has one of the three categories. *)
Definition categorized (s : Store) : Prop :=
  Forall (λ j, job_category j ∈ Jobs.JOB_CATEGORIES) (jobs s).

(** A row with one column changed. *)
Definition with_status (st : Status) (a : Application) : Application :=
  {| app_id := app_id a; app_coverLetter := app_coverLetter a; app_status := st;
     app_userId := app_userId a; app_jobId := app_jobId a;
     app_createdAt := app_createdAt a |}.

Definition with_role (r : Role) (u : User) : User :=
  {| user_id := user_id u; user_email := user_email u; user_name := user_name u;
     user_password := user_password u; user_role := r;
     user_createdAt := user_createdAt u |}.

(** * Properties *)

(** ** Rows and tables *)
Section tables.
Context {A : Type} (key : A -> Id).

Lemma lookupBy_None k (l : list A) :
  lookupBy key k l = None ↔ k ∉ key <$> l.
Proof.
  unfold lookupBy. induction l as [|r l IH]; simpl.
  - split; [intros _; apply not_elem_of_nil | done].
  - rewrite filter_cons. destruct (decide (key r = k)) as [E|E]; simpl.
    + split; [done | intros []; rewrite E; apply list_elem_of_here].
    + rewrite IH, not_elem_of_cons. split; [by split | by intros []].
Qed.

Lemma selectBy_fresh k (l : list A) :
  k ∉ key <$> l → filter (λ r, key r = k) l = [].
Proof. intros E%lookupBy_None. by apply head_None. Qed.

Lemma selectBy_snoc k (l : list A) r :
  k ∉ key <$> l → key r = k → filter (λ r, key r = k) (l ++ [r]) = [r].
Proof.
  intros E K. rewrite filter_app, selectBy_fresh by done.
  by rewrite filter_cons_True, filter_nil.
Qed.

Lemma lookupBy_Some k (l : list A) r :
  lookupBy key k l = Some r → r ∈ l ∧ key r = k.
Proof.
  unfold lookupBy. intros E%head_Some_elem_of%list_elem_of_filter. tauto.
Qed.

Lemma lookupBy_is_Some k (l : list A) :
  k ∈ key <$> l → is_Some (lookupBy key k l).
Proof.
  intros E. destruct (lookupBy key k l) eqn:L; [eauto |].
  by apply lookupBy_None in L.
Qed.

Lemma lookupBy_snoc k (l : list A) r :
  k ∉ key <$> l → key r = k → lookupBy key k (l ++ [r]) = Some r.
Proof.
  intros E%lookupBy_None K. unfold lookupBy in *.
  rewrite filter_app. destruct (filter _ l); [|done].
  simpl. by rewrite filter_cons_True.
Qed.

Lemma removeBy_fresh k (l : list A) :
  k ∉ key <$> l → removeBy key k l = l.
Proof.
  unfold removeBy. induction l as [|r l IH]; [done|].
  rewrite fmap_cons, not_elem_of_cons. intros [E1 E2].
  rewrite filter_cons_True by done. by rewrite IH.
Qed.

Lemma removeBy_snoc k (l : list A) r :
  k ∉ key <$> l → key r = k → removeBy key k (l ++ [r]) = l.
Proof.
  intros E K. unfold removeBy. rewrite filter_app.
  fold (removeBy key k l). rewrite removeBy_fresh by done.
  rewrite filter_cons_False by (intros N; by apply N).
  by rewrite filter_nil, app_nil_r.
Qed.

Lemma removeBy_gone k (l : list A) : k ∉ key <$> removeBy key k l.
Proof.
  unfold removeBy. intros (r & E & [N _]%list_elem_of_filter)%list_elem_of_fmap.
  by apply N.
Qed.

Lemma elem_of_replaceBy k r' (l : list A) r :
  r ∈ replaceBy key k r' l → r = r' ∨ r ∈ l.
Proof.
  unfold replaceBy. intros (x & -> & E)%list_elem_of_fmap.
  case_decide; [by left | by right].
Qed.
End tables.

(** ** The tables of characters *)

Lemma ascending_from (from : N) (table : list (N * N)) (r : N * N) :
  Unicode.ascending from table = true → r ∈ table → (from ≤ r.1 ∧ r.1 ≤ r.2)%N.
Proof.
  revert from. induction table as [|[first last] table IH]; intros from A R.
  - by apply elem_of_nil in R.
  - simpl in A. apply andb_true_iff in A as [A A3]. apply andb_true_iff in A as [A1 A2].
    apply N.leb_le in A1, A2.
    apply elem_of_cons in R as [->|R]; [done|].
    destruct (IH _ A3 R). lia.
Qed.

(** On a sorted table the search finds the range a code point lies in. *)
Lemma within_ascending (c from : N) (table : list (N * N)) :
  Unicode.ascending from table = true →
  Unicode.within c table = true ↔ ∃ r, r ∈ table ∧ (r.1 ≤ c ∧ c ≤ r.2)%N.
Proof.
  revert from. induction table as [|[first last] table IH]; intros from A.
  - simpl. split; [done|]. intros (r & R & _). by apply elem_of_nil in R.
  - simpl in *. apply andb_true_iff in A as [A A3]. apply andb_true_iff in A as [A1 A2].
    apply N.leb_le in A1, A2.
    destruct (N.ltb_spec c first) as [L|L].
    + split; [done|]. intros (r & R & B).
      apply elem_of_cons in R as [->|R]; [simpl in B; lia|].
      destruct (ascending_from _ _ _ A3 R). lia.
    + destruct (N.leb_spec c last) as [M|M].
      * split; [|done]. intros _. exists (first, last). split; [left|done].
      * rewrite (IH _ A3). split; intros (r & R & B).
        -- exists r. split; [by right|done].
        -- apply elem_of_cons in R as [->|R]; [simpl in B; lia|]. by exists r.
Qed.

Lemma tables_ascending :
  Unicode.ascending 0 Unicode.WhiteSpace = true
  ∧ Unicode.ascending 0 Unicode.Cased = true
  ∧ Unicode.ascending 0 Unicode.Case_Ignorable = true
  ∧ Unicode.ascending 0 ((λ e, (e.1.1.1, e.1.1.2)) <$> Unicode.lowercase) = true.
Proof. repeat split; vm_compute; reflexivity. Qed.

(** The white space of the language, one code point after the other. *)
Lemma isWhiteSpace_iff (c : N) :
  Unicode.isWhiteSpace c = true
  ↔ c ∈ [0x09; 0x0A; 0x0B; 0x0C; 0x0D; 0x20; 0xA0; 0x1680; 0x2000; 0x2001; 0x2002;
         0x2003; 0x2004; 0x2005; 0x2006; 0x2007; 0x2008; 0x2009; 0x200A; 0x2028;
         0x2029; 0x202F; 0x205F; 0x3000; 0xFEFF]%N.
Proof.
  unfold Unicode.isWhiteSpace. split.
  - intros W. apply (within_ascending c 0) in W as (r & R & B);
      [|apply tables_ascending].
    unfold Unicode.WhiteSpace in R.
    repeat (apply elem_of_cons in R as [->|R];
            [simpl in B; repeat rewrite elem_of_cons; lia|]).
    by apply elem_of_nil in R.
  - intros C.
    repeat (apply elem_of_cons in C as [->|C]; [reflexivity|]).
    by apply elem_of_nil in C.
Qed.

(** ** Normalizing a category *)

Example normalizeCategory_mixed_case :
  Jobs.normalizeCategory (Some (JStr "  Frontend ")) = Some "frontend".
Proof. reflexivity. Qed.

Example normalizeCategory_unknown :
  Jobs.normalizeCategory (Some (JStr "mobile")) = None.
Proof. reflexivity. Qed.

Example normalizeCategory_blank :
  Jobs.normalizeCategory (Some (JStr "   ")) = None.
Proof. reflexivity. Qed.

Example normalizeCategory_not_a_string :
  Jobs.normalizeCategory (Some (JNum 1)) = None ∧ Jobs.normalizeCategory None = None.
Proof. split; reflexivity. Qed.

(** What [normalizeCategory] returns is one of the categories. *)
Lemma normalizeCategory_Some (input : option jsval) (c : string) :
  Jobs.normalizeCategory input = Some c → c ∈ Jobs.JOB_CATEGORIES.
Proof.
  unfold Jobs.normalizeCategory. destruct input as [[]|]; try done.
  repeat case_decide; try done. by intros [= <-].
Qed.

(** White space and case are those of Unicode: a no-break space is trimmed
    and the Kelvin sign is a capital k, while NEL (U+0085) is no white space
    of the language. *)
Example normalizeCategory_no_break_space :
  Jobs.normalizeCategory (Some (JStr (Unicode.encode [0xA0%N] ++ "backend")%string))
  = Some "backend".
Proof. reflexivity. Qed.

Example normalizeCategory_kelvin_sign :
  Jobs.normalizeCategory (Some (JStr ("BAC" ++ Unicode.encode [0x212A%N] ++ "END")%string))
  = Some "backend".
Proof. reflexivity. Qed.

Example normalizeCategory_next_line :
  Jobs.normalizeCategory (Some (JStr (Unicode.encode [0x85%N] ++ "backend")%string))
  = None.
Proof. reflexivity. Qed.

(** A normalized category is never the empty string. *)
Lemma given_normalizeCategory (input : option jsval) :
  Jobs.given (Jobs.normalizeCategory input) = Jobs.normalizeCategory input.
Proof.
  unfold Jobs.given, Jobs.normalizeCategory.
  destruct input as [[]|]; try done.
  repeat case_decide; done.
Qed.

Arguments Jobs.normalizeCategory : simpl never.
Arguments Jobs.given : simpl never.
Arguments Jobs.recategorize : simpl never.
Arguments Admin.forEach : simpl never.

(** Unfolds the monad of the handlers and the calls of the client, leaving
    the decisions the handler takes. *)
Ltac run :=
  unfold try_catch, authMiddleware, requireRole;
  unfold mbind, Action_bind, mret, Action_ret, send, throw, read, write, get_store;
  simpl.

(** ** Experience and education: a missing target *)
Section missing_detail.
Context {schema : Schema}.

(** C10. An authenticated update or delete of an experience or education
    row whose id is not in the store is answered 403 "Not authorized",
    not 404, and leaves the store as it was. *)
Theorem detail_absent_is_forbidden (req : Request) (u : AuthUser) (s : Store) :
  req_user req = Some u →
  (req_param req ∉ exp_id <$> experiences s →
     Profiles.update_experience req s = (json Forbidden "Not authorized", s)
     ∧ Profiles.delete_experience req s = (json Forbidden "Not authorized", s))
  ∧ (req_param req ∉ edu_id <$> educations s →
     Profiles.update_education req s = (json Forbidden "Not authorized", s)
     ∧ Profiles.delete_education req s = (json Forbidden "Not authorized", s))
  ∧ status (json Forbidden "Not authorized") = 403
  ∧ status (json Forbidden "Not authorized") ≠ NotFound.
Proof.
  intros U. split; [|split; [|done]].
  all: intros N; apply lookupBy_None in N.
  all: unfold Profiles.update_experience, Profiles.delete_experience,
         Profiles.update_education, Profiles.delete_education,
         Prisma.experience_findUnique_include, Prisma.education_findUnique_include.
  all: run; rewrite U; simpl; by rewrite N.
Qed.
End missing_detail.

Lemma detail_absent_is_forbidden_witness :
  let req := request (Some {| userId := "u1"; role := JOB_SEEKER |}) "e9" ∅ in
  Profiles.update_experience (schema := permissive Cascade) req emptyStore
    = (json Forbidden "Not authorized", emptyStore).
Proof.
  intros req.
  apply (detail_absent_is_forbidden (schema := permissive Cascade) req
           {| userId := "u1"; role := JOB_SEEKER |} emptyStore); [reflexivity |].
  vm_compute. by intros ?%elem_of_nil.
Defined.

(** ** Experience rows: the current flag *)
Section experience_rows.
Context {schema : Schema}.

(** C9. When the current flag of the request is truthy, every experience
    row that the add or the update operation writes, and the row it
    returns, has a null end date, whatever end date the request carries. *)
Theorem current_forces_null_endDate (env : Env) (req : Request) (s : Store) :
  truthy (req_body req !! "current") = true →
  (∀ e, e ∈ experiences (Profiles.add_experience env req s).2 →
        e ∉ experiences s → exp_endDate e = JNull)
  ∧ (∀ e, e ∈ experiences (Profiles.update_experience req s).2 →
          e ∉ experiences s → exp_endDate e = JNull)
  ∧ (∀ e, payload (Profiles.add_experience env req s).1 = PExperience e →
          exp_endDate e = JNull)
  ∧ (∀ e, payload (Profiles.update_experience req s).1 = PExperience e →
          exp_endDate e = JNull).
Proof.
  intros C.
  unfold Profiles.add_experience, Profiles.update_experience,
    Prisma.profile_findUnique_userId, Prisma.profile_create,
    Prisma.experience_create, Prisma.experience_findUnique_include,
    Prisma.experience_update.
  run. rewrite C.
  repeat split; intros e.
  - repeat (case_match; simpl in * ; simplify_eq/=); try done.
    all: rewrite elem_of_app, list_elem_of_singleton; by intros [?| ->] ?.
  - destruct (req_user req) as [u|]; simpl; [|done].
    destruct (lookupBy exp_id (req_param req) (experiences s)) as [e0|] eqn:L;
      simpl; [|done].
    repeat (case_match; simpl in * ; simplify_eq/=); try done.
    by intros [->|?]%elem_of_replaceBy ?.
  - repeat (case_match; simpl in * ; simplify_eq/=); try done.
    all: by intros [= <-].
  - destruct (req_user req) as [u|]; simpl; [|done].
    destruct (lookupBy exp_id (req_param req) (experiences s)) as [e0|] eqn:L;
      simpl; [|done].
    repeat (case_match; simpl in * ; simplify_eq/=); try done.
    by intros [= <-].
Qed.
End experience_rows.

Lemma current_forces_null_endDate_witness :
  let r := Profiles.add_experience (schema := permissive Cascade) env1
             (request (token seeker) "" experienceBody) people in
  let r' := Profiles.update_experience (schema := permissive Cascade)
              (request (token seeker) "x1" experienceBody) career in
  (status r.1 = Created
   ∧ length (experiences r.2) = 1
   ∧ Forall (λ e, exp_endDate e = JNull) (experiences r.2))
  ∧ (status r'.1 = OK
     ∧ length (experiences r'.2) = 1
     ∧ Forall (λ e, exp_endDate e = JNull) (experiences r'.2)).
Proof.
  split; (split; [reflexivity | split; [reflexivity |]]).
  - apply Forall_forall. intros e He.
    destruct (current_forces_null_endDate (schema := permissive Cascade) env1
                (request (token seeker) "" experienceBody) people) as (H & _);
      [reflexivity |].
    apply H; [exact He | vm_compute; apply not_elem_of_nil].
  - apply Forall_forall. intros e He.
    destruct (current_forces_null_endDate (schema := permissive Cascade) env1
                (request (token seeker) "x1" experienceBody) career) as (_ & H & _);
      [reflexivity |].
    apply H; [exact He |].
    vm_compute in He. apply list_elem_of_singleton in He as ->.
    vm_compute. by intros [=]%list_elem_of_singleton.
Defined.

(** ** Creating a job: the category *)
Section create_job.
Context {schema : Schema}.

(** A recruiter's POST /jobs with the five required fields is never
    refused for its category: whatever role or category the body has,
    the job is created, with the normalized category or "fullstack". *)
Lemma create_job_created (env : Env) (req : Request) (u : AuthUser) (s : Store) :
  req_user req = Some u → role u = RECRUITER →
  truthy (req_body req !! "title") = true →
  truthy (req_body req !! "company") = true →
  truthy (req_body req !! "location") = true →
  truthy (req_body req !! "salary") = true →
  truthy (req_body req !! "description") = true →
  valid_job (Jobs.jobData env u (req_body req)) = true →
  newId env MJob ∉ job_id <$> jobs s →
  userId u ∈ user_id <$> users s →
  Jobs.create_job env req s
  = (jsonWith Created (Some "Job created") (PJob (Jobs.jobData env u (req_body req))),
     set_jobs (jobs s ++ [Jobs.jobData env u (req_body req)]) s).
Proof.
  intros U R T1 T2 T3 T4 T5 V F K.
  unfold Jobs.create_job, Prisma.job_create. run.
  rewrite U; simpl. rewrite R; simpl.
  rewrite T1, T2, T3, T4, T5, V; simpl.
  rewrite decide_False by done. by rewrite decide_True by done.
Qed.
End create_job.

(** C1. POST /jobs by a recruiter with the five required fields: without a
    category the stored category is "fullstack", and with "Frontend" it is
    "frontend"; with "mobile" the request is not refused with 400 "Invalid
    role": the job is created (201) and stored with category "fullstack". *)
Theorem create_job_category_examples :
  let post body :=
    Jobs.create_job (schema := permissive Cascade) env1
      (request (token recruiter) "" body) people in
  (status (post engineerBody).1 = Created
   ∧ job_category <$> jobs (post engineerBody).2 = ["fullstack"])
  ∧ (status (post (<["category" := JStr "Frontend"]> engineerBody)).1 = Created
     ∧ job_category <$> jobs (post (<["category" := JStr "Frontend"]> engineerBody)).2
       = ["frontend"])
  ∧ (status (post (<["category" := JStr "mobile"]> engineerBody)).1 = Created
     ∧ (post (<["category" := JStr "mobile"]> engineerBody)).1 ≠ Jobs.invalidRole
     ∧ job_category <$> jobs (post (<["category" := JStr "mobile"]> engineerBody)).2
       = ["fullstack"])
  ∧ message Jobs.invalidRole
    = Some "Invalid role. Use one of: frontend, backend, fullstack".
Proof. vm_compute. repeat split; discriminate. Qed.

(** ** Compound unique keys *)
Section pairs.
Context {A : Type} (k1 k2 : A -> Id).

Lemma lookupPair_None u j (l : list A) :
  lookupPair k1 k2 u j l = None ↔ selectPair k1 k2 u j l = [].
Proof. unfold lookupPair. apply head_None. Qed.

Lemma selectPair_snoc u j (l : list A) r :
  k1 r = u → k2 r = j →
  selectPair k1 k2 u j (l ++ [r]) = selectPair k1 k2 u j l ++ [r].
Proof.
  intros E1 E2. unfold selectPair. rewrite filter_app.
  by rewrite filter_cons_True, filter_nil.
Qed.

Lemma lookupPair_snoc u j (l : list A) r :
  k1 r = u → k2 r = j → is_Some (lookupPair k1 k2 u j (l ++ [r])).
Proof.
  intros E1 E2. unfold lookupPair. rewrite selectPair_snoc by done.
  destruct (selectPair k1 k2 u j l); simpl; eauto.
Qed.

Lemma selectPair_removed u j (l : list A) :
  selectPair k1 k2 u j (filter (λ r, ¬ (k1 r = u ∧ k2 r = j)) l) = [].
Proof.
  unfold selectPair. induction l as [|r l IH]; [done|].
  rewrite filter_cons. case_decide; [|done].
  by rewrite filter_cons_False.
Qed.
End pairs.

(** ** Applying and withdrawing *)
Section applying.
Context {schema : Schema}.

(** When does the apply route answer 201, and what does it do then. *)
Lemma apply_Created_inv (env : Env) (req : Request) (u : AuthUser) (s : Store) :
  req_user req = Some u →
  status (Applications.apply env req s).1 = Created →
  let a := Applications.applicationData env u (req_param req)
             (req_body req !! "coverLetter") in
  role u = JOB_SEEKER
  ∧ is_Some (lookupBy job_id (req_param req) (jobs s))
  ∧ selectPair app_userId app_jobId (userId u) (req_param req) (applications s) = []
  ∧ (app_id a ∉ app_id <$> applications s)
  ∧ userId u ∈ user_id <$> users s
  ∧ Applications.apply env req s
    = (jsonWith Created (Some "Application submitted") (PApplication a),
       set_applications (applications s ++ [a]) s).
Proof.
  intros U. unfold Applications.apply, Prisma.job_findUnique,
    Prisma.application_findUnique_userId_jobId, Prisma.application_create.
  run. rewrite U; simpl.
  destruct u as [uid r]; simpl.
  destruct r; simpl; try done.
  destruct (lookupBy job_id (req_param req) (jobs s)) as [j|] eqn:J; simpl; [|done].
  destruct (lookupPair app_userId app_jobId uid (req_param req) (applications s))
    as [a0|] eqn:P; simpl; [done|].
  destruct (valid_application _); simpl; [|done].
  repeat (case_decide; simpl; try done).
  intros _. apply lookupPair_None in P. destruct_and?. eauto 10.
Qed.

(** C2. After apply(u,j) has succeeded, the store holds exactly one
    application for (u,j); a second apply(u,j) is answered 400 "Already
    applied to this job" and creates nothing; u can withdraw the
    application, which leaves no application for (u,j), and after that a
    new apply(u,j) succeeds again. *)
Theorem apply_once_per_job (env : Env) (req : Request) (u : AuthUser) (s : Store) :
  req_user req = Some u →
  status (Applications.apply env req s).1 = Created →
  let s1 := (Applications.apply env req s).2 in
  let a := Applications.applicationData env u (req_param req)
             (req_body req !! "coverLetter") in
  let s2 := (Applications.withdraw (request (Some u) (app_id a) ∅) s1).2 in
  selectPair app_userId app_jobId (userId u) (req_param req) (applications s1) = [a]
  ∧ (∀ env' req', req_user req' = Some u → req_param req' = req_param req →
       Applications.apply env' req' s1
       = (json BadRequest "Already applied to this job", s1))
  ∧ Applications.withdraw (request (Some u) (app_id a) ∅) s1
    = (json OK "Application withdrawn", s2)
  ∧ selectPair app_userId app_jobId (userId u) (req_param req) (applications s2) = []
  ∧ (∀ env' req', req_user req' = Some u → req_param req' = req_param req →
       valid_application
         (Applications.applicationData env' u (req_param req)
            (req_body req' !! "coverLetter")) = true →
       newId env' MApplication ∉ app_id <$> applications s2 →
       status (Applications.apply env' req' s2).1 = Created).
Proof.
  intros U C.
  destruct (apply_Created_inv env req u s U C) as (R & [j J] & P & F & K & E).
  cbv zeta. rewrite E. cbn [snd]. clear C E.
  set (a := Applications.applicationData env u (req_param req) _) in *.
  assert (W : Applications.withdraw (request (Some u) (app_id a) ∅)
                (set_applications (applications s ++ [a]) s)
              = (json OK "Application withdrawn", s)).
  { unfold Applications.withdraw, Prisma.application_findUnique,
      Prisma.application_delete.
    run. rewrite R; simpl.
    rewrite (lookupBy_snoc app_id _ _ a) by done. simpl.
    rewrite decide_False by (by intros []).
    rewrite decide_True by (apply list_elem_of_fmap; exists a; split; [done|];
                             apply elem_of_app; right; apply list_elem_of_here).
    cbn [applications set_applications].
    rewrite (removeBy_snoc app_id) by done. by destruct s. }
  rewrite W. cbn [snd].
  split; [|split; [|split; [done|split; [done|]]]].
  - cbn [applications set_applications].
    rewrite (selectPair_snoc app_userId app_jobId) by done. by rewrite P.
  - intros env' req' U' Q'.
    unfold Applications.apply, Prisma.job_findUnique,
      Prisma.application_findUnique_userId_jobId.
    run. rewrite U', Q'; simpl. rewrite R; simpl. rewrite J; simpl.
    by destruct (lookupPair_snoc app_userId app_jobId (userId u) (req_param req)
                   (applications s) a eq_refl eq_refl) as [x ->].
  - intros env' req' U' Q' V' F'.
    unfold Applications.apply, Prisma.job_findUnique,
      Prisma.application_findUnique_userId_jobId, Prisma.application_create.
    run. rewrite U', Q'; simpl. rewrite R; simpl. rewrite J; simpl.
    apply lookupPair_None in P. rewrite P; simpl. rewrite V'; simpl.
    apply lookupBy_Some in J as [J1 J2].
    repeat case_decide; simpl; try done.
    + match goal with X : is_Some _ |- _ => rewrite P in X; by destruct X end.
    + match goal with X : ¬ _ |- _ => destruct X end.
      split; [done|]. apply list_elem_of_fmap. eauto.
Qed.
End applying.

Lemma apply_once_per_job_witness :
  let req := request (token seeker) "j1" ∅ in
  let s1 := (Applications.apply (schema := permissive Cascade) env1 req board).2 in
  Applications.apply (schema := permissive Cascade) env2 req s1
  = (json BadRequest "Already applied to this job", s1)
  ∧ length (applications s1) = 1.
Proof.
  intros req s1. split; [|reflexivity].
  destruct (apply_once_per_job (schema := permissive Cascade) env1 req
              {| userId := "u1"; role := JOB_SEEKER |} board) as (_ & H & _);
    [reflexivity | reflexivity |].
  apply H; reflexivity.
Defined.

(** ** Saving a job, removing it, checking it *)
Section saving.

(** After the remove route, whatever it answered, the check route finds
    nothing saved for the caller and the job. *)
Lemma remove_then_check (req : Request) (u : AuthUser) (s : Store) :
  req_user req = Some u → role u = JOB_SEEKER →
  let s' := (SavedJobs.remove req s).2 in
  SavedJobs.check req s' = (jsonWith OK None (PIsSaved false), s').
Proof.
  intros U R. unfold SavedJobs.remove, SavedJobs.check,
    Prisma.savedJob_findUnique_userId_jobId, Prisma.savedJob_delete_userId_jobId.
  run. rewrite U; simpl. rewrite R; simpl.
  destruct (lookupPair saved_userId saved_jobId (userId u) (req_param req) (savedJobs s))
    as [r|] eqn:P; simpl.
  - rewrite decide_True by (rewrite P; eauto). simpl.
    unfold lookupPair. by rewrite selectPair_removed.
  - by rewrite P.
Qed.

(** C7, as the code has it. For a job seeker u in the users table and an
    existing job j: after save(u,j) and remove(u,j), check(u,j) answers
    false; a second save(u,j) is answered 400 "Job already saved", which is
    BadRequest and not Conflict, and creates no row; the first save
    creates a row only when none is there for (u,j), and then it is the
    only one. *)
Theorem save_remove_check (env env' : Env) (req : Request) (u : AuthUser) (s : Store) :
  req_user req = Some u → role u = JOB_SEEKER →
  userId u ∈ user_id <$> users s →
  req_param req ∈ job_id <$> jobs s →
  newId env MSavedJob ∉ saved_id <$> savedJobs s →
  let s1 := (SavedJobs.save env req s).2 in
  let s2 := (SavedJobs.remove req s1).2 in
  let row := SavedJobs.savedJobData env u (req_param req) in
  let saved := selectPair saved_userId saved_jobId (userId u) (req_param req) in
  SavedJobs.check req s2 = (jsonWith OK None (PIsSaved false), s2)
  ∧ SavedJobs.save env' req s1 = (json BadRequest "Job already saved", s1)
  ∧ status (json BadRequest "Job already saved") = 400
  ∧ (saved (savedJobs s) = [] →
       SavedJobs.save env req s
       = (json OK "Job saved", set_savedJobs (savedJobs s ++ [row]) s)
       ∧ saved (savedJobs s1) = [row])
  ∧ (saved (savedJobs s) ≠ [] → s1 = s).
Proof.
  intros U R K J F s1 s2 row saved.
  split; [by apply (remove_then_check _ u)|].
  apply lookupBy_is_Some in J as [j J].
  assert (S1 : SavedJobs.save env req s
               = if decide (saved (savedJobs s) = [])
                 then (json OK "Job saved", set_savedJobs (savedJobs s ++ [row]) s)
                 else (json BadRequest "Job already saved", s)).
  { unfold SavedJobs.save, Prisma.job_findUnique,
      Prisma.savedJob_findUnique_userId_jobId, Prisma.savedJob_create.
    run. rewrite U; simpl. rewrite R; simpl. rewrite J; simpl.
    unfold lookupPair. fold saved.
    destruct (saved (savedJobs s)) as [|r l] eqn:P; simpl; [|done].
    apply lookupBy_Some in J as [J1 J2].
    repeat case_decide; simpl; try done.
    + match goal with X : is_Some _ |- _ =>
        unfold lookupPair in X; fold saved in X; rewrite P in X; by destruct X end.
    + match goal with X : ¬ _ |- _ => destruct X end.
      split; [done|]. apply list_elem_of_fmap. eauto. }
  assert (S2 : is_Some (lookupPair saved_userId saved_jobId (userId u)
                          (req_param req) (savedJobs s1))).
  { unfold s1. rewrite S1. case_decide as P; simpl.
    - by apply lookupPair_snoc.
    - unfold lookupPair. fold saved. destruct (saved (savedJobs s)); [done|].
      simpl; eauto. }
  split; [|split; [done|split]].
  - unfold SavedJobs.save, Prisma.job_findUnique,
      Prisma.savedJob_findUnique_userId_jobId.
    run. rewrite U; simpl. rewrite R; simpl.
    replace (jobs s1) with (jobs s) by (unfold s1; rewrite S1; by case_decide).
    rewrite J; simpl. by destruct S2 as [x ->].
  - intros P. unfold s1. rewrite S1, decide_True by done. split; [done|].
    simpl. unfold saved. rewrite selectPair_snoc by done. fold saved. by rewrite P.
  - intros P. unfold s1. by rewrite S1, decide_False by done.
Qed.
End saving.

Lemma save_remove_check_witness :
  let req := request (token seeker) "j1" ∅ in
  let s1 := (SavedJobs.save env1 req board).2 in
  SavedJobs.save env2 req s1 = (json BadRequest "Job already saved", s1)
  ∧ length (savedJobs s1) = 1.
Proof.
  intros req s1. split; [|reflexivity].
  destruct (save_remove_check env1 env2 req {| userId := "u1"; role := JOB_SEEKER |}
              board) as (_ & H & _); try reflexivity; try exact H.
  - vm_compute. apply list_elem_of_here.
  - vm_compute. apply list_elem_of_here.
  - vm_compute. apply not_elem_of_nil.
Defined.

(** C7 as stated fails: the second save is not answered Conflict. *)
Lemma save_twice_is_not_conflict :
  ¬ (∀ (env env' : Env) (req : Request) (u : AuthUser) (s : Store),
       req_user req = Some u → role u = JOB_SEEKER →
       userId u ∈ user_id <$> users s →
       req_param req ∈ job_id <$> jobs s →
       status (SavedJobs.save env' req (SavedJobs.save env req s).2).1 = Conflict).
Proof.
  intros H.
  specialize (H env1 env2 (request (token seeker) "j1" ∅)
                {| userId := "u1"; role := JOB_SEEKER |} board).
  vm_compute in H.
  discriminate H; try reflexivity; apply list_elem_of_here.
Qed.

(** ** The profile of the caller *)
Section own_profile.
Context {schema : Schema}.

(** C8. For an authenticated user u of the users table without a profile
    row, GET /profile creates one profile for u; every later GET /profile
    returns that same profile and leaves the store alone, so that exactly
    one profile of u exists after any number of calls; and the public
    GET /profile/:userId for such a user answers 404 and creates nothing. *)
Theorem profile_created_once (env : Env) (req : Request) (u : AuthUser) (row : User)
    (s : Store) :
  req_user req = Some u →
  lookupBy user_id (userId u) (users s) = Some row →
  userId u ∉ profile_userId <$> profiles s →
  newId env MProfile ∉ profile_id <$> profiles s →
  newId env MProfile ∉ exp_profileId <$> experiences s →
  newId env MProfile ∉ edu_profileId <$> educations s →
  let p := Profiles.newProfile (newId env MProfile) (userId u) (JStr (user_name row)) in
  valid_profile p = true →
  let r1 := (Profiles.get_my_profile env req s).1 in
  let s1 := (Profiles.get_my_profile env req s).2 in
  status r1 = OK
  ∧ (∃ v, payload r1 = PProfile v ∧ pv_profile v = p)
  ∧ s1 = set_profiles (profiles s ++ [p]) s
  ∧ (∀ env', Profiles.get_my_profile env' req s1 = (r1, s1))
  ∧ (∀ envs, foldl (λ st e, (Profiles.get_my_profile e req st).2) s1 envs = s1)
  ∧ filter (λ q, profile_userId q = userId u) (profiles s1) = [p]
  ∧ (∀ req', req_param req' = userId u →
       Profiles.get_profile req' s = (json NotFound "Profile not found", s)).
Proof.
  intros U K N F FX FD p V r1 s1.
  assert (G : Profiles.get_my_profile env req s
              = (jsonWith OK None
                   (PProfile {| pv_profile := p; pv_experiences := [];
                                pv_education := [];
                                pv_user := Some (user_email row, user_name row) |}),
                 set_profiles (profiles s ++ [p]) s)).
  { unfold Profiles.get_my_profile, Prisma.profile_findUnique_userId_include,
      Prisma.user_findUnique, Prisma.profile_create_include, Prisma.profile_create.
    run. rewrite U; simpl.
    rewrite (proj2 (lookupBy_None profile_userId _ _) N); simpl.
    rewrite K; simpl. fold p. rewrite V; simpl.
    repeat case_decide; simpl; try done.
    - unfold Prisma.profileView; simpl.
      rewrite !selectBy_fresh by done. by rewrite K.
    - match goal with X : ¬ _ |- _ => destruct X end.
      apply lookupBy_Some in K as [K1 K2]. apply list_elem_of_fmap. eauto. }
  assert (A : ∀ env', Profiles.get_my_profile env' req (set_profiles (profiles s ++ [p]) s)
                      = ((Profiles.get_my_profile env req s).1,
                         set_profiles (profiles s ++ [p]) s)).
  { intros env'. rewrite G. unfold Profiles.get_my_profile,
      Prisma.profile_findUnique_userId_include.
    run. rewrite U; simpl.
    rewrite (lookupBy_snoc profile_userId _ _ p) by done. simpl.
    unfold Prisma.profileView; simpl.
    rewrite !selectBy_fresh by done. by rewrite K. }
  unfold r1, s1. rewrite G in *. cbn [fst snd].
  split; [done|split; [eauto|split; [done|split; [done|split; [|split]]]]].
  - intros envs. induction envs as [|e envs IH]; [done|].
    simpl. by rewrite A.
  - simpl. by apply (selectBy_snoc profile_userId).
  - intros req' Q. unfold Profiles.get_profile,
      Prisma.profile_findUnique_userId_include.
    run. rewrite Q.
    by rewrite (proj2 (lookupBy_None profile_userId _ _) N).
Qed.
End own_profile.

Lemma profile_created_once_witness :
  let req := request (token seeker) "" ∅ in
  let r1 := Profiles.get_my_profile (schema := permissive Cascade) env1 req board in
  Profiles.get_my_profile (schema := permissive Cascade) env2 req r1.2 = r1
  ∧ length (profiles r1.2) = 1.
Proof.
  intros req r1. split; [|reflexivity].
  destruct (profile_created_once (schema := permissive Cascade) env1 req
              {| userId := "u1"; role := JOB_SEEKER |} seeker board)
    as (_ & _ & _ & H & _);
    [reflexivity | reflexivity | vm_compute; apply not_elem_of_nil ..
    | reflexivity | ].
  rewrite H. symmetry. apply surjective_pairing.
Defined.

(** ** The public listing *)
Section listing.

Global Instance newest_first_trans : Transitive Prisma.newest_first.
Proof. unfold Prisma.newest_first. intros a b c. lia. Qed.

Global Instance newest_first_total : Total Prisma.newest_first.
Proof. unfold Prisma.newest_first. intros a b. lia. Qed.

Lemma jobView_job (s : Store) (l : list Job) : jv_job <$> (Prisma.jobView s <$> l) = l.
Proof. rewrite <- list_fmap_compose. apply list_fmap_id. Qed.

(** C6. The category of the listing is the [role] parameter of the query
    and, when there is none, its [category] parameter.  With "frontend",
    and with every value that normalizes to a category, the listing
    returns exactly the jobs whose stored category is that one, the newest
    first; with "bogus", and with every other value that is not a category,
    it answers 400; with neither parameter it returns all the jobs, the
    newest first. *)
Theorem list_jobs_by_category (req : Request) (s : Store) :
  let asked := nullish_or (req_query req !! "role") (req_query req !! "category") in
  let lists (c : string) :=
    ∃ views,
      Jobs.list_jobs req s = (jsonWith OK None (PJobs views), s)
      ∧ jv_job <$> views ≡ₚ filter (λ j, job_category j = c) (jobs s)
      ∧ (∀ j, j ∈ jv_job <$> views ↔ j ∈ jobs s ∧ job_category j = c)
      ∧ StronglySorted Prisma.newest_first (jv_job <$> views) in
  (asked = Some (JStr "frontend") → lists "frontend")
  ∧ (∀ c, Jobs.normalizeCategory asked = Some c → lists c)
  ∧ (asked = Some (JStr "bogus") →
       Jobs.list_jobs req s = (Jobs.invalidRole, s)
       ∧ status Jobs.invalidRole = BadRequest)
  ∧ (notNullish asked = true → Jobs.normalizeCategory asked = None →
       Jobs.list_jobs req s = (Jobs.invalidRole, s))
  ∧ (notNullish asked = false →
       ∃ views,
         Jobs.list_jobs req s = (jsonWith OK None (PJobs views), s)
         ∧ jv_job <$> views ≡ₚ jobs s
         ∧ StronglySorted Prisma.newest_first (jv_job <$> views)).
Proof.
  intros asked lists.
  assert (∀ c, Jobs.normalizeCategory asked = Some c → lists c) as Listed.
  { intros c C. unfold lists, Jobs.list_jobs, Prisma.job_findMany. run.
    fold asked. rewrite given_normalizeCategory, C.
    rewrite bool_decide_true by eauto. rewrite andb_false_r. simpl.
    eexists. split; [reflexivity|]. rewrite jobView_job.
    split; [apply merge_sort_Permutation|].
    split; [|apply StronglySorted_merge_sort; apply _].
    intros j. rewrite merge_sort_Permutation, list_elem_of_filter. tauto. }
  assert (notNullish asked = true → Jobs.normalizeCategory asked = None →
          Jobs.list_jobs req s = (Jobs.invalidRole, s)) as Refused.
  { intros A C. unfold Jobs.list_jobs. run. fold asked. by rewrite A, C. }
  split; [|split; [|split; [|split]]].
  - intros A. apply Listed. by rewrite A.
  - exact Listed.
  - intros A. split; [|done]. apply Refused; by rewrite A.
  - exact Refused.
  - intros A. unfold Jobs.list_jobs, Prisma.job_findMany. run. fold asked.
    assert (Jobs.normalizeCategory asked = None) as ->.
    { destruct asked as [[]|]; done. }
    rewrite A. simpl.
    eexists. split; [reflexivity|]. rewrite jobView_job.
    split; [apply merge_sort_Permutation|].
    apply StronglySorted_merge_sort; apply _.
Qed.
End listing.

Lemma list_jobs_by_category_witness :
  (Jobs.list_jobs (search {[ "role" := JStr "bogus"; "category" := JStr "frontend" ]})
     board).1 = Jobs.invalidRole
  ∧ (∃ views,
       Jobs.list_jobs (search {[ "role" := JStr "frontend" ]}) board
       = (jsonWith OK None (PJobs views), board)
       ∧ job_id ∘ jv_job <$> views = ["j3"; "j1"])
  ∧ (∃ views,
       Jobs.list_jobs (search {[ "role" := JStr " Backend"; "category" := JStr "frontend" ]})
         board
       = (jsonWith OK None (PJobs views), board)
       ∧ job_id ∘ jv_job <$> views = ["j2"])
  ∧ (∃ views,
       Jobs.list_jobs (search {[ "category" := JStr "frontend" ]}) board
       = (jsonWith OK None (PJobs views), board)
       ∧ job_id ∘ jv_job <$> views = ["j3"; "j1"]).
Proof.
  split; [|split; [|split]].
  - destruct (list_jobs_by_category
                (search {[ "role" := JStr "bogus"; "category" := JStr "frontend" ]}) board)
      as (_ & _ & H & _).
    destruct H as [E _]; [reflexivity|]. by rewrite E.
  - destruct (list_jobs_by_category (search {[ "role" := JStr "frontend" ]}) board)
      as (H & _).
    destruct H as (views & E & _); [reflexivity|].
    exists views. split; [exact E|].
    vm_compute in E. by injection E as <-.
  - destruct (list_jobs_by_category
                (search {[ "role" := JStr " Backend"; "category" := JStr "frontend" ]}) board)
      as (_ & H & _).
    destruct (H "backend") as (views & E & _); [reflexivity|].
    exists views. split; [exact E|].
    vm_compute in E. by injection E as <-.
  - destruct (list_jobs_by_category (search {[ "category" := JStr "frontend" ]}) board)
      as (H & _).
    destruct H as (views & E & _); [reflexivity|].
    exists views. split; [exact E|].
    vm_compute in E. by injection E as <-.
Defined.

(** ** Reading an application *)
Section reading.

(** C4, as the code has it. GET /applications/:id answers 404 when there
    is no application with that id.  Otherwise a job seeker is returned
    the application exactly when they are its applicant, a recruiter
    exactly when they own its job, and Forbidden otherwise; an admin is
    always returned it. *)
Theorem get_application_visibility (req : Request) (u : AuthUser) (s : Store) :
  req_user req = Some u →
  (req_param req ∉ app_id <$> applications s →
     Applications.get_application req s = (json NotFound "Application not found", s))
  ∧ (∀ a j,
       lookupBy app_id (req_param req) (applications s) = Some a →
       lookupBy job_id (app_jobId a) (jobs s) = Some j →
       let view :=
         {| av_application := a; av_job := Some j;
            av_user := summary <$> lookupBy user_id (app_userId a) (users s) |} in
       Applications.get_application req s
       = (match role u with
          | JOB_SEEKER =>
              if decide (app_userId a = userId u)
              then jsonWith OK None (PApplicationView view)
              else json Forbidden "Not authorized"
          | RECRUITER =>
              if decide (job_recruiterId j = userId u)
              then jsonWith OK None (PApplicationView view)
              else json Forbidden "Not authorized"
          | ADMIN => jsonWith OK None (PApplicationView view)
          end, s)).
Proof.
  intros U. unfold Applications.get_application, Prisma.application_findUnique_include.
  run. rewrite U; simpl. split.
  - intros N. by rewrite (proj2 (lookupBy_None app_id _ _) N).
  - intros a j A J. rewrite A; simpl. rewrite J.
    destruct (role u); simpl; repeat case_decide; simpl; try done; tauto.
Qed.
End reading.

Lemma get_application_visibility_witness :
  status (Applications.get_application (request (token recruiter) "p1" ∅) applied).1 = OK
  ∧ status (Applications.get_application (request (token seeker) "p9" ∅) applied).1
    = NotFound.
Proof.
  split.
  - destruct (get_application_visibility (request (token recruiter) "p1" ∅)
                {| userId := "r1"; role := RECRUITER |} applied eq_refl) as [_ H].
    by rewrite (H _ (posting "j1" "frontend" "r1" 5) eq_refl eq_refl).
  - destruct (get_application_visibility (request (token seeker) "p9" ∅)
                {| userId := "u1"; role := JOB_SEEKER |} applied eq_refl) as [H _].
    rewrite H; [reflexivity|].
    vm_compute. by intros [=]%list_elem_of_singleton.
Defined.

(** C4 as stated fails: an admin who is neither the applicant nor the
    owning recruiter is returned the application. *)
Lemma get_application_admin_not_forbidden :
  ¬ (∀ (req : Request) (u : AuthUser) (s : Store) (a : Application) (j : Job),
       req_user req = Some u →
       lookupBy app_id (req_param req) (applications s) = Some a →
       lookupBy job_id (app_jobId a) (jobs s) = Some j →
       app_userId a ≠ userId u → job_recruiterId j ≠ userId u →
       status (Applications.get_application req s).1 = Forbidden).
Proof.
  intros H.
  specialize (H (request (token admin) "p1" ∅) {| userId := "a1"; role := ADMIN |}
                applied _ _ eq_refl eq_refl eq_refl).
  vm_compute in H. by discriminate H.
Qed.

(** ** Updating and deleting a job *)
Section owning.
Context {schema : Schema}.

Lemma delete_job_allowed (req : Request) (u : AuthUser) (j : Job) (s : Store) :
  req_user req = Some u →
  lookupBy job_id (req_param req) (jobs s) = Some j →
  role u = ADMIN ∨ (role u = RECRUITER ∧ job_recruiterId j = userId u) →
  Jobs.delete_job req s = (json OK "Job deleted", without_job (req_param req) s).
Proof.
  intros U J A. unfold Jobs.delete_job, Prisma.job_findUnique,
    Prisma.application_deleteMany_jobId, Prisma.savedJob_deleteMany_jobId,
    Prisma.job_delete.
  run. rewrite U; simpl.
  destruct u as [uid r]; simpl in *.
  assert (r ∈ [RECRUITER; ADMIN]) by (destruct A as [-> | [-> _]]; by repeat constructor).
  rewrite decide_True by done.
  simpl. rewrite J; simpl.
  rewrite decide_False by (destruct A as [-> | [_ ->]]; [by intros [] | tauto]).
  simpl.
  apply lookupBy_Some in J as [J1 J2].
  pose proof (removeBy_gone app_jobId (req_param req) (applications s)).
  pose proof (removeBy_gone saved_jobId (req_param req) (savedJobs s)).
  repeat case_decide; simpl; try done.
  match goal with X : _ ∉ _ |- _ => destruct X end.
  apply list_elem_of_fmap. eauto.
Qed.

(** C3, as the code has it. For a job j of recruiter r and an authenticated
    user u other than r, update(j) by u is answered Forbidden and the store
    is unchanged, and so is delete(j) by u unless u is an admin, whose
    delete goes through.  delete(j) by r goes through; update(j) by r goes
    through when the role or category of the body, if given, is a category
    and the store accepts the data, and is answered 400 when it is not a
    category. *)
Theorem job_owner_only (req : Request) (u : AuthUser) (j : Job) (s : Store) :
  req_user req = Some u →
  lookupBy job_id (req_param req) (jobs s) = Some j →
  let body := req_body req in
  let maybeCategory :=
    Jobs.normalizeCategory (nullish_or (body !! "role") (body !! "category")) in
  let supplied := notNullish (body !! "role") || notNullish (body !! "category") in
  (userId u ≠ job_recruiterId j →
     (status (Jobs.update_job req s).1 = Forbidden ∧ (Jobs.update_job req s).2 = s)
     ∧ (role u ≠ ADMIN →
          status (Jobs.delete_job req s).1 = Forbidden ∧ (Jobs.delete_job req s).2 = s)
     ∧ (role u = ADMIN →
          Jobs.delete_job req s = (json OK "Job deleted", without_job (req_param req) s)))
  ∧ (userId u = job_recruiterId j → role u = RECRUITER →
       Jobs.delete_job req s = (json OK "Job deleted", without_job (req_param req) s)
       ∧ (supplied = true → maybeCategory = None →
            Jobs.update_job req s = (Jobs.invalidRole, s))
       ∧ (∀ j', (supplied = true → is_Some maybeCategory) →
            Prisma.job_assign (Jobs.recategorize body maybeCategory) j = Some j' →
            valid_job j' = true →
            Jobs.update_job req s
            = (jsonWith OK (Some "Job updated") (PJob j'),
               set_jobs (replaceBy job_id (req_param req) j' (jobs s)) s))).
Proof.
  intros U J body maybeCategory supplied. split.
  - intros N. split; [|split].
    + unfold Jobs.update_job, Prisma.job_findUnique. run. rewrite U; simpl.
      case_decide; simpl; [|done]. rewrite J; simpl.
      by rewrite decide_True by done.
    + intros A. unfold Jobs.delete_job, Prisma.job_findUnique. run. rewrite U; simpl.
      destruct u as [uid []]; simpl in *; try done.
      rewrite J; simpl. by rewrite decide_True by done.
    + intros A. apply (delete_job_allowed req u j); auto.
  - intros O R. split; [|split].
    + apply (delete_job_allowed req u j); auto.
    + intros S C. unfold Jobs.update_job, Prisma.job_findUnique. run.
      rewrite U; simpl. rewrite R; simpl. rewrite J; simpl.
      rewrite decide_False by (intros X; by apply X).
      rewrite given_normalizeCategory.
      fold body. fold supplied. fold maybeCategory.
      by rewrite S, C.
    + intros j' C A V. unfold Jobs.update_job, Prisma.job_findUnique, Prisma.job_update.
      run. rewrite U; simpl. rewrite R; simpl. rewrite J; simpl.
      rewrite decide_False by (intros X; by apply X).
      rewrite given_normalizeCategory.
      fold body. fold supplied. fold maybeCategory.
      assert (supplied && negb (bool_decide (is_Some maybeCategory)) = false) as ->.
      { destruct supplied; [|done]. by rewrite bool_decide_true by auto. }
      simpl. rewrite J, A, V. done.
Qed.
End owning.

Lemma job_owner_only_witness :
  let edit := request (token recruiter) "j1"
                {[ "title" := JStr "Senior"; "role" := JStr "Backend" ]} in
  status (Jobs.update_job (schema := permissive Cascade)
            (request (token admin) "j1" ∅) board).1 = Forbidden
  ∧ job_category <$> jobs (Jobs.update_job (schema := permissive Cascade) edit board).2
    = ["backend"; "backend"; "frontend"].
Proof.
  intros edit. split.
  - destruct (job_owner_only (schema := permissive Cascade)
                (request (token admin) "j1" ∅) {| userId := "a1"; role := ADMIN |}
                (posting "j1" "frontend" "r1" 5) board eq_refl eq_refl) as [H _].
    by destruct H as [[H _] _].
  - destruct (job_owner_only (schema := permissive Cascade) edit
                {| userId := "r1"; role := RECRUITER |}
                (posting "j1" "frontend" "r1" 5) board eq_refl eq_refl) as [_ H].
    destruct H as (_ & _ & H); [reflexivity | reflexivity |].
    by rewrite (H {| job_id := "j1"; job_title := JStr "Senior";
                     job_company := JStr "Acme"; job_location := JStr "Remote";
                     job_category := "backend"; job_type := JStr "FULL_TIME";
                     job_salary := JStr "100k"; job_description := JStr "...";
                     job_requirements := JNull; job_recruiterId := "r1";
                     job_createdAt := 5 |}).
Defined.

(** The category of a body is trimmed and lowered as the language does it:
    a no-break space before the name, or a Kelvin sign for its k, is no
    obstacle to the creation or the update of a job. *)
Example update_job_no_break_space :
  let edit := request (token recruiter) "j1"
                {[ "category" := JStr (Unicode.encode [0xA0%N] ++ "backend")%string ]} in
  status (Jobs.update_job (schema := permissive Cascade) edit board).1 = OK
  ∧ job_category <$> jobs (Jobs.update_job (schema := permissive Cascade) edit board).2
    = ["backend"; "backend"; "frontend"].
Proof. split; reflexivity. Qed.

Example create_job_kelvin_sign :
  let body := <["category" := JStr ("BAC" ++ Unicode.encode [0x212A%N] ++ "END")%string]>
                engineerBody in
  let post := request (token recruiter) "" body in
  status (Jobs.create_job (schema := permissive Cascade) env1 post people).1 = Created
  ∧ job_category <$> jobs (Jobs.create_job (schema := permissive Cascade) env1 post people).2
    = ["backend"].
Proof. split; reflexivity. Qed.

(** C3 as stated fails: an admin other than the owner deletes the job. *)
Lemma delete_job_admin_not_forbidden :
  ¬ (∀ (req : Request) (u : AuthUser) (j : Job) (s : Store),
       req_user req = Some u →
       lookupBy job_id (req_param req) (jobs s) = Some j →
       userId u ≠ job_recruiterId j →
       status (Jobs.delete_job req s).1 = Forbidden ∧ (Jobs.delete_job req s).2 = s).
Proof.
  intros H.
  destruct (H (request (token admin) "j1" ∅) {| userId := "a1"; role := ADMIN |}
              (posting "j1" "frontend" "r1" 5) board eq_refl eq_refl) as [E _];
    [done|].
  vm_compute in E. discriminate E.
Qed.

(** ** Deleting a user *)
Section deleting_user.
Context {schema : Schema}.

Lemma filter_all {A} (P : A → Prop) `{!∀ x, Decision (P x)} (l : list A) :
  (∀ x, P x) → filter P l = l.
Proof.
  intros All. induction l as [|x l IH]; [done|].
  by rewrite filter_cons_True, IH.
Qed.

(** A loop whose body removes the applications and the saved jobs of a
    job removes those of every job of the list. *)
Lemma forEach_job_cleanup (f : Job → Action unit) (l : list Job) (s : Store) :
  (∀ job s,
     f job s
     = (Value tt,
        set_savedJobs (removeBy saved_jobId (job_id job) (savedJobs s))
          (set_applications (removeBy app_jobId (job_id job) (applications s)) s))) →
  Admin.forEach l f s
  = (Value tt,
     set_savedJobs (filter (λ r, saved_jobId r ∉ job_id <$> l) (savedJobs s))
       (set_applications (filter (λ a, app_jobId a ∉ job_id <$> l) (applications s)) s)).
Proof.
  intros F. revert s. induction l as [|j l IH]; intros s.
  - unfold Admin.forEach, mret, Action_ret.
    rewrite !filter_all by (intros; apply not_elem_of_nil). by destruct s.
  - change (Admin.forEach (j :: l) f s)
      with (match f j s with
            | (Value _, s') => Admin.forEach l f s'
            | (Sent r, s') => (Sent r, s')
            | (Raised e, s') => (Raised e, s')
            end).
    rewrite F, IH. unfold removeBy; simpl. rewrite !list_filter_filter.
    f_equal. unfold set_savedJobs, set_applications; simpl. f_equal.
    + apply list_filter_iff. intros a. rewrite not_elem_of_cons. tauto.
    + apply list_filter_iff. intros a. rewrite not_elem_of_cons. tauto.
Qed.

(** C5. After DELETE /admin/users/:id has answered 200, the user is gone
    and no application, saved job, job or profile row refers to it, and no
    application or saved job refers to a job the user had posted. *)
Theorem delete_user_leaves_no_orphans (req : Request) (s : Store) :
  status (Admin.delete_user req s).1 = OK →
  let u := req_param req in
  let s' := (Admin.delete_user req s).2 in
  (u ∉ user_id <$> users s')
  ∧ (u ∉ app_userId <$> applications s')
  ∧ (u ∉ saved_userId <$> savedJobs s')
  ∧ (u ∉ job_recruiterId <$> jobs s')
  ∧ (u ∉ profile_userId <$> profiles s')
  ∧ (∀ j, j ∈ jobs s → job_recruiterId j = u →
       (job_id j ∉ app_jobId <$> applications s')
       ∧ (job_id j ∉ saved_jobId <$> savedJobs s')).
Proof.
  intros C u s'. revert C. unfold s'. clear s'.
  unfold Admin.delete_user, Prisma.application_deleteMany_userId,
    Prisma.savedJob_deleteMany_userId, Prisma.job_findMany_recruiterId,
    Prisma.job_deleteMany_recruiterId, Prisma.user_delete.
  run. destruct (req_user req) as [a|]; simpl; [|done].
  case_decide; simpl; [|done].
  rewrite forEach_job_cleanup by done. simpl. fold u.
  set (mine := job_id <$> filter (λ j, job_recruiterId j = u) (jobs s)).
  assert (M : ∀ j, j ∈ jobs s → job_recruiterId j = u → job_id j ∈ mine).
  { intros j J1 J2. apply list_elem_of_fmap. exists j. split; [done|].
    by apply list_elem_of_filter. }
  assert (A : ∀ j (l : list Application), job_id j ∈ mine →
                job_id j ∉ app_jobId <$> filter (λ a, app_jobId a ∉ mine) l).
  { intros j l J (x & E & [X _]%list_elem_of_filter)%list_elem_of_fmap.
    apply X. by rewrite <- E. }
  assert (B : ∀ j (l : list SavedJob), job_id j ∈ mine →
                job_id j ∉ saved_jobId <$> filter (λ a, saved_jobId a ∉ mine) l).
  { intros j l J (x & E & [X _]%list_elem_of_filter)%list_elem_of_fmap.
    apply X. by rewrite <- E. }
  assert (P : ∀ l : list Profile, profile_id <$> filter (λ p, profile_userId p = u) l = [] →
                u ∉ profile_userId <$> l).
  { intros l E%fmap_nil_inv. apply lookupBy_None. unfold lookupBy. by rewrite E. }
  pose proof (removeBy_gone user_id u (users s)) as GU.
  pose proof (removeBy_gone profile_userId u (profiles s)) as GP.
  repeat case_decide; simpl; try done.
  all: destruct profile_onDelete; try destruct detail_onDelete.
  all: repeat case_decide; simpl; try done.
  all: intros _; repeat split; eauto; tauto.
Qed.

(** With a schema that cascades, an admin's delete of a user of the users
    table goes through. *)
Lemma delete_user_succeeds (req : Request) (a : AuthUser) (s : Store) :
  profile_onDelete = Cascade → detail_onDelete = Cascade →
  req_user req = Some a → role a = ADMIN →
  req_param req ∈ user_id <$> users s →
  (Admin.delete_user req s).1 = json OK "User deleted".
Proof.
  intros C1 C2 U R K.
  unfold Admin.delete_user, Prisma.application_deleteMany_userId,
    Prisma.savedJob_deleteMany_userId, Prisma.job_findMany_recruiterId,
    Prisma.job_deleteMany_recruiterId, Prisma.user_delete.
  run. rewrite U; simpl. rewrite R; simpl.
  rewrite forEach_job_cleanup by done. simpl. rewrite C1, C2.
  set (u := req_param req) in *.
  set (mine := job_id <$> filter (λ j, job_recruiterId j = u) (jobs s)).
  pose proof (removeBy_gone job_recruiterId u (jobs s)) as GJ.
  assert (GA : u ∉ app_userId <$> filter (λ a, app_jobId a ∉ mine)
                                    (removeBy app_userId u (applications s))).
  { intros (x & E & [_ [X _]%list_elem_of_filter]%list_elem_of_filter)%list_elem_of_fmap.
    by apply X. }
  assert (GS : u ∉ saved_userId <$> filter (λ a, saved_jobId a ∉ mine)
                                      (removeBy saved_userId u (savedJobs s))).
  { intros (x & E & [_ [X _]%list_elem_of_filter]%list_elem_of_filter)%list_elem_of_fmap.
    by apply X. }
  repeat case_decide; simpl; try done; try tauto.
  all: match goal with X : Exists _ (filter _ _) |- _ =>
         apply Exists_exists in X as (x & [X1 _]%list_elem_of_filter & X2) end.
  all: done.
Qed.
End deleting_user.

Lemma delete_user_leaves_no_orphans_witness :
  let r := Admin.delete_user (schema := permissive Cascade)
             (request (token admin) "r1" ∅) busy in
  status r.1 = OK
  ∧ ("r1" ∉ profile_userId <$> profiles r.2)
  ∧ user_id <$> users r.2 = ["u1"; "a1"]
  ∧ length (applications r.2) = 0.
Proof.
  intros r. split; [reflexivity | split; [| split; reflexivity]].
  by destruct (delete_user_leaves_no_orphans (schema := permissive Cascade)
                 (request (token admin) "r1" ∅) busy eq_refl) as (_ & _ & _ & _ & H & _).
Defined.

(** * Further properties of the routes *)

(** ** Lists of rows *)
Section rows.
Context {A B : Type}.

Lemma NoDup_fmap_filter (f : A → B) (P : A → Prop) `{!∀ x, Decision (P x)} (l : list A) :
  NoDup (f <$> l) → NoDup (f <$> filter P l).
Proof.
  intros N. apply (sublist_NoDup _ _ N). by apply fmap_sublist, sublist_filter.
Qed.

Lemma NoDup_fmap_inj (f : A → B) (l : list A) (x y : A) :
  NoDup (f <$> l) → x ∈ l → y ∈ l → f x = f y → x = y.
Proof.
  induction l as [|z l IH]; [by intros _ ?%elem_of_nil|].
  rewrite fmap_cons, NoDup_cons, !elem_of_cons. intros [N1 N2] [->|X] [->|Y] E; auto.
  - destruct N1. rewrite E. apply list_elem_of_fmap; eauto.
  - destruct N1. rewrite <- E. apply list_elem_of_fmap; eauto.
Qed.

Lemma fmap_replaceBy (key : A → Id) (g : A → B) (k : Id) (r' : A) (l : list A) :
  (∀ r, r ∈ l → key r = k → g r' = g r) →
  g <$> replaceBy key k r' l = g <$> l.
Proof.
  unfold replaceBy. induction l as [|r l IH]; intros E; [done|].
  rewrite !fmap_cons. f_equal.
  - case_decide; [|done]. apply E; [apply list_elem_of_here | done].
  - apply IH. intros x X. apply E. by apply list_elem_of_further.
Qed.

Lemma NoDup_fmap_snoc (f : A → B) (l : list A) (x : A) :
  NoDup (f <$> l) → f x ∉ f <$> l → NoDup (f <$> l ++ [x]).
Proof.
  intros N F. rewrite fmap_app. apply NoDup_app. split; [done|]. split.
  - intros y Y ->%list_elem_of_singleton. done.
  - apply NoDup_singleton.
Qed.
End rows.

(** ** Categories *)

(** X1. A category that [normalizeCategory] returns is one of the three
    categories and is left as it is by a second normalization. *)
Theorem normalizeCategory_idempotent (input : option jsval) :
  match Jobs.normalizeCategory input with
  | Some c => c ∈ Jobs.JOB_CATEGORIES ∧ Jobs.normalizeCategory (Some (JStr c)) = Some c
  | None => True
  end.
Proof.
  destruct (Jobs.normalizeCategory input) as [c|] eqn:E; [|done].
  apply normalizeCategory_Some in E. split; [done|].
  unfold Jobs.JOB_CATEGORIES in E.
  repeat (apply elem_of_cons in E as [->|E]; [reflexivity|]).
  by apply elem_of_nil in E.
Qed.

Section categories.
Context {schema : Schema}.

(** The data the update route hands to the client has no [role], and a
    [category] only when the body named one of the categories. *)
Lemma recategorize_lookup (body : jsobj) (maybeCategory : option string) :
  Jobs.recategorize body maybeCategory !! "role" = None
  ∧ Jobs.recategorize body maybeCategory !! "category"
    = JStr <$> Jobs.given maybeCategory.
Proof.
  unfold Jobs.recategorize. destruct (Jobs.given maybeCategory) as [c|]; simpl.
  - rewrite lookup_insert_ne by done. rewrite lookup_delete_ne by done.
    by rewrite lookup_delete_eq, lookup_insert_eq.
  - rewrite lookup_delete_ne by done. by rewrite !lookup_delete_eq.
Qed.

Lemma Forall_replaceBy {A} (P : A → Prop) (key : A → Id) k r' (l : list A) :
  P r' → Forall P l → Forall P (replaceBy key k r' l).
Proof.
  intros R L. unfold replaceBy. apply Forall_fmap. eapply Forall_impl; [exact L|].
  intros r X; simpl. by case_decide.
Qed.

Lemma Forall_removeBy {A} (P : A → Prop) (key : A → Id) k (l : list A) :
  Forall P l → Forall P (removeBy key k l).
Proof.
  unfold removeBy. rewrite !Forall_forall. intros L r [_ R]%list_elem_of_filter. auto.
Qed.

(** X2. The jobs table only ever holds the three categories: when every
    stored job has one of them, so it is after a create, an update or a
    delete of a job, whatever the request and its outcome. *)
Theorem stored_categories_stay_valid (env : Env) (req : Request) (s : Store) :
  categorized s →
  categorized (Jobs.create_job env req s).2
  ∧ categorized (Jobs.update_job req s).2
  ∧ categorized (Jobs.delete_job req s).2
  ∧ categorized (Admin.delete_job req s).2.
Proof.
  unfold categorized. intros C. split; [|split; [|split]].
  - unfold Jobs.create_job, Prisma.job_create. run.
    repeat (case_match; simpl in *; simplify_eq/=); try done.
    apply Forall_app. split; [done|]. apply Forall_singleton.
    unfold Jobs.jobData; simpl.
    destruct (Jobs.normalizeCategory _) as [c|] eqn:E; simpl.
    + by apply normalizeCategory_Some in E.
    + unfold Jobs.JOB_CATEGORIES. set_solver.
  - unfold Jobs.update_job, Prisma.job_findUnique, Prisma.job_update. run.
    destruct (req_user req) as [u|]; simpl; [|done].
    case_decide; simpl; [|done].
    destruct (lookupBy job_id (req_param req) (jobs s)) as [j|] eqn:J; simpl; [|done].
    case_decide; simpl; [done|].
    set (mc := Jobs.normalizeCategory _).
    destruct (_ && _); simpl; [done|].
    rewrite J.
    destruct (Prisma.job_assign _ j) as [j'|] eqn:A; simpl; [|done].
    destruct (valid_job j'); simpl; [|done].
    apply Forall_replaceBy; [|done].
    unfold Prisma.job_assign in A. case_decide; [|done].
    destruct (recategorize_lookup (req_body req) mc) as [_ L].
    rewrite L in A. unfold mc in A. rewrite given_normalizeCategory in A.
    destruct (Jobs.normalizeCategory _) as [c|] eqn:E; simpl in A.
    + injection A as <-. simpl. by apply normalizeCategory_Some in E.
    + injection A as <-. simpl.
      apply lookupBy_Some in J as [J _].
      by apply (proj1 (Forall_forall _ _) C).
  - unfold Jobs.delete_job, Prisma.job_findUnique, Prisma.application_deleteMany_jobId,
      Prisma.savedJob_deleteMany_jobId, Prisma.job_delete. run.
    repeat (case_match; simpl in *; simplify_eq/=); try done.
    all: by apply Forall_removeBy.
  - unfold Admin.delete_job, Prisma.application_deleteMany_jobId,
      Prisma.savedJob_deleteMany_jobId, Prisma.job_delete. run.
    repeat (case_match; simpl in *; simplify_eq/=); try done.
    all: by apply Forall_removeBy.
Qed.
End categories.


Lemma stored_categories_stay_valid_witness :
  let r := Jobs.update_job (schema := permissive Cascade)
             (request (token recruiter) "j1" {[ "role" := JStr " BACKEND " ]}) board in
  categorized r.2 ∧ job_category <$> jobs r.2 = ["backend"; "backend"; "frontend"].
Proof.
  split; [|reflexivity].
  destruct (stored_categories_stay_valid (schema := permissive Cascade) env1
              (request (token recruiter) "j1" {[ "role" := JStr " BACKEND " ]}) board)
    as (_ & H & _); [|exact H].
  unfold categorized, board, Jobs.JOB_CATEGORIES; simpl.
  repeat (apply Forall_cons; split; [set_solver|]). apply Forall_nil_2.
Defined.

(** ** The unique keys of applications and saved jobs *)
Section unique_pairs.
Context {schema : Schema}.

Lemma lookupPair_None_key {A} (k1 k2 : A → Id) u j (l : list A) :
  lookupPair k1 k2 u j l = None → (u, j) ∉ (λ r, (k1 r, k2 r)) <$> l.
Proof.
  intros N%lookupPair_None (r & [= E1 E2] & R)%list_elem_of_fmap.
  assert (r ∈ selectPair k1 k2 u j l) as X by (by apply list_elem_of_filter).
  rewrite N in X. by apply elem_of_nil in X.
Qed.

(** X3. The applications keep their primary key and their unique
    (userId, jobId) pair under the apply, withdraw and update-status
    routes, whatever the request and its outcome. *)
Theorem applications_stay_unique (env : Env) (req : Request) (s : Store) :
  applications_unique s →
  applications_unique (Applications.apply env req s).2
  ∧ applications_unique (Applications.withdraw req s).2
  ∧ applications_unique (Applications.update_status req s).2.
Proof.
  unfold applications_unique. intros [N1 N2]. split; [|split].
  - unfold Applications.apply, Prisma.job_findUnique,
      Prisma.application_findUnique_userId_jobId, Prisma.application_create.
    run.
    destruct (req_user req) as [u|]; simpl; [|done].
    case_decide; simpl; [|done].
    destruct (lookupBy _ _ _); simpl; [|done].
    destruct (lookupPair _ _ _ _ _) eqn:P; simpl; [done|].
    destruct (valid_application _); simpl; [|done].
    repeat case_decide; simpl; try done.
    split; apply NoDup_fmap_snoc; try done.
    by apply (lookupPair_None_key app_userId app_jobId) in P.
  - unfold Applications.withdraw, Prisma.application_findUnique,
      Prisma.application_delete.
    run. repeat (case_match; simpl in *; simplify_eq/=); try done.
    all: by split; apply NoDup_fmap_filter.
  - unfold Applications.update_status, Prisma.application_findUnique_include_job,
      Prisma.application_update_status.
    run.
    destruct (req_user req) as [u|]; simpl; [|done].
    case_decide; simpl; [|done].
    destruct (Applications.includes _ _); simpl; [|done].
    destruct (lookupBy app_id _ _) as [a|] eqn:A; simpl; [|done].
    destruct (lookupBy job_id _ _); simpl; [|done].
    case_decide; simpl; [done|].
    rewrite A.
    destruct (req_body req !! "status") as [[]|]; simpl; try done.
    destruct (Prisma.statusOf _); simpl; [|done].
    apply lookupBy_Some in A as [A1 A2].
    rewrite !fmap_replaceBy; [done| |].
    + intros r R K. unfold applicationKey; simpl.
      assert (r = a) as -> by (apply (NoDup_fmap_inj app_id (applications s)); congruence).
      done.
    + intros r R K. simpl. congruence.
Qed.

(** X4. The saved jobs keep their primary key and their unique
    (userId, jobId) pair under the save and remove routes. *)
Theorem savedJobs_stay_unique (env : Env) (req : Request) (s : Store) :
  savedJobs_unique s →
  savedJobs_unique (SavedJobs.save env req s).2
  ∧ savedJobs_unique (SavedJobs.remove req s).2.
Proof.
  unfold savedJobs_unique. intros [N1 N2]. split.
  - unfold SavedJobs.save, Prisma.job_findUnique,
      Prisma.savedJob_findUnique_userId_jobId, Prisma.savedJob_create.
    run.
    destruct (req_user req) as [u|]; simpl; [|done].
    case_decide; simpl; [|done].
    destruct (lookupBy _ _ _); simpl; [|done].
    destruct (lookupPair _ _ _ _ _) eqn:P; simpl; [done|].
    repeat case_decide; simpl; try done.
    split; apply NoDup_fmap_snoc; try done.
    by apply (lookupPair_None_key saved_userId saved_jobId) in P.
  - unfold SavedJobs.remove, Prisma.savedJob_findUnique_userId_jobId,
      Prisma.savedJob_delete_userId_jobId.
    run. repeat (case_match; simpl in *; simplify_eq/=); try done.
    all: by split; apply NoDup_fmap_filter.
Qed.
End unique_pairs.

Lemma applications_stay_unique_witness :
  let r := Applications.apply (schema := permissive Cascade) env1
             (request (token seeker) "j2" ∅) applied in
  status r.1 = Created ∧ length (applications r.2) = 2 ∧ applications_unique r.2.
Proof.
  split; [reflexivity | split; [reflexivity |]].
  destruct (applications_stay_unique (schema := permissive Cascade) env1
              (request (token seeker) "j2" ∅) applied) as (H & _); [|exact H].
  unfold applications_unique; simpl. split; apply NoDup_singleton.
Defined.

Lemma savedJobs_stay_unique_witness :
  let r := SavedJobs.save env1 (request (token seeker) "j1" ∅) busy in
  status r.1 = OK ∧ length (savedJobs r.2) = 2 ∧ savedJobs_unique r.2.
Proof.
  split; [reflexivity | split; [reflexivity |]].
  destruct (savedJobs_stay_unique env1 (request (token seeker) "j1" ∅) busy)
    as (H & _); [|exact H].
  unfold savedJobs_unique; simpl. split; apply NoDup_singleton.
Defined.

(** ** A job from its creation to its deletion *)
Section job_life.
Context {schema : Schema}.

(** When POST /jobs answers 201. *)
Lemma create_job_Created_inv (env : Env) (req : Request) (u : AuthUser) (s : Store) :
  req_user req = Some u →
  status (Jobs.create_job env req s).1 = Created →
  let j := Jobs.jobData env u (req_body req) in
  role u = RECRUITER
  ∧ (job_id j ∉ job_id <$> jobs s)
  ∧ userId u ∈ user_id <$> users s
  ∧ Jobs.create_job env req s
    = (jsonWith Created (Some "Job created") (PJob j), set_jobs (jobs s ++ [j]) s).
Proof.
  intros U. unfold Jobs.create_job, Prisma.job_create. run. rewrite U; simpl.
  destruct u as [uid []]; simpl; try done.
  destruct (_ || _); simpl; [done|].
  destruct (valid_job _); simpl; [|done].
  repeat case_decide; simpl; done.
Qed.

Lemma get_job_eq (req : Request) (s : Store) :
  Jobs.get_job req s
  = (match lookupBy job_id (req_param req) (jobs s) with
     | Some j => Success OK None (Prisma.jobView s j)
     | None => Failure (json NotFound "Job not found")
     end, s).
Proof.
  unfold Jobs.get_job, Prisma.job_findUnique_include, try_catch_with. run.
  by destruct (lookupBy _ _ _).
Qed.

(** X5. A job that POST /jobs has created is what GET /jobs/:id returns
    for its id, with the summary of its recruiter; its recruiter can
    delete it, and then GET /jobs/:id answers 404 and the jobs table is
    as before the creation. *)
Theorem job_create_get_delete (env : Env) (req : Request) (u : AuthUser) (s : Store) :
  req_user req = Some u →
  status (Jobs.create_job env req s).1 = Created →
  let j := Jobs.jobData env u (req_body req) in
  let s1 := (Jobs.create_job env req s).2 in
  let s2 := (Jobs.delete_job (request (Some u) (job_id j) ∅) s1).2 in
  (∃ who, lookupBy user_id (userId u) (users s) = Some who
          ∧ Jobs.get_job (request None (job_id j) ∅) s1
            = (Success OK None {| jv_job := j; jv_recruiter := Some (summary who) |}, s1))
  ∧ Jobs.delete_job (request (Some u) (job_id j) ∅) s1 = (json OK "Job deleted", s2)
  ∧ jobs s2 = jobs s
  ∧ Jobs.get_job (request None (job_id j) ∅) s2
    = (Failure (json NotFound "Job not found"), s2).
Proof.
  intros U C. destruct (create_job_Created_inv env req u s U C) as (R & F & K & E).
  cbv zeta. rewrite E. cbn [snd].
  set (j := Jobs.jobData env u (req_body req)) in *.
  assert (L : lookupBy job_id (job_id j) (jobs s ++ [j]) = Some j)
    by (by apply lookupBy_snoc).
  assert (D : Jobs.delete_job (request (Some u) (job_id j) ∅) (set_jobs (jobs s ++ [j]) s)
              = (json OK "Job deleted", without_job (job_id j) (set_jobs (jobs s ++ [j]) s))).
  { apply (delete_job_allowed (request (Some u) (job_id j) ∅) u j); [done|done|]. right. by split. }
  rewrite D. cbn [snd].
  assert (J2 : jobs (without_job (job_id j) (set_jobs (jobs s ++ [j]) s)) = jobs s).
  { unfold without_job; simpl. by apply removeBy_snoc. }
  split; [|split; [done|split; [done|]]].
  - apply lookupBy_is_Some in K as [who W]. exists who. split; [done|].
    rewrite get_job_eq. cbn [req_param request jobs set_jobs]. rewrite L.
    unfold Prisma.jobView. cbn [users set_jobs].
    change (job_recruiterId j) with (userId u). by rewrite W.
  - rewrite get_job_eq. cbn [req_param request]. rewrite J2.
    by rewrite (proj2 (lookupBy_None job_id _ _) F).
Qed.
End job_life.

Lemma job_create_get_delete_witness :
  let req := request (token recruiter) "" engineerBody in
  let s1 := (Jobs.create_job (schema := permissive Cascade) env1 req people).2 in
  (∃ v, Jobs.get_job (request None "n1" ∅) s1 = (Success OK None v, s1)
        ∧ job_title (jv_job v) = JStr "Engineer")
  ∧ status (Jobs.delete_job (request (token recruiter) "n1" ∅) s1).1 = OK.
Proof.
  intros req s1.
  destruct (job_create_get_delete (schema := permissive Cascade) env1 req
              {| userId := "r1"; role := RECRUITER |} people eq_refl eq_refl)
    as ((who & _ & G) & D & _).
  split.
  - eexists. split; [exact G | reflexivity].
  - change (request (token recruiter) "n1" ∅)
      with (request (Some {| userId := "r1"; role := RECRUITER |})
              (job_id (Jobs.jobData env1 {| userId := "r1"; role := RECRUITER |}
                         (req_body req))) ∅).
    unfold s1. by rewrite D.
Defined.

(** ** Deleting a job *)
Section deleting_job.

(** X6. When DELETE /jobs/:id or DELETE /admin/jobs/:id answers 200, the
    job is gone together with the applications and saved jobs that refer
    to it, and nothing else is touched: the users are as before and every
    other job, and every application and saved job of another job, is
    still there. *)
Theorem delete_job_leaves_no_orphans
    (delete : Request → Store → Response * Store) (req : Request) (s : Store) :
  delete = Jobs.delete_job ∨ delete = Admin.delete_job →
  status (delete req s).1 = OK →
  let id := req_param req in
  let s' := (delete req s).2 in
  s' = without_job id s
  ∧ (id ∉ job_id <$> jobs s')
  ∧ (id ∉ app_jobId <$> applications s')
  ∧ (id ∉ saved_jobId <$> savedJobs s')
  ∧ users s' = users s
  ∧ (∀ j, j ∈ jobs s → job_id j ≠ id → j ∈ jobs s')
  ∧ (∀ a, a ∈ applications s → app_jobId a ≠ id → a ∈ applications s')
  ∧ (∀ r, r ∈ savedJobs s → saved_jobId r ≠ id → r ∈ savedJobs s').
Proof.
  intros D C id s'.
  assert (E : s' = without_job id s).
  { unfold s'. revert C. destruct D as [-> | ->].
    - unfold Jobs.delete_job, Prisma.job_findUnique,
        Prisma.application_deleteMany_jobId, Prisma.savedJob_deleteMany_jobId,
        Prisma.job_delete.
      run. repeat (case_match; simpl in *; simplify_eq/=); done.
    - unfold Admin.delete_job, Prisma.application_deleteMany_jobId,
        Prisma.savedJob_deleteMany_jobId, Prisma.job_delete.
      run. repeat (case_match; simpl in *; simplify_eq/=); done. }
  rewrite E. unfold without_job; simpl.
  split; [done|]. repeat split; try apply removeBy_gone.
  all: intros x X N; by apply list_elem_of_filter.
Qed.

(** X7. The two delete routes differ on a job that does not exist: the
    recruiters' route answers 404 and leaves the store as it is, the
    admins' route runs its three calls, the last of which throws, and
    answers 500; the store is unchanged when nothing referred to the id. *)
Theorem delete_missing_job (req : Request) (caller : AuthUser) (s : Store) :
  req_user req = Some caller → role caller = ADMIN →
  req_param req ∉ job_id <$> jobs s →
  Jobs.delete_job req s = (json NotFound "Job not found", s)
  ∧ (Admin.delete_job req s).1 = json Internal "Server error"
  ∧ jobs (Admin.delete_job req s).2 = jobs s
  ∧ (req_param req ∉ app_jobId <$> applications s →
     req_param req ∉ saved_jobId <$> savedJobs s →
     (Admin.delete_job req s).2 = s).
Proof.
  intros U R N. split; [|split; [|split]].
  - unfold Jobs.delete_job, Prisma.job_findUnique. run. rewrite U; simpl.
    rewrite R; simpl. by rewrite (proj2 (lookupBy_None job_id _ _) N).
  - unfold Admin.delete_job, Prisma.application_deleteMany_jobId,
      Prisma.savedJob_deleteMany_jobId, Prisma.job_delete.
    run. rewrite U; simpl. rewrite R; simpl. by rewrite decide_False.
  - unfold Admin.delete_job, Prisma.application_deleteMany_jobId,
      Prisma.savedJob_deleteMany_jobId, Prisma.job_delete.
    run. rewrite U; simpl. rewrite R; simpl. by rewrite decide_False.
  - intros NA NS. unfold Admin.delete_job, Prisma.application_deleteMany_jobId,
      Prisma.savedJob_deleteMany_jobId, Prisma.job_delete.
    run. rewrite U; simpl. rewrite R; simpl. rewrite decide_False by done. simpl.
    rewrite !removeBy_fresh by done. by destruct s.
Qed.
End deleting_job.

Lemma delete_job_leaves_no_orphans_witness :
  let r := Admin.delete_job (request (token admin) "j1" ∅) busy in
  status r.1 = OK ∧ job_id <$> jobs r.2 = ["j2"; "j3"]
  ∧ applications r.2 = [] ∧ length (savedJobs r.2) = 1.
Proof.
  intros r.
  destruct (delete_job_leaves_no_orphans Admin.delete_job
              (request (token admin) "j1" ∅) busy) as (E & _);
    [by right | reflexivity |].
  fold r in E. rewrite E. by repeat split.
Defined.

Lemma delete_missing_job_witness :
  Jobs.delete_job (request (token admin) "j9" ∅) busy = (json NotFound "Job not found", busy)
  ∧ Admin.delete_job (request (token admin) "j9" ∅) busy
    = (json Internal "Server error", busy).
Proof.
  destruct (delete_missing_job (request (token admin) "j9" ∅)
              {| userId := "a1"; role := ADMIN |} busy) as (H1 & H2 & _ & H4);
    [reflexivity | reflexivity | |].
  { vm_compute. intros X. repeat (apply elem_of_cons in X as [[=]|X]).
    by apply elem_of_nil in X. }
  split; [exact H1|].
  rewrite (surjective_pairing (Admin.delete_job _ _)), H2, H4; [done| |].
  - vm_compute. by intros [=]%list_elem_of_singleton.
  - vm_compute. by intros [=]%list_elem_of_singleton.
Defined.

(** ** Experience and education: whose rows they are *)
Section details.
Context {schema : Schema}.

(** X8. A user cannot touch an experience or education row of a profile
    that is not theirs: the update and the delete are answered 403 and
    leave the store as it is. *)
Theorem detail_of_another_is_forbidden (req : Request) (u : AuthUser) (p : Profile)
    (s : Store) :
  req_user req = Some u →
  profile_userId p ≠ userId u →
  (∀ e, lookupBy exp_id (req_param req) (experiences s) = Some e →
        lookupBy profile_id (exp_profileId e) (profiles s) = Some p →
        Profiles.update_experience req s = (json Forbidden "Not authorized", s)
        ∧ Profiles.delete_experience req s = (json Forbidden "Not authorized", s))
  ∧ (∀ e, lookupBy edu_id (req_param req) (educations s) = Some e →
          lookupBy profile_id (edu_profileId e) (profiles s) = Some p →
          Profiles.update_education req s = (json Forbidden "Not authorized", s)
          ∧ Profiles.delete_education req s = (json Forbidden "Not authorized", s)).
Proof.
  intros U N. split; intros e E P; split.
  all: unfold Profiles.update_experience, Profiles.delete_experience,
         Profiles.update_education, Profiles.delete_education,
         Prisma.experience_findUnique_include, Prisma.education_findUnique_include.
  all: run; rewrite U; simpl; rewrite E; simpl; rewrite P.
  all: case_decide; done.
Qed.

End details.

Section experience_life.
Context {schema : Schema}.

Lemma lookupBy_unique {A} (key : A → Id) (l : list A) (r : A) :
  NoDup (key <$> l) → r ∈ l → lookupBy key (key r) l = Some r.
Proof.
  intros N R. destruct (lookupBy key (key r) l) as [r'|] eqn:L.
  - apply lookupBy_Some in L as [L1 L2]. f_equal.
    by apply (NoDup_fmap_inj key l).
  - apply lookupBy_None in L. destruct L. apply list_elem_of_fmap; eauto.
Qed.

(** X9. An experience that POST /profile/experience has added is appended
    to the table and attached to the profile of the caller, which is
    created when the caller had none; the caller can delete it, and then
    the experiences are as before the addition. *)
Theorem experience_add_then_delete (env : Env) (req : Request) (u : AuthUser)
    (s : Store) :
  req_user req = Some u →
  NoDup (profile_id <$> profiles s) →
  status (Profiles.add_experience env req s).1 = Created →
  let s1 := (Profiles.add_experience env req s).2 in
  ∃ e p,
    payload (Profiles.add_experience env req s).1 = PExperience e
    ∧ experiences s1 = experiences s ++ [e]
    ∧ lookupBy profile_userId (userId u) (profiles s1) = Some p
    ∧ exp_profileId e = profile_id p
    ∧ (profiles s1 = profiles s ∨ profiles s1 = profiles s ++ [p])
    ∧ Profiles.delete_experience (request (Some u) (exp_id e) ∅) s1
      = (json OK "Experience deleted", set_experiences (experiences s) s1).
Proof.
  intros U N. cbv zeta.
  assert (D : ∀ e p s1,
    experiences s1 = experiences s ++ [e] →
    (exp_id e ∉ exp_id <$> experiences s) →
    lookupBy profile_id (exp_profileId e) (profiles s1) = Some p →
    profile_userId p = userId u →
    Profiles.delete_experience (request (Some u) (exp_id e) ∅) s1
    = (json OK "Experience deleted", set_experiences (experiences s) s1)).
  { intros e p s1 E F P O.
    unfold Profiles.delete_experience, Prisma.experience_findUnique_include,
      Prisma.experience_delete.
    run. rewrite E. rewrite (lookupBy_snoc exp_id _ _ e) by done. simpl.
    rewrite P. rewrite decide_False by (intros X; by apply X). simpl.
    rewrite decide_True
      by (apply list_elem_of_fmap; exists e; split; [done|]; rewrite ?E;
          apply elem_of_app; right; apply list_elem_of_here).
    simpl. rewrite ?E. by rewrite (removeBy_snoc exp_id). }
  unfold Profiles.add_experience, Prisma.profile_findUnique_userId,
    Prisma.profile_create, Prisma.experience_create.
  run. rewrite U; simpl.
  destruct (_ || _); simpl; [done|].
  destruct (lookupBy profile_userId (userId u) (profiles s)) as [p|] eqn:L; simpl.
  - destruct (valid_experience _); simpl; [|done].
    repeat case_decide; simpl; try done. intros _.
    eexists _, p. split; [done|]. split; [done|]. split; [done|]. split; [done|].
    split; [by left|].
    apply lookupBy_Some in L as [L1 L2].
    apply (D _ p); simpl; try done. by apply lookupBy_unique.
  - destruct (valid_profile _); simpl; [|done].
    repeat case_decide; simpl; try done.
    destruct (valid_experience _); simpl; [|done].
    repeat case_decide; simpl; try done. intros _.
    eexists _, (Profiles.newProfile (newId env MProfile) (userId u) JNull).
    split; [done|]. split; [done|].
    split; [by apply lookupBy_snoc; [apply lookupBy_None|] |].
    split; [done|]. split; [by right|].
    apply (D _ (Profiles.newProfile (newId env MProfile) (userId u) JNull)); simpl;
      try done.
    by apply lookupBy_snoc.
Qed.

(** X10. POST /profile/experience without a title, a company or a start
    date, and POST /profile/education without an institution, a degree, a
    field of study or a start year, are answered 400 before the store is
    read: no profile is created for the caller. *)
Theorem add_detail_requires_fields (env : Env) (req : Request) (u : AuthUser)
    (s : Store) :
  req_user req = Some u →
  (truthy (req_body req !! "title") && truthy (req_body req !! "company")
   && truthy (req_body req !! "startDate") = false →
     Profiles.add_experience env req s
     = (json BadRequest "Title, company, and start date are required", s))
  ∧ (truthy (req_body req !! "institution") && truthy (req_body req !! "degree")
     && truthy (req_body req !! "fieldOfStudy") && truthy (req_body req !! "startYear")
     = false →
       Profiles.add_education env req s
       = (json BadRequest
            "Institution, degree, field of study, and start year are required", s)).
Proof.
  intros U. split; intros M.
  - unfold Profiles.add_experience. run. rewrite U; simpl.
    destruct (truthy (_ !! "title")), (truthy (_ !! "company")),
      (truthy (_ !! "startDate")); simpl in *; done.
  - unfold Profiles.add_education. run. rewrite U; simpl.
    destruct (truthy (_ !! "institution")), (truthy (_ !! "degree")),
      (truthy (_ !! "fieldOfStudy")), (truthy (_ !! "startYear")); simpl in *; done.
Qed.
End experience_life.

(** ** One profile for each user *)
Section one_profile.
Context {schema : Schema}.

Lemma profile_create_unique (p : Profile) (s : Store) :
  profiles_unique s → profiles_unique (Prisma.profile_create p s).2.
Proof.
  unfold profiles_unique, Prisma.profile_create. intros [N1 N2]. run.
  destruct (valid_profile p); simpl; [|done].
  repeat case_decide; simpl; try done.
  by split; apply NoDup_fmap_snoc.
Qed.

Lemma profile_create_frame (p : Profile) (s : Store) :
  experiences (Prisma.profile_create p s).2 = experiences s
  ∧ educations (Prisma.profile_create p s).2 = educations s.
Proof.
  unfold Prisma.profile_create. run.
  destruct (valid_profile p); simpl; [|done].
  repeat case_decide; simpl; done.
Qed.

Lemma profile_upsert_unique (u : Id) (f : Profile → Profile) (c : Profile) (s : Store) :
  (∀ p, profile_id (f p) = profile_id p ∧ profile_userId (f p) = profile_userId p) →
  profiles_unique s → profiles_unique (Prisma.profile_upsert u f c s).2.
Proof.
  intros F N. unfold Prisma.profile_upsert. run.
  destruct (lookupBy profile_userId u (profiles s)) as [p|] eqn:L; simpl.
  - destruct (valid_profile (f p)); simpl; [|done].
    destruct N as [N1 N2]. apply lookupBy_Some in L as [L1 L2].
    unfold profiles_unique; simpl.
    rewrite !fmap_replaceBy; [done| |].
    + intros r R K. assert (r = p) as ->
        by (apply (NoDup_fmap_inj profile_userId (profiles s)); congruence).
      apply F.
    + intros r R K. assert (r = p) as ->
        by (apply (NoDup_fmap_inj profile_userId (profiles s)); congruence).
      apply F.
  - by apply profile_create_unique.
Qed.

(** X11. No route of the profile creates a second profile for a user or
    reuses a profile id: the profiles keep their primary key and their
    unique userId under GET /profile, the three PUT routes of the basic
    information, the about text and the skills, and the two POST routes
    of experience and education. *)
Theorem profiles_stay_unique (env : Env) (req : Request) (s : Store) :
  profiles_unique s →
  profiles_unique (Profiles.get_my_profile env req s).2
  ∧ profiles_unique (Profiles.update_basic env req s).2
  ∧ profiles_unique (Profiles.update_about env req s).2
  ∧ profiles_unique (Profiles.update_skills env req s).2
  ∧ profiles_unique (Profiles.add_experience env req s).2
  ∧ profiles_unique (Profiles.add_education env req s).2.
Proof.
  intros N. split; [|split; [|split; [|split; [|split]]]].
  - unfold Profiles.get_my_profile, Prisma.profile_findUnique_userId_include,
      Prisma.user_findUnique, Prisma.profile_create_include.
    run. destruct (req_user req) as [u|]; simpl; [|done].
    destruct (lookupBy profile_userId _ _); simpl; [done|].
    destruct (lookupBy user_id _ _); simpl; [|done].
    pose proof (profile_create_unique
                  (Profiles.newProfile (newId env MProfile) (userId u) (JStr (user_name u0)))
                  s N) as X.
    by destruct (Prisma.profile_create _ s) as [[] ?].
  - unfold Profiles.update_basic. run. destruct (req_user req) as [u|]; simpl; [|done].
    match goal with |- context [Prisma.profile_upsert ?a ?f ?c s] =>
      pose proof (profile_upsert_unique a f c s (λ p, conj eq_refl eq_refl) N) as X;
      by destruct (Prisma.profile_upsert a f c s) as [[] ?] end.
  - unfold Profiles.update_about, try_catch_with. run.
    destruct (req_user req) as [u|]; simpl; [|done].
    match goal with |- context [Prisma.profile_upsert ?a ?f ?c s] =>
      pose proof (profile_upsert_unique a f c s (λ p, conj eq_refl eq_refl) N) as X;
      by destruct (Prisma.profile_upsert a f c s) as [[] ?] end.
  - unfold Profiles.update_skills, try_catch_with. run.
    destruct (req_user req) as [u|]; simpl; [|done].
    destruct (Profiles.isArray _); simpl; [|done].
    match goal with |- context [Prisma.profile_upsert ?a ?f ?c s] =>
      pose proof (profile_upsert_unique a f c s (λ p, conj eq_refl eq_refl) N) as X;
      by destruct (Prisma.profile_upsert a f c s) as [[] ?] end.
  - unfold Profiles.add_experience, Prisma.profile_findUnique_userId,
      Prisma.experience_create.
    run. destruct (req_user req) as [u|]; simpl; [|done].
    destruct (_ || _); simpl; [done|].
    destruct (lookupBy profile_userId _ _); simpl.
    + repeat (case_match; simpl in *; simplify_eq/=); done.
    + pose proof (profile_create_unique
                    (Profiles.newProfile (newId env MProfile) (userId u) JNull) s N) as X.
      destruct (Prisma.profile_create _ s) as [[] s1]; simpl in *; try done.
      repeat (case_match; simpl in *; simplify_eq/=); done.
  - unfold Profiles.add_education, Prisma.profile_findUnique_userId,
      Prisma.education_create.
    run. destruct (req_user req) as [u|]; simpl; [|done].
    destruct (_ || _); simpl; [done|].
    destruct (lookupBy profile_userId _ _); simpl.
    + repeat (case_match; simpl in *; simplify_eq/=); done.
    + pose proof (profile_create_unique
                    (Profiles.newProfile (newId env MProfile) (userId u) JNull) s N) as X.
      destruct (Prisma.profile_create _ s) as [[] s1]; simpl in *; try done.
      repeat (case_match; simpl in *; simplify_eq/=); done.
Qed.
End one_profile.

(** ** Writing the same profile fields twice *)
Section upsert_twice.
Context {schema : Schema}.

Lemma lookupBy_replaceBy {A} (key : A → Id) k r' (l : list A) r :
  key r' = k → lookupBy key k l = Some r →
  lookupBy key k (replaceBy key k r' l) = Some r'.
Proof.
  intros K. unfold lookupBy, replaceBy. induction l as [|x l IH]; [done|].
  rewrite fmap_cons, !filter_cons. destruct (decide (key x = k)) as [X|X]; simpl.
  - intros _. destruct (decide (key r' = k)) as [|n]; [done | by destruct n].
  - destruct (decide (key x = k)); [done|]. apply IH.
Qed.

Lemma replaceBy_same {A} (key : A → Id) k r' (l : list A) :
  (∀ r, r ∈ l → key r = k → r = r') → replaceBy key k r' l = l.
Proof.
  intros H. unfold replaceBy. induction l as [|x l IH]; [done|].
  rewrite fmap_cons. f_equal.
  - case_decide; [|done]. symmetry. apply H; [apply list_elem_of_here | done].
  - apply IH. intros r R. apply H. by apply list_elem_of_further.
Qed.

Lemma replaceBy_twice {A} (key : A → Id) k r' (l : list A) :
  replaceBy key k r' (replaceBy key k r' l) = replaceBy key k r' l.
Proof.
  apply replaceBy_same. unfold replaceBy.
  intros r (x & -> & X)%list_elem_of_fmap E. by case_decide.
Qed.

(** An upsert that went through, done again with the same fields, changes
    nothing and returns the same row. *)
Lemma profile_upsert_twice (u : Id) (f : Profile → Profile) (c c' p1 : Profile)
    (s s1 : Store) :
  (∀ p, f (f p) = f p) → (∀ p, profile_userId (f p) = profile_userId p) →
  f c = c → profile_userId c = u →
  Prisma.profile_upsert u f c s = (Value p1, s1) →
  Prisma.profile_upsert u f c' s1 = (Value p1, s1).
Proof.
  intros F1 F2 C1 C2. unfold Prisma.profile_upsert, Prisma.profile_create. run.
  destruct (lookupBy profile_userId u (profiles s)) as [p|] eqn:L; simpl.
  - destruct (valid_profile (f p)) eqn:V; simpl; [|done]. intros [= <- <-]. simpl.
    assert (K : profile_userId (f p) = u)
      by (rewrite F2; apply (lookupBy_Some _ _ _ _ L)).
    rewrite (lookupBy_replaceBy profile_userId u (f p) _ p K L).
    rewrite F1, V. simpl. by rewrite replaceBy_twice.
  - destruct (valid_profile c) eqn:V; simpl; [|done].
    repeat case_decide; simpl; try done. intros [= <- <-]. simpl.
    apply lookupBy_None in L.
    rewrite (lookupBy_snoc profile_userId u _ c L C2). rewrite C1, V. simpl.
    rewrite replaceBy_same; [done|].
    intros r [R | ->%list_elem_of_singleton]%elem_of_app; [|done].
    intros E. destruct L. apply list_elem_of_fmap; eauto.
Qed.

Lemma profile_upsert_again (u : Id) (f : Profile → Profile) (c : Profile) (s : Store) :
  (∀ p, f (f p) = f p) → (∀ p, profile_userId (f p) = profile_userId p) →
  f c = c → profile_userId c = u →
  match Prisma.profile_upsert u f c s with
  | (Value p1, s1) => ∀ c', Prisma.profile_upsert u f c' s1 = (Value p1, s1)
  | (Sent _, _) => False
  | (Raised _, _) => True
  end.
Proof.
  intros F1 F2 C1 C2.
  destruct (Prisma.profile_upsert u f c s) as [[p1| |] s1] eqn:E; try done.
  - intros c'. by apply (profile_upsert_twice u f c c' p1 s s1).
  - revert E. unfold Prisma.profile_upsert, Prisma.profile_create. run.
    repeat (case_match; simpl in *; simplify_eq/=); done.
Qed.

Lemma orKeep_twice (a : option jsval) (v : jsval) : orKeep a (orKeep a v) = orKeep a v.
Proof. by destruct a. Qed.

Lemma orKeep_orNull (a : option jsval) : orKeep a (orNull a) = orNull a.
Proof. by destruct a. Qed.

Ltac upsert_fields :=
  simpl; intros; try done; f_equal; auto using orKeep_twice, orKeep_orNull.

(** X12. The three PUT routes of the profile are idempotent: once one of
    them has answered 200, the same request again, with whatever the
    database would generate for a new row, gets the same answer and
    leaves the store as the first call left it. *)
Theorem profile_writes_idempotent (env env' : Env) (req : Request) (s : Store) :
  (status (Profiles.update_basic env req s).1 = OK →
     Profiles.update_basic env' req (Profiles.update_basic env req s).2
     = Profiles.update_basic env req s)
  ∧ (reply_status (Profiles.update_about env req s).1 = OK →
       Profiles.update_about env' req (Profiles.update_about env req s).2
       = Profiles.update_about env req s)
  ∧ (reply_status (Profiles.update_skills env req s).1 = OK →
       Profiles.update_skills env' req (Profiles.update_skills env req s).2
       = Profiles.update_skills env req s).
Proof.
  split; [|split].
  - unfold Profiles.update_basic. run.
    destruct (req_user req) as [u|]; simpl; [|done].
    match goal with |- context [Prisma.profile_upsert ?a ?f ?c s] =>
      assert (X := profile_upsert_again a f c s
                     ltac:(upsert_fields) ltac:(upsert_fields)
                     ltac:(upsert_fields) ltac:(upsert_fields));
      destruct (Prisma.profile_upsert a f c s) as [[]]; simpl; try done;
      cbv beta iota in X; intros _; by rewrite X
    end.
  - unfold Profiles.update_about, try_catch_with. run.
    destruct (req_user req) as [u|]; simpl; [|done].
    match goal with |- context [Prisma.profile_upsert ?a ?f ?c s] =>
      assert (X := profile_upsert_again a f c s
                     ltac:(upsert_fields) ltac:(upsert_fields)
                     ltac:(upsert_fields) ltac:(upsert_fields));
      destruct (Prisma.profile_upsert a f c s) as [[]]; simpl; try done;
      cbv beta iota in X; intros _; by rewrite X
    end.
  - unfold Profiles.update_skills, try_catch_with. run.
    destruct (req_user req) as [u|]; simpl; [|done].
    destruct (Profiles.isArray _); simpl; [|done].
    match goal with |- context [Prisma.profile_upsert ?a ?f ?c s] =>
      assert (X := profile_upsert_again a f c s
                     ltac:(upsert_fields) ltac:(upsert_fields)
                     ltac:(upsert_fields) ltac:(upsert_fields));
      destruct (Prisma.profile_upsert a f c s) as [[]]; simpl; try done;
      cbv beta iota in X; intros _; by rewrite X
    end.
Qed.
End upsert_twice.

(** ** The status of an application *)
Section status.
Context {schema : Schema}.

Lemma includes_validStatuses (v : option jsval) :
  Applications.includes Applications.validStatuses v = true →
  ∃ x st, v = Some (JStr x) ∧ Prisma.statusOf x = Some st.
Proof.
  destruct v as [[]|]; try done. simpl. intros X%bool_decide_eq_true.
  unfold Applications.validStatuses in X.
  repeat (apply elem_of_cons in X as [->|X]; [by eexists _, _|]).
  by apply elem_of_nil in X.
Qed.

(** X13. PATCH /applications/:id/status by a recruiter: a status that is
    not one of the four names is answered 400 whether or not the
    application exists; the recruiter of another job is answered 403; in
    both cases the store is unchanged.  When the route answers 200 the
    caller owns the job of the application, and the store differs from the
    old one in the status of that application only. *)
Theorem update_status_effect (req : Request) (u : AuthUser) (s : Store) :
  req_user req = Some u → role u = RECRUITER →
  let id := req_param req in
  let status' := req_body req !! "status" in
  (Applications.includes Applications.validStatuses status' = false →
     Applications.update_status req s = (json BadRequest "Invalid status", s))
  ∧ (∀ a j, Applications.includes Applications.validStatuses status' = true →
       lookupBy app_id id (applications s) = Some a →
       lookupBy job_id (app_jobId a) (jobs s) = Some j →
       job_recruiterId j ≠ userId u →
       Applications.update_status req s = (json Forbidden "Not authorized", s))
  ∧ (status (Applications.update_status req s).1 = OK →
       ∃ a j x st,
         lookupBy app_id id (applications s) = Some a
         ∧ lookupBy job_id (app_jobId a) (jobs s) = Some j
         ∧ job_recruiterId j = userId u
         ∧ status' = Some (JStr x) ∧ Prisma.statusOf x = Some st
         ∧ Applications.update_status req s
           = (jsonWith OK (Some "Status updated") (PApplication (with_status st a)),
              set_applications (replaceBy app_id id (with_status st a) (applications s)) s)).
Proof.
  intros U R id status'.
  unfold Applications.update_status, Prisma.application_findUnique_include_job,
    Prisma.application_update_status.
  run. rewrite U; simpl. rewrite R; simpl. fold status'. fold id.
  split; [|split].
  - by intros ->.
  - intros a j -> A J N. simpl. rewrite A; simpl. rewrite J.
    by rewrite decide_True.
  - destruct (Applications.includes _ status') eqn:V; simpl; [|done].
    apply includes_validStatuses in V as (x & st & -> & St).
    destruct (lookupBy app_id id (applications s)) as [a|] eqn:A; simpl; [|done].
    destruct (lookupBy job_id (app_jobId a) (jobs s)) as [j|] eqn:J; simpl; [|done].
    case_decide as O; simpl; [done|].
    rewrite A, St. simpl. intros _.
    exists a, j, x, st. split; [done|]. split; [done|].
    split; [by destruct (decide (job_recruiterId j = userId u)); [|destruct O] |].
    done.
Qed.
End status.

(** ** Withdrawing an application *)
Section withdrawing.

(** X14. DELETE /applications/:id by a job seeker answers 404 when the
    application does not exist and 403 when it is someone else's, leaving
    the store as it is; the applicant's own withdrawal removes that
    application and keeps every other one. *)
Theorem withdraw_only_own (req : Request) (u : AuthUser) (s : Store) :
  req_user req = Some u → role u = JOB_SEEKER →
  let id := req_param req in
  (id ∉ app_id <$> applications s →
     Applications.withdraw req s = (json NotFound "Application not found", s))
  ∧ (∀ a, lookupBy app_id id (applications s) = Some a →
       if decide (app_userId a = userId u) then
         Applications.withdraw req s
         = (json OK "Application withdrawn",
            set_applications (removeBy app_id id (applications s)) s)
         ∧ (id ∉ app_id <$> removeBy app_id id (applications s))
         ∧ (∀ b, b ∈ applications s → app_id b ≠ id →
                 b ∈ removeBy app_id id (applications s))
       else
         Applications.withdraw req s = (json Forbidden "Not authorized", s)).
Proof.
  intros U R id.
  unfold Applications.withdraw, Prisma.application_findUnique, Prisma.application_delete.
  run. rewrite U; simpl. rewrite R; simpl. fold id. split.
  - intros N. by rewrite (proj2 (lookupBy_None app_id _ _) N).
  - intros a A. rewrite A; simpl. apply lookupBy_Some in A as [A1 A2].
    destruct (decide (app_userId a = userId u)) as [O|O].
    + rewrite decide_False by (intros X; by apply X). simpl.
      rewrite decide_True by (apply list_elem_of_fmap; eauto). simpl.
      split; [done|]. split; [apply removeBy_gone|].
      intros b B N. by apply list_elem_of_filter.
    + by rewrite decide_True.
Qed.
End withdrawing.

(** ** The lists of a job seeker and of a recruiter *)
Section lists.

Global Instance latest_first_trans : Transitive Prisma.latest_first.
Proof. unfold Prisma.latest_first. intros a b c. lia. Qed.

Global Instance latest_first_total : Total Prisma.latest_first.
Proof. unfold Prisma.latest_first. intros a b. lia. Qed.

Global Instance saved_latest_first_trans : Transitive Prisma.saved_latest_first.
Proof. unfold Prisma.saved_latest_first. intros a b c. lia. Qed.

Global Instance saved_latest_first_total : Total Prisma.saved_latest_first.
Proof. unfold Prisma.saved_latest_first. intros a b. lia. Qed.

Lemma fmap_fst_pair {A B} (g : A → B) (l : list A) : ((λ x, (x, g x)) <$> l).*1 = l.
Proof. rewrite <- list_fmap_compose. apply list_fmap_id. Qed.

(** X15. The two lists of a job seeker, GET /applications/my-applications
    and GET /saved-jobs, hold the caller's own rows, all of them and no
    row of anyone else, the newest first, and leave the store alone. *)
Theorem seeker_lists_are_own (req : Request) (u : AuthUser) (s : Store) :
  req_user req = Some u → role u = JOB_SEEKER →
  (∃ rows,
     Applications.my_applications req s = (Success OK None rows, s)
     ∧ rows.*1 ≡ₚ filter (λ a, app_userId a = userId u) (applications s)
     ∧ Forall (λ a, app_userId a = userId u) rows.*1
     ∧ StronglySorted Prisma.latest_first rows.*1)
  ∧ (∃ rows,
       SavedJobs.saved_jobs req s = (Success OK None rows, s)
       ∧ rows.*1 ≡ₚ filter (λ r, saved_userId r = userId u) (savedJobs s)
       ∧ Forall (λ r, saved_userId r = userId u) rows.*1
       ∧ StronglySorted Prisma.saved_latest_first rows.*1).
Proof.
  intros U R. split.
  - unfold Applications.my_applications, Prisma.application_findMany_userId,
      try_catch_with.
    run. rewrite U; simpl. rewrite R; simpl.
    eexists. split; [reflexivity|]. unfold Prisma.withJob. rewrite fmap_fst_pair.
    split; [apply merge_sort_Permutation|].
    split; [|apply StronglySorted_merge_sort; apply _].
    apply Forall_forall. intros a. rewrite merge_sort_Permutation.
    by intros [? _]%list_elem_of_filter.
  - unfold SavedJobs.saved_jobs, Prisma.savedJob_findMany_userId, try_catch_with.
    run. rewrite U; simpl. rewrite R; simpl.
    eexists. split; [reflexivity|]. rewrite fmap_fst_pair.
    split; [apply merge_sort_Permutation|].
    split; [|apply StronglySorted_merge_sort; apply _].
    apply Forall_forall. intros a. rewrite merge_sort_Permutation.
    by intros [? _]%list_elem_of_filter.
Qed.

(** X16. The two lists of a recruiter: GET /jobs/my-jobs holds the
    caller's jobs, the newest first, each with the number of its
    applications; GET /jobs/:id/applicants answers 404 for a missing job
    and 403 for the job of another recruiter, and for the caller's own job
    holds the applications to that job and no other, the newest first. *)
Theorem recruiter_lists_are_own (req : Request) (u : AuthUser) (s : Store) :
  req_user req = Some u → role u = RECRUITER →
  (∃ rows,
     Jobs.my_jobs req s = (Success OK None rows, s)
     ∧ rows.*1 ≡ₚ filter (λ j, job_recruiterId j = userId u) (jobs s)
     ∧ StronglySorted Prisma.newest_first rows.*1
     ∧ Forall (λ r, r.2 = length (filter (λ a, app_jobId a = job_id r.1) (applications s)))
         rows)
  ∧ (req_param req ∉ job_id <$> jobs s →
       Jobs.applicants req s = (Failure (json NotFound "Job not found"), s))
  ∧ (∀ j, lookupBy job_id (req_param req) (jobs s) = Some j →
       if decide (job_recruiterId j = userId u) then
         ∃ rows,
           Jobs.applicants req s = (Success OK None rows, s)
           ∧ rows.*1 ≡ₚ filter (λ a, app_jobId a = req_param req) (applications s)
           ∧ StronglySorted Prisma.latest_first rows.*1
       else Jobs.applicants req s = (Failure (json Forbidden "Not authorized"), s)).
Proof.
  intros U R. split; [|split].
  - unfold Jobs.my_jobs, Prisma.job_findMany_recruiterId_count, try_catch_with.
    run. rewrite U; simpl. rewrite R; simpl.
    eexists. split; [reflexivity|]. rewrite fmap_fst_pair.
    split; [apply merge_sort_Permutation|].
    split; [apply StronglySorted_merge_sort; apply _|].
    apply Forall_fmap, Forall_forall. by intros j _.
  - intros N. unfold Jobs.applicants, Prisma.job_findUnique, try_catch_with.
    run. rewrite U; simpl. rewrite R; simpl.
    by rewrite (proj2 (lookupBy_None job_id _ _) N).
  - intros j J. unfold Jobs.applicants, Prisma.job_findUnique,
      Prisma.application_findMany_jobId, try_catch_with.
    run. rewrite U; simpl. rewrite R; simpl. rewrite J; simpl.
    destruct (decide (job_recruiterId j = userId u)) as [O|O].
    + rewrite decide_False by (intros X; by apply X). simpl.
      eexists. split; [reflexivity|]. rewrite fmap_fst_pair.
      split; [apply merge_sort_Permutation|].
      apply StronglySorted_merge_sort; apply _.
    + by rewrite decide_True.
Qed.
End lists.

(** ** The administration *)
Section administration.
Context {schema : Schema}.

Lemma length_by_role (l : list User) :
  length (filter (λ u, user_role u = JOB_SEEKER) l)
  + length (filter (λ u, user_role u = RECRUITER) l)
  + length (filter (λ u, user_role u = ADMIN) l) = length l.
Proof.
  induction l as [|u l IH]; [done|].
  rewrite !filter_cons. destruct (user_role u); simpl; lia.
Qed.

(** X17. GET /admin/stats: the three totals are the sizes of the three
    tables, and the break-down of the users by role has one entry for
    each role that some user has, no role twice, no empty group, and its
    counts add up to the total of the users. *)
Theorem stats_add_up (req : Request) (a : AuthUser) (s : Store) :
  req_user req = Some a → role a = ADMIN →
  ∃ st,
    Admin.stats req s = (Success OK None st, s)
    ∧ Admin.totalUsers st = length (users s)
    ∧ Admin.totalJobs st = length (jobs s)
    ∧ Admin.totalApplications st = length (applications s)
    ∧ sum_list (Admin.usersByRole st).*2 = Admin.totalUsers st
    ∧ NoDup (Admin.usersByRole st).*1
    ∧ (∀ r n, (r, n) ∈ Admin.usersByRole st ↔
              n ≠ 0 ∧ n = length (filter (λ u, user_role u = r) (users s))).
Proof.
  intros U R. unfold Admin.stats, Prisma.user_count, Prisma.job_count,
    Prisma.application_count, Prisma.user_groupBy_role, try_catch_with.
  run. rewrite U; simpl. rewrite R; simpl.
  eexists. split; [reflexivity|]. simpl.
  do 3 (split; [done|]). split; [|split].
  - pose proof (length_by_role (users s)) as L.
    rewrite !filter_cons. repeat case_decide; simpl in *; lia.
  - rewrite !filter_cons. repeat case_decide; simpl.
    all: repeat (apply NoDup_cons; split;
                 [intros X; repeat (apply elem_of_cons in X as [?|X]; [done|]);
                  by apply elem_of_nil in X |]).
    all: apply NoDup_nil_2.
  - intros r n. rewrite list_elem_of_filter. simpl. split.
    + intros [N X]. split; [done|].
      repeat (apply elem_of_cons in X as [[= -> ->]|X]; [done|]).
      by apply elem_of_nil in X.
    + intros [N ->]. split; [done|].
      destruct r; [| |]; repeat constructor.
Qed.

(** X18. PATCH /admin/users/:id/role by an admin: a role that is not one
    of the three names is answered 400 and a user that does not exist 500,
    the store unchanged; otherwise the role of that user is set and
    nothing else of the store changes. *)
Theorem update_role_effect (req : Request) (a : AuthUser) (s : Store) :
  req_user req = Some a → role a = ADMIN →
  let id := req_param req in
  (Applications.includes Admin.validRoles (req_body req !! "role") = false →
     Admin.update_role req s = (Failure (json BadRequest "Invalid role"), s))
  ∧ (∀ x r, req_body req !! "role" = Some (JStr x) → Prisma.roleOf x = Some r →
       (id ∉ user_id <$> users s →
          Admin.update_role req s = (Failure (json Internal "Server error"), s))
       ∧ (∀ w, lookupBy user_id id (users s) = Some w →
            Admin.update_role req s
            = (Success OK (Some "Role updated") (summary w, r),
               set_users (replaceBy user_id id (with_role r w) (users s)) s))).
Proof.
  intros U R id. unfold Admin.update_role, Prisma.user_update_role, try_catch_with.
  run. rewrite U; simpl. rewrite R; simpl. fold id. split.
  - by intros ->.
  - intros x r -> Rx.
    assert (Applications.includes Admin.validRoles (Some (JStr x)) = true) as ->.
    { revert Rx. unfold Prisma.roleOf, Admin.validRoles. simpl.
      repeat case_decide; subst; try done; intros _; apply bool_decide_eq_true;
        repeat constructor. }
    simpl. split.
    + intros N. by rewrite (proj2 (lookupBy_None user_id _ _) N).
    + intros w W. rewrite W, Rx. done.
Qed.

(** X19. The cascade of DELETE /admin/users/:id is not undone when its
    last step fails.  With a schema that restricts the deletion of a user
    who has a profile, the route answers 500 for such a user and the user
    and the profile are still there, but the applications, saved jobs and
    jobs of the user have been deleted. *)
Theorem delete_user_half_done (req : Request) (a : AuthUser) (s : Store) :
  profile_onDelete = Restrict →
  req_user req = Some a → role a = ADMIN →
  req_param req ∈ profile_userId <$> profiles s →
  let id := req_param req in
  let s' := (Admin.delete_user req s).2 in
  (Admin.delete_user req s).1 = json Internal "Server error"
  ∧ users s' = users s ∧ profiles s' = profiles s
  ∧ (id ∉ app_userId <$> applications s')
  ∧ (id ∉ saved_userId <$> savedJobs s')
  ∧ (id ∉ job_recruiterId <$> jobs s').
Proof.
  intros C U R P id s'. unfold s'. clear s'.
  unfold Admin.delete_user, Prisma.application_deleteMany_userId,
    Prisma.savedJob_deleteMany_userId, Prisma.job_findMany_recruiterId,
    Prisma.job_deleteMany_recruiterId, Prisma.user_delete.
  run. rewrite U; simpl. rewrite R; simpl.
  rewrite forEach_job_cleanup by done. simpl. rewrite C. fold id.
  set (mine := job_id <$> filter (λ j, job_recruiterId j = id) (jobs s)).
  pose proof (removeBy_gone job_recruiterId id (jobs s)) as GJ.
  assert (GA : id ∉ app_userId <$> filter (λ a, app_jobId a ∉ mine)
                                     (removeBy app_userId id (applications s))).
  { intros (x & E & [_ [X _]%list_elem_of_filter]%list_elem_of_filter)%list_elem_of_fmap.
    by apply X. }
  assert (GS : id ∉ saved_userId <$> filter (λ a, saved_jobId a ∉ mine)
                                       (removeBy saved_userId id (savedJobs s))).
  { intros (x & E & [_ [X _]%list_elem_of_filter]%list_elem_of_filter)%list_elem_of_fmap.
    by apply X. }
  assert (OW : profile_id <$> filter (λ p, profile_userId p = id) (profiles s) ≠ []).
  { intros E%fmap_nil_inv. apply lookupBy_is_Some in P as [p P].
    unfold lookupBy in P. fold id in P. by rewrite E in P. }
  repeat case_decide; simpl; try done; try tauto.
  all: match goal with X : Exists _ (filter _ _) |- _ =>
         apply Exists_exists in X as (x & [X1 _]%list_elem_of_filter & X2) end.
  all: done.
Qed.
End administration.

(** ** The public view of a profile *)
Section public_view.
Context {schema : Schema}.

(** X21. For a user who has a profile, the public GET /profile/:userId
    returns what the user's own GET /profile returns, and neither changes
    the store. *)
Theorem public_profile_is_own_profile (env : Env) (req : Request) (u : AuthUser)
    (s : Store) :
  req_user req = Some u →
  userId u ∈ profile_userId <$> profiles s →
  Profiles.get_profile (request None (userId u) ∅) s = Profiles.get_my_profile env req s
  ∧ (Profiles.get_my_profile env req s).2 = s
  ∧ status (Profiles.get_my_profile env req s).1 = OK.
Proof.
  intros U [p P]%lookupBy_is_Some.
  unfold Profiles.get_profile, Profiles.get_my_profile,
    Prisma.profile_findUnique_userId_include.
  run. rewrite U; simpl. by rewrite P.
Qed.
End public_view.

Lemma public_profile_is_own_profile_witness :
  Profiles.get_profile (schema := permissive Cascade) (request None "u1" ∅) career
  = Profiles.get_my_profile (schema := permissive Cascade) env1
      (request (token seeker) "" ∅) career.
Proof.
  apply (public_profile_is_own_profile (schema := permissive Cascade) env1
           (request (token seeker) "" ∅) {| userId := "u1"; role := JOB_SEEKER |} career);
    [reflexivity|].
  vm_compute. apply list_elem_of_here.
Defined.

(** ** The properties above on the sample data *)

Lemma detail_of_another_is_forbidden_witness :
  Profiles.update_experience (schema := permissive Cascade)
    (request (token recruiter) "x1" experienceBody) career
  = (json Forbidden "Not authorized", career).
Proof.
  destruct (detail_of_another_is_forbidden (schema := permissive Cascade)
              (request (token recruiter) "x1" experienceBody)
              {| userId := "r1"; role := RECRUITER |}
              (Profiles.newProfile "f2" "u1" (JStr "Sam")) career) as [H _];
    [reflexivity | discriminate |].
  by destruct (H _ eq_refl eq_refl).
Defined.

Lemma experience_add_then_delete_witness :
  let s1 := (Profiles.add_experience (schema := permissive Cascade) env1
               (request (token seeker) "" experienceBody) people).2 in
  Profiles.delete_experience (request (token seeker) "n1" ∅) s1
  = (json OK "Experience deleted", set_experiences [] s1).
Proof.
  intros s1.
  destruct (experience_add_then_delete (schema := permissive Cascade) env1
              (request (token seeker) "" experienceBody)
              {| userId := "u1"; role := JOB_SEEKER |} people)
    as (e & p & E & _ & _ & _ & _ & D);
    [reflexivity | apply NoDup_nil_2 | reflexivity |].
  vm_compute in E. injection E as <-. exact D.
Defined.

Lemma add_detail_requires_fields_witness :
  Profiles.add_experience (schema := permissive Cascade) env1
    (request (token seeker) "" {[ "title" := JStr "Engineer" ]}) people
  = (json BadRequest "Title, company, and start date are required", people).
Proof.
  by apply (add_detail_requires_fields (schema := permissive Cascade) env1
              (request (token seeker) "" {[ "title" := JStr "Engineer" ]})
              {| userId := "u1"; role := JOB_SEEKER |} people).
Defined.

Lemma profiles_stay_unique_witness :
  let r := Profiles.update_about (schema := permissive Cascade) env1
             (request (token seeker) "" {[ "about" := JStr "Hello" ]}) career in
  reply_status r.1 = OK ∧ length (profiles r.2) = 1 ∧ profiles_unique r.2.
Proof.
  split; [reflexivity | split; [reflexivity |]].
  destruct (profiles_stay_unique (schema := permissive Cascade) env1
              (request (token seeker) "" {[ "about" := JStr "Hello" ]}) career)
    as (_ & _ & H & _); [|exact H].
  unfold profiles_unique; simpl. split; apply NoDup_singleton.
Defined.

Lemma profile_writes_idempotent_witness :
  let req := request (token seeker) "" {[ "name" := JStr "Samuel" ]} in
  let r := Profiles.update_basic (schema := permissive Cascade) env1 req people in
  status r.1 = OK
  ∧ length (profiles r.2) = 1
  ∧ Profiles.update_basic (schema := permissive Cascade) env2 req r.2 = r.
Proof.
  intros req r. split; [reflexivity | split; [reflexivity |]].
  destruct (profile_writes_idempotent (schema := permissive Cascade) env1 env2 req people)
    as (H & _).
  by apply H.
Defined.

Lemma update_status_effect_witness :
  let req := request (token recruiter) "p1" {[ "status" := JStr "ACCEPTED" ]} in
  app_status <$> applications
    (Applications.update_status req applied).2
  = [ACCEPTED]
  ∧ Applications.update_status
      (request (token recruiter) "p1" {[ "status" := JStr "accepted" ]}) applied
    = (json BadRequest "Invalid status", applied).
Proof.
  intros req. split.
  - destruct (update_status_effect req
                {| userId := "r1"; role := RECRUITER |} applied eq_refl eq_refl)
      as (_ & _ & H).
    destruct H as (a & j & x & st & A & _ & _ & X & St & E); [reflexivity|].
    rewrite E. vm_compute in A, X. injection A as <-. injection X as <-.
    vm_compute in St. by injection St as <-.
  - by apply (update_status_effect
                (request (token recruiter) "p1" {[ "status" := JStr "accepted" ]})
                {| userId := "r1"; role := RECRUITER |} applied eq_refl eq_refl).
Defined.

Lemma withdraw_only_own_witness :
  Applications.withdraw (request (token seeker) "p1" ∅) applied
  = (json OK "Application withdrawn", board)
  ∧ Applications.withdraw (request (token seeker) "p9" ∅) applied
    = (json NotFound "Application not found", applied).
Proof.
  destruct (withdraw_only_own (request (token seeker) "p1" ∅)
              {| userId := "u1"; role := JOB_SEEKER |} applied eq_refl eq_refl)
    as [_ H].
  destruct (withdraw_only_own (request (token seeker) "p9" ∅)
              {| userId := "u1"; role := JOB_SEEKER |} applied eq_refl eq_refl)
    as [H' _].
  split.
  - specialize (H _ eq_refl). simpl in H. by destruct H as [-> _].
  - apply H'. vm_compute. by intros [=]%list_elem_of_singleton.
Defined.

Lemma seeker_lists_are_own_witness :
  ∃ rows, Applications.my_applications (request (token seeker) "" ∅) busy
          = (Success OK None rows, busy)
          ∧ app_id <$> rows.*1 = ["p1"].
Proof.
  destruct (seeker_lists_are_own (request (token seeker) "" ∅)
              {| userId := "u1"; role := JOB_SEEKER |} busy eq_refl eq_refl)
    as [(rows & E & _) _].
  exists rows. split; [exact E|]. vm_compute in E. by injection E as <-.
Defined.

Lemma recruiter_lists_are_own_witness :
  ∃ rows, Jobs.my_jobs (request (token recruiter) "" ∅) busy
          = (Success OK None rows, busy)
          ∧ (λ r, (job_id r.1, r.2)) <$> rows = [("j3", 0); ("j2", 0); ("j1", 1)].
Proof.
  destruct (recruiter_lists_are_own (request (token recruiter) "" ∅)
              {| userId := "r1"; role := RECRUITER |} busy eq_refl eq_refl)
    as [(rows & E & _) _].
  exists rows. split; [exact E|]. vm_compute in E. by injection E as <-.
Defined.

Lemma stats_add_up_witness :
  ∃ st, Admin.stats (request (token admin) "" ∅) busy = (Success OK None st, busy)
        ∧ Admin.usersByRole st = [(JOB_SEEKER, 1); (RECRUITER, 1); (ADMIN, 1)]
        ∧ Admin.totalJobs st = 3.
Proof.
  destruct (stats_add_up (request (token admin) "" ∅) {| userId := "a1"; role := ADMIN |}
              busy eq_refl eq_refl) as (st & E & _).
  exists st. split; [exact E|]. vm_compute in E. by injection E as <-.
Defined.

Lemma update_role_effect_witness :
  let r := Admin.update_role (request (token admin) "u1" {[ "role" := JStr "RECRUITER" ]})
             people in
  reply_status r.1 = OK ∧ user_role <$> users r.2 = [RECRUITER; RECRUITER; ADMIN].
Proof.
  intros r.
  destruct (update_role_effect (request (token admin) "u1" {[ "role" := JStr "RECRUITER" ]})
              {| userId := "a1"; role := ADMIN |} people eq_refl eq_refl) as [_ H].
  destruct (H "RECRUITER" RECRUITER eq_refl eq_refl) as [_ H'].
  unfold r. by rewrite (H' seeker eq_refl).
Defined.

Lemma delete_user_half_done_witness :
  let r := Admin.delete_user (schema := permissive Restrict)
             (request (token admin) "r1" ∅) busy in
  status r.1 = Internal
  ∧ user_id <$> users r.2 = ["u1"; "r1"; "a1"]
  ∧ jobs r.2 = [] ∧ applications r.2 = [].
Proof.
  intros r.
  destruct (delete_user_half_done (schema := permissive Restrict)
              (request (token admin) "r1" ∅) {| userId := "a1"; role := ADMIN |} busy)
    as (E & _); [reflexivity | reflexivity | reflexivity | |].
  { vm_compute. apply list_elem_of_here. }
  fold r in E. rewrite E. by repeat split.
Defined.

Lemma delete_user_succeeds_witness :
  (Admin.delete_user (schema := permissive Cascade) (request (token admin) "u1" ∅) busy).1
  = json OK "User deleted".
Proof.
  apply (delete_user_succeeds (schema := permissive Cascade)
           (request (token admin) "u1" ∅) {| userId := "a1"; role := ADMIN |} busy);
    try reflexivity.
  vm_compute. apply list_elem_of_here.
Defined.

(** ** Deleting a user: what is spared *)
Section sparing.
Context {schema : Schema}.

(** X20. When DELETE /admin/users/:id answers 200, nothing of anyone else
    is lost: the other users and their profiles, the jobs of the other
    recruiters, and the applications and saved jobs that are neither the
    user's nor for one of the user's jobs are all still there. *)
Theorem delete_user_spares_others (req : Request) (s : Store) :
  status (Admin.delete_user req s).1 = OK →
  let id := req_param req in
  let s' := (Admin.delete_user req s).2 in
  let posted (j : Id) := j ∈ job_id <$> filter (λ j, job_recruiterId j = id) (jobs s) in
  (∀ w, w ∈ users s → user_id w ≠ id → w ∈ users s')
  ∧ (∀ p, p ∈ profiles s → profile_userId p ≠ id → p ∈ profiles s')
  ∧ (∀ j, j ∈ jobs s → job_recruiterId j ≠ id → j ∈ jobs s')
  ∧ (∀ a, a ∈ applications s → app_userId a ≠ id → ¬ posted (app_jobId a) →
          a ∈ applications s')
  ∧ (∀ r, r ∈ savedJobs s → saved_userId r ≠ id → ¬ posted (saved_jobId r) →
          r ∈ savedJobs s').
Proof.
  intros C id s' posted. revert C. unfold s'. clear s'.
  unfold Admin.delete_user, Prisma.application_deleteMany_userId,
    Prisma.savedJob_deleteMany_userId, Prisma.job_findMany_recruiterId,
    Prisma.job_deleteMany_recruiterId, Prisma.user_delete.
  run. destruct (req_user req) as [a|]; simpl; [|done].
  case_decide; simpl; [|done].
  rewrite forEach_job_cleanup by done. simpl. fold id.
  assert (KU : ∀ w, w ∈ users s → user_id w ≠ id → w ∈ removeBy user_id id (users s))
    by (intros; by apply list_elem_of_filter).
  assert (KP : ∀ p, p ∈ profiles s → profile_userId p ≠ id →
                    p ∈ removeBy profile_userId id (profiles s))
    by (intros; by apply list_elem_of_filter).
  assert (KJ : ∀ j, j ∈ jobs s → job_recruiterId j ≠ id →
                    j ∈ removeBy job_recruiterId id (jobs s))
    by (intros; by apply list_elem_of_filter).
  assert (KA : ∀ a, a ∈ applications s → app_userId a ≠ id → ¬ posted (app_jobId a) →
                    a ∈ filter (λ a, app_jobId a ∉ job_id <$> filter
                                       (λ j, job_recruiterId j = id) (jobs s))
                          (removeBy app_userId id (applications s)))
    by (intros; apply list_elem_of_filter; split; [done|]; by apply list_elem_of_filter).
  assert (KS : ∀ r, r ∈ savedJobs s → saved_userId r ≠ id → ¬ posted (saved_jobId r) →
                    r ∈ filter (λ r, saved_jobId r ∉ job_id <$> filter
                                       (λ j, job_recruiterId j = id) (jobs s))
                          (removeBy saved_userId id (savedJobs s)))
    by (intros; apply list_elem_of_filter; split; [done|]; by apply list_elem_of_filter).
  repeat case_decide; simpl; try done.
  all: destruct profile_onDelete; try destruct detail_onDelete.
  all: repeat case_decide; simpl; try done.
  all: by intros _.
Qed.
End sparing.

Lemma delete_user_spares_others_witness :
  let r := Admin.delete_user (schema := permissive Cascade)
             (request (token admin) "u1" ∅) busy in
  status r.1 = OK
  ∧ recruiter ∈ users r.2
  ∧ length (jobs r.2) = 3
  ∧ length (applications r.2) = 0.
Proof.
  intros r. split; [reflexivity | split; [| split; reflexivity]].
  destruct (delete_user_spares_others (schema := permissive Cascade)
              (request (token admin) "u1" ∅) busy eq_refl) as (H & _).
  apply H; [|discriminate].
  vm_compute. apply list_elem_of_further, list_elem_of_here.
Defined.
